(** * Signal detection and confidence aggregation

    A shallow embedding of the analysis core of the Indian-market trading
    assistant: the candlestick detector, the operator-game (manipulation)
    detector, the Smart-Money-Concepts structure detector, the
    multi-timeframe aggregator and the AI confidence engine.

    Conventions of the embedding.
    - A JavaScript [number] is a rational ([Q]).  The arithmetic of the
      source ([+], [-], [*], [/], comparisons, [Math.round], [Math.max],
      [Math.min], [Math.abs]) is exact on the values used below, and
      bars are taken with positive prices (the data layer keeps only
      bars with [close > 0]).  Two things of IEEE arithmetic are
      modelled where the result depends on them: the rounding of the
      quotient and the product under the [Math.round] of the structure
      detector's confidence ([JS.double]), which decides the exact
      halves; and the NaN or infinite quotient of a zero divisor in the
      volume score and in the double-top and double-bottom tests, which
      fails or passes the comparisons that follow.
    - [Math.log] and [Math.sqrt] have no rational counterpart; the one
      function that uses them ([calculateVolatility]) takes them as
      section variables.
    - Arrays are lists.  [a.slice(-n)] is [slice_last n a], [a.slice(i, j)]
      is [slice i j a], [a[i]] is [nth i a d] for a default bar [d]: every
      read below sits under the length guard of its caller, so the default
      is never observed.
    - Free-text fields that interpolate prices with [toFixed] (the
      [description] of structure events, the [indicators] of an operator
      verdict) are left out of the records; enumerated fields, numeric
      fields and the fixed descriptions of technical signals are kept. *)

From Stdlib Require Import String DecimalString.
From Stdlib Require Import QArith Qminmax Qround Qabs Lqa.
From Stdlib Require Import ZArith List Bool Lia Arith.
From Stdlib Require Import Sorted.
From Stdlib Require Import Qpower.
From Equations Require Import Equations.
Import ListNotations.

Set Implicit Arguments.

(** ** JavaScript numbers and arrays *)

Module JS.

Definition number := Q.

Definition ltb (x y : Q) : bool := negb (Qle_bool y x).
Definition gtb (x y : Q) : bool := ltb y x.
Definition leb (x y : Q) : bool := Qle_bool x y.
Definition geb (x y : Q) : bool := Qle_bool y x.

(** [Math.round]: the nearest integer, halves rounded towards +oo. *)
Definition Math_round (x : Q) : Q := inject_Z (Qfloor (x + (1 # 2))).

(** *** Floating point

    [double x] is the IEEE-754 binary64 number nearest to the rational
    [x], ties to even, for [x] in the normal range: with [e] the
    exponent of the unit in the last place, [2^52 <= |x| / 2^e < 2^53],
    it is [|x| / 2^e] rounded to an integer, times [2^e]. *)
Definition roundHalfEven (x : Q) : Z :=
  let f := Qfloor x in
  match Qcompare (x - inject_Z f) (1 # 2) with
  | Lt => f
  | Gt => (f + 1)%Z
  | Eq => if Z.even f then f else (f + 1)%Z
  end.

Definition ulpExponent (x : Q) : Z :=
  let e := (Z.log2 (Qnum x) - Z.log2 (Zpos (Qden x)) - 52)%Z in
  if Qle_bool (2 ^ (e + 52))%Q x then e else (e - 1)%Z.

Definition double (x : Q) : Q :=
  let x := Qred x in
  match Qnum x with
  | Z0 => 0
  | Zpos _ =>
      let e := ulpExponent x in
      Qred (inject_Z (roundHalfEven (x / 2 ^ e)) * 2 ^ e)
  | Zneg _ =>
      let e := ulpExponent (- x) in
      Qred (- (inject_Z (roundHalfEven (- x / 2 ^ e)) * 2 ^ e))
  end.

(** [2^-53], the largest relative error of one rounding. *)
Definition unitRoundoff : Q := 1 # 9007199254740992.

(** [Math.max(...xs)] and [Math.min(...xs)] on a non-empty array. *)
Definition Math_max (xs : list Q) : Q :=
  match xs with
  | [] => 0
  | x :: rest => fold_left Qmax rest x
  end.

Definition Math_min (xs : list Q) : Q :=
  match xs with
  | [] => 0
  | x :: rest => fold_left Qmin rest x
  end.

(** [xs.reduce((sum, x) => sum + x, 0)] *)
Definition sum (xs : list Q) : Q := fold_left Qplus xs 0.

(** [Math.max(0, Math.min(100, x))] *)
Definition clamp100 (x : Q) : Q := Qmax 0 (Qmin 100 x).

Definition ofNat (n : nat) : Q := inject_Z (Z.of_nat n).

Section Arrays.
Variable A : Type.

Definition slice_last (n : nat) (xs : list A) : list A :=
  skipn (length xs - n) xs.

Definition slice (i j : nat) (xs : list A) : list A :=
  firstn (j - i) (skipn i xs).

(** [xs.slice(0, -n)] *)
Definition slice_drop_last (n : nat) (xs : list A) : list A :=
  firstn (length xs - n) xs.

(** [xs.filter(p).length] *)
Definition count (p : A -> bool) (xs : list A) : nat :=
  length (filter p xs).

(** [xs.forEach((x, idx) => ...)] and friends: pair each element with
    its index. *)
Fixpoint indexed_from (i : nat) (xs : list A) : list (nat * A) :=
  match xs with
  | [] => []
  | x :: rest => (i, x) :: indexed_from (S i) rest
  end.

Definition indexed (xs : list A) : list (nat * A) := indexed_from 0 xs.
End Arrays.

(** Template-literal rendering of a count: [`${n}`]. *)
Definition showNat (n : nat) : string :=
  NilZero.string_of_uint (Nat.to_uint n).

End JS.

Declare Scope js_scope.
Delimit Scope js_scope with js.
Infix "<?" := JS.ltb (at level 70, no associativity) : js_scope.
Infix ">?" := JS.gtb (at level 70, no associativity) : js_scope.
Infix "<=?" := JS.leb (at level 70, no associativity) : js_scope.
Infix ">=?" := JS.geb (at level 70, no associativity) : js_scope.

Open Scope Q_scope.
Open Scope js_scope.

(** ** Bars

    Each source file declares its own [CandleData] interface; they agree
    on the five OHLCV fields and differ in an optional [timestamp]. *)

Record CandleData : Type := mkCandle {
  open : Q;
  high : Q;
  low : Q;
  close : Q;
  volume : Q;
  timestamp : option Q
}.

Definition noCandle : CandleData := mkCandle 0 0 0 0 0 None.

Definition candleAt (candles : list CandleData) (i : nat) : CandleData :=
  nth i candles noCandle.

Inductive Direction : Type := BULLISH | BEARISH | NEUTRAL.
Inductive Strength : Type := STRONG | MODERATE | WEAK.
Inductive Level : Type := HIGH | MEDIUM | LOW.
Inductive Recommendation : Type :=
  STRONG_BUY | BUY | HOLD | SELL | STRONG_SELL.

Definition Direction_eqb (a b : Direction) : bool :=
  match a, b with
  | BULLISH, BULLISH | BEARISH, BEARISH | NEUTRAL, NEUTRAL => true
  | _, _ => false
  end.

Definition Strength_eqb (a b : Strength) : bool :=
  match a, b with
  | STRONG, STRONG | MODERATE, MODERATE | WEAK, WEAK => true
  | _, _ => false
  end.

(** ** Candlestick patterns (technical analysis utilities) *)

Module Technical.

Record TechnicalSignal : Type := mkSignal {
  pattern : string;
  signal : Direction;
  strength : Strength;
  description : string
}.

Definition isBullishEngulfing (prev curr : CandleData) : bool :=
  (close prev <? open prev) &&
  (close curr >? open curr) &&
  (open curr <? close prev) &&
  (close curr >? open prev).

Definition isBearishEngulfing (prev curr : CandleData) : bool :=
  (close prev >? open prev) &&
  (close curr <? open curr) &&
  (open curr >? close prev) &&
  (close curr <? open prev).

Definition isMorningStar (first second third : CandleData) : bool :=
  let firstBearish := close first <? open first in
  let secondSmall :=
    Qabs (close second - open second) <? Qabs (close first - open first) * 0.3 in
  let thirdBullish :=
    (close third >? open third) &&
    (close third >? (open first + close first) / 2) in
  firstBearish && secondSmall && thirdBullish.

Definition isEveningstar (first second third : CandleData) : bool :=
  let firstBullish := close first >? open first in
  let secondSmall :=
    Qabs (close second - open second) <? Qabs (close first - open first) * 0.3 in
  let thirdBearish :=
    (close third <? open third) &&
    (close third <? (open first + close first) / 2) in
  firstBullish && secondSmall && thirdBearish.

Definition isHammer (candle : CandleData) : bool :=
  let body := Qabs (close candle - open candle) in
  let lowerShadow := Qmin (open candle) (close candle) - low candle in
  let upperShadow := high candle - Qmax (open candle) (close candle) in
  (lowerShadow >? body * 2) && (upperShadow <? body * 0.5).

Definition isShootingStar (candle : CandleData) : bool :=
  let body := Qabs (close candle - open candle) in
  let upperShadow := high candle - Qmax (open candle) (close candle) in
  let lowerShadow := Qmin (open candle) (close candle) - low candle in
  (upperShadow >? body * 2) && (lowerShadow <? body * 0.5).

Definition isDoji (candle : CandleData) : bool :=
  let body := Qabs (close candle - open candle) in
  let range := high candle - low candle in
  body <? range * 0.1.

Definition isPiercingPattern (prev curr : CandleData) : bool :=
  (close prev <? open prev) &&
  (close curr >? open curr) &&
  (close curr >? (open prev + close prev) / 2) &&
  (close curr <? open prev).

Definition isDarkCloudCover (prev curr : CandleData) : bool :=
  (close prev >? open prev) &&
  (close curr <? open curr) &&
  (close curr <? (open prev + close prev) / 2) &&
  (close curr >? open prev).

Definition sigBullishEngulfing : TechnicalSignal :=
  mkSignal "Bullish Engulfing" BULLISH STRONG
    "Strong reversal pattern. Green candle completely engulfs previous red candle. Buyers taking control.".

Definition sigMorningStar : TechnicalSignal :=
  mkSignal "Morning Star" BULLISH STRONG
    "Three-candle reversal pattern indicating trend change from bearish to bullish. Strong buy signal.".

Definition sigHammer : TechnicalSignal :=
  mkSignal "Hammer" BULLISH MODERATE
    "Bullish reversal pattern with long lower shadow. Buyers rejected lower prices, potential uptrend.".

Definition sigPiercing : TechnicalSignal :=
  mkSignal "Piercing Pattern" BULLISH MODERATE
    "Bullish reversal pattern. Green candle closes above midpoint of previous red candle.".

Definition sigBearishEngulfing : TechnicalSignal :=
  mkSignal "Bearish Engulfing" BEARISH STRONG
    "Strong reversal pattern. Red candle completely engulfs previous green candle. Sellers dominating.".

Definition sigEveningStar : TechnicalSignal :=
  mkSignal "Evening Star" BEARISH STRONG
    "Three-candle reversal pattern indicating trend change from bullish to bearish. Strong sell signal.".

Definition sigShootingStar : TechnicalSignal :=
  mkSignal "Shooting Star" BEARISH MODERATE
    "Bearish reversal pattern with long upper shadow. Sellers rejected higher prices, potential downtrend.".

Definition sigDarkCloudCover : TechnicalSignal :=
  mkSignal "Dark Cloud Cover" BEARISH MODERATE
    "Bearish reversal pattern. Red candle closes below midpoint of previous green candle.".

Definition sigDoji : TechnicalSignal :=
  mkSignal "Doji" NEUTRAL WEAK
    "Indecision pattern. Open and close are nearly equal. Market uncertainty, wait for confirmation.".

(** [if (cond) signals.push(s)] *)
Definition pushIf (cond : bool) (s : TechnicalSignal) : list TechnicalSignal :=
  if cond then [s] else [].

Definition detectCandlestickPatterns (candles : list CandleData)
  : list TechnicalSignal :=
  if (length candles <? 3)%nat then []
  else
    let current := candleAt candles (length candles - 1) in
    let previous := candleAt candles (length candles - 2) in
    let twoDaysAgo := candleAt candles (length candles - 3) in
    pushIf (isBullishEngulfing previous current) sigBullishEngulfing ++
    pushIf (isMorningStar twoDaysAgo previous current) sigMorningStar ++
    pushIf (isHammer current) sigHammer ++
    pushIf (isPiercingPattern previous current) sigPiercing ++
    pushIf (isBearishEngulfing previous current) sigBearishEngulfing ++
    pushIf (isEveningstar twoDaysAgo previous current) sigEveningStar ++
    pushIf (isShootingStar current) sigShootingStar ++
    pushIf (isDarkCloudCover previous current) sigDarkCloudCover ++
    pushIf (isDoji current) sigDoji.


(** *** Chart patterns *)

Definition isUptrend (closes : list Q) : bool :=
  let recent := JS.slice_last 10 closes in
  let idxs := seq 2 (length recent - 2) in
  let higherHighs :=
    JS.count (fun i => nth i recent 0 >? nth (i - 2) recent 0) idxs in
  let higherLows :=
    JS.count (fun i => nth i recent 0 >? nth (i - 2) recent 0) idxs in
  (6 <=? higherHighs)%nat && (6 <=? higherLows)%nat.

Definition isDowntrend (closes : list Q) : bool :=
  let recent := JS.slice_last 10 closes in
  let idxs := seq 2 (length recent - 2) in
  let lowerHighs :=
    JS.count (fun i => nth i recent 0 <? nth (i - 2) recent 0) idxs in
  let lowerLows :=
    JS.count (fun i => nth i recent 0 <? nth (i - 2) recent 0) idxs in
  (6 <=? lowerHighs)%nat && (6 <=? lowerLows)%nat.

(** [Math.min()] of an empty slice is [Infinity] and [Math.max()] is
    [-Infinity]: with exactly ten values the second half is empty and
    [diff] is [Infinity / min1], below 0.02 only when [min1] is
    negative. *)
Definition isDoubleBottom (lows : list Q) : bool :=
  let recent := JS.slice_last 20 lows in
  match skipn 10 recent with
  | [] => JS.Math_min (JS.slice 0 10 recent) <? 0
  | second =>
      let min1 := JS.Math_min (JS.slice 0 10 recent) in
      let min2 := JS.Math_min second in
      let diff := Qabs (min1 - min2) / min1 in
      (* with [min1 = 0], [diff] is [Infinity] or [NaN] *)
      if Qeq_bool min1 0 then false else diff <? 0.02
  end.

Definition isDoubleTop (highs : list Q) : bool :=
  let recent := JS.slice_last 20 highs in
  match skipn 10 recent with
  | [] => JS.Math_max (JS.slice 0 10 recent) <? 0
  | second =>
      let max1 := JS.Math_max (JS.slice 0 10 recent) in
      let max2 := JS.Math_max second in
      let diff := Qabs (max1 - max2) / max1 in
      (* with [max1 = 0], [diff] is [Infinity] or [NaN] *)
      if Qeq_bool max1 0 then false else diff <? 0.02
  end.

Section Charts.
(** [`₹${x.toFixed(2)}`], the rendering of a price. *)
Variable rupees : Q -> string.

Definition detectBreakout (candles : list CandleData)
  : option TechnicalSignal :=
  let recent := JS.slice_last 20 candles in
  let current := candleAt candles (length candles - 1) in
  let highs := map high recent in
  let lows := map low recent in
  let resistance := JS.Math_max (JS.slice_drop_last 1 highs) in
  let support := JS.Math_min (JS.slice_drop_last 1 lows) in
  if close current >? resistance * 1.01
  then Some (mkSignal "Resistance Breakout" BULLISH STRONG
               ("Price broke above resistance at " ++ rupees resistance
                ++ ". Strong bullish breakout with momentum.")%string)
  else if close current <? support * 0.99
  then Some (mkSignal "Support Breakdown" BEARISH STRONG
               ("Price broke below support at " ++ rupees support
                ++ ". Strong bearish breakdown, avoid longs.")%string)
  else None.

Definition detectChartPatterns (candles : list CandleData)
  : list TechnicalSignal :=
  if (length candles <? 10)%nat then []
  else
    let closes := map close candles in
    let highs := map high candles in
    let lows := map low candles in
    pushIf (isUptrend closes)
      (mkSignal "Uptrend" BULLISH STRONG
         "Series of higher highs and higher lows. Strong upward momentum. Trend is your friend.") ++
    pushIf (isDowntrend closes)
      (mkSignal "Downtrend" BEARISH STRONG
         "Series of lower highs and lower lows. Strong downward momentum. Avoid longs.") ++
    pushIf (isDoubleBottom lows)
      (mkSignal "Double Bottom" BULLISH STRONG
         "W-shaped pattern indicating strong support. Bullish reversal signal after downtrend.") ++
    pushIf (isDoubleTop highs)
      (mkSignal "Double Top" BEARISH STRONG
         "M-shaped pattern indicating strong resistance. Bearish reversal signal after uptrend.") ++
    match detectBreakout candles with
    | Some breakout => [breakout]
    | None => []
    end.
End Charts.

(** [signals] holds a signal whose [pattern] is [name]. *)
Definition reports (name : string) (signals : list TechnicalSignal) : bool :=
  existsb (fun s => String.eqb (pattern s) name) signals.

End Technical.

(** ** Operator-game (manipulation) detection *)

Module Action.
Inductive t : Type := BUY | SELL | AVOID | WAIT.
End Action.

Module OperatorGame.

Inductive OperatorType : Type :=
| ACCUMULATION | DISTRIBUTION | BULL_TRAP | BEAR_TRAP
| PUMP_DUMP | BREAKOUT_FAKE | SQUEEZE.

Record OperatorSignal : Type := mkOperatorSignal {
  type_ : OperatorType;
  confidence : Level;
  action : Action.t;
  description : string
}.

Definition volumes (cs : list CandleData) : list Q := map volume cs.

(** 1. Accumulation phase *)
Definition detectAccumulation (candles : list CandleData)
  : option OperatorSignal :=
  let recent := JS.slice_last 10 candles in
  let avgVolume := JS.sum (volumes recent) / JS.ofNat (length recent) in
  let lowVolumeGreenCandles :=
    JS.count (fun candle =>
                let isGreen := close candle >? open candle in
                let isLowVolume := volume candle <? avgVolume * 0.8 in
                isGreen && isLowVolume) recent in
  let priceRange :=
    JS.sum (map (fun candle => Qabs (high candle - low candle)) recent) in
  let lastThreeVolumes := volumes (JS.slice_last 3 recent) in
  let volumeIncreasing :=
    nth 2 lastThreeVolumes 0 >? nth 0 lastThreeVolumes 0 * 1.2 in
  let avgPriceRange := priceRange / JS.ofNat (length recent) in
  let last := candleAt recent (length recent - 1) in
  let currentRange := Qabs (high last - low last) in
  let tightRange := currentRange <? avgPriceRange * 0.8 in
  if (5 <=? lowVolumeGreenCandles)%nat && tightRange && volumeIncreasing
  then Some (mkOperatorSignal ACCUMULATION HIGH Action.BUY
    "Operators accumulating quietly. Multiple low-volume green candles with tight range followed by volume spike. Strong buy signal before breakout.")
  else None.

(** 2. Distribution phase *)
Definition detectDistribution (candles : list CandleData)
  : option OperatorSignal :=
  let recent := JS.slice_last 10 candles in
  let avgVolume := JS.sum (volumes recent) / JS.ofNat (length recent) in
  let highVolumeRedCandles :=
    JS.count (fun candle =>
                let isRed := close candle <? open candle in
                let isHighVolume := volume candle >? avgVolume * 1.3 in
                isRed && isHighVolume) recent in
  let upperShadows :=
    JS.count (fun candle =>
                let upperShadow :=
                  high candle - Qmax (open candle) (close candle) in
                let body := Qabs (close candle - open candle) in
                upperShadow >? body * 1.5) recent in
  let highs := map high (JS.slice_last 5 recent) in
  let priceStalling :=
    (nth 4 highs 0 <? nth 2 highs 0) && (nth 3 highs 0 <? nth 1 highs 0) in
  if (3 <=? highVolumeRedCandles)%nat && (3 <=? upperShadows)%nat
     && priceStalling
  then Some (mkOperatorSignal DISTRIBUTION HIGH Action.SELL
    "Operators distributing (selling) into strength. High volume red candles with long upper shadows. Price making lower highs. Exit positions.")
  else None.

(** 3. Bull trap.  The [forEach] over the last five bars threads the two
    flags [brokeResistance] and [fellBack]. *)
Definition bullTrapStep (resistance : Q) (st : bool * bool)
           (ic : nat * CandleData) : bool * bool :=
  let '(brokeResistance, fellBack) := st in
  let '(idx, candle) := ic in
  let brokeResistance' :=
    brokeResistance || (high candle >? resistance * 1.01) in
  let fellBack' :=
    fellBack ||
    (brokeResistance' && (1 <? idx)%nat && (close candle <? resistance * 0.99)) in
  (brokeResistance', fellBack').

Definition detectBullTrap (candles : list CandleData)
  : option OperatorSignal :=
  if (length candles <? 15)%nat then None
  else
    let recent := JS.slice_last 15 candles in
    let last5 := JS.slice_last 5 recent in
    let previous10 := JS.slice 0 10 recent in
    let resistance := JS.Math_max (map high previous10) in
    let '(brokeResistance, fellBack) :=
      fold_left (bullTrapStep resistance) (JS.indexed last5) (false, false) in
    let lastCandle := candleAt last5 (length last5 - 1) in
    let highVolume :=
      volume lastCandle >?
      (JS.sum (volumes recent) / JS.ofNat (length recent)) * 1.5 in
    if brokeResistance && fellBack && highVolume
    then Some (mkOperatorSignal BULL_TRAP HIGH Action.AVOID
      "Bull Trap detected! Price broke resistance to trap buyers, then reversed sharply. Operators sold into breakout. Avoid buying.")
    else None.

(** 4. Bear trap *)
Definition bearTrapStep (support : Q) (st : bool * bool)
           (ic : nat * CandleData) : bool * bool :=
  let '(brokeSupport, recovered) := st in
  let '(idx, candle) := ic in
  let brokeSupport' := brokeSupport || (low candle <? support * 0.99) in
  let recovered' :=
    recovered ||
    (brokeSupport' && (1 <? idx)%nat && (close candle >? support * 1.01)) in
  (brokeSupport', recovered').

Definition detectBearTrap (candles : list CandleData)
  : option OperatorSignal :=
  if (length candles <? 15)%nat then None
  else
    let recent := JS.slice_last 15 candles in
    let last5 := JS.slice_last 5 recent in
    let previous10 := JS.slice 0 10 recent in
    let support := JS.Math_min (map low previous10) in
    let '(brokeSupport, recovered) :=
      fold_left (bearTrapStep support) (JS.indexed last5) (false, false) in
    let lastCandle := candleAt last5 (length last5 - 1) in
    let highVolume :=
      volume lastCandle >?
      (JS.sum (volumes recent) / JS.ofNat (length recent)) * 1.5 in
    if brokeSupport && recovered && highVolume
    then Some (mkOperatorSignal BEAR_TRAP HIGH Action.BUY
      "Bear Trap detected! Price broke support to trap sellers, then reversed sharply upward. Operators accumulated at bottom. Strong buy opportunity.")
    else None.

(** 5. Pump and dump.  The first loop keeps the largest single-bar gain
    and its index; the second averages the bar-to-bar drops after it. *)
Definition maxGainStep (recent : list CandleData) (st : Q * nat)
           (ic : nat * CandleData) : Q * nat :=
  let '(maxGain, maxGainIdx) := st in
  let '(idx, candle) := ic in
  if (0 <? idx)%nat then
    let prevClose := close (candleAt recent (idx - 1)) in
    let gain := ((high candle - prevClose) / prevClose) * 100 in
    if gain >? maxGain then (gain, idx) else (maxGain, maxGainIdx)
  else (maxGain, maxGainIdx).

Definition dropStep (afterSpike : list CandleData) (sum : Q)
           (ic : nat * CandleData) : Q :=
  let '(idx, c) := ic in
  if (0 <? idx)%nat then
    let prevClose := close (candleAt afterSpike (idx - 1)) in
    sum + ((prevClose - close c) / prevClose) * 100
  else sum.

Definition detectPumpAndDump (candles : list CandleData)
  : option OperatorSignal :=
  let recent := JS.slice_last 10 candles in
  let '(maxGain, maxGainIdx) :=
    fold_left (maxGainStep recent) (JS.indexed recent) (0, 0%nat) in
  let crashed :=
    if (maxGainIdx <? length recent - 2)%nat then
      let afterSpike := skipn (maxGainIdx + 1) recent in
      let avgDrop :=
        fold_left (dropStep afterSpike) (JS.indexed afterSpike) 0
        / JS.ofNat (length afterSpike - 1) in
      avgDrop >? 2
    else false in
  if (maxGain >? 5) && crashed
  then Some (mkOperatorSignal PUMP_DUMP HIGH Action.AVOID
    "Pump & Dump scheme detected! Artificial spike followed by sharp crash. Operators pumped price and dumped on retail. Stay away.")
  else None.

(** 6. Fake breakout *)
Definition detectFakeBreakout (candles : list CandleData)
  : option OperatorSignal :=
  if (length candles <? 20)%nat then None
  else
    let recent := JS.slice_last 20 candles in
    let last3 := JS.slice_last 3 recent in
    let previous := JS.slice_drop_last 3 recent in
    let avgVolume := JS.sum (volumes previous) / JS.ofNat (length previous) in
    let recentVolume := JS.sum (volumes last3) / JS.ofNat (length last3) in
    let lowVolumeBreakout := recentVolume <? avgVolume * 0.7 in
    let resistance := JS.Math_max (map high previous) in
    let brokeResistance :=
      existsb (fun c => high c >? resistance * 1.02) last3 in
    if brokeResistance && lowVolumeBreakout
    then Some (mkOperatorSignal BREAKOUT_FAKE MEDIUM Action.WAIT
      "Fake breakout on low volume. Genuine breakouts need volume confirmation. Operators testing resistance. Wait for volume surge.")
    else None.

(** 7. Short squeeze *)
Definition detectShortSqueeze (candles : list CandleData)
  : option OperatorSignal :=
  let recent := JS.slice_last 10 candles in
  let avgVolume := JS.sum (volumes recent) / JS.ofNat (length recent) in
  let first5 := JS.slice 0 5 recent in
  let fallPercent :=
    ((close (candleAt first5 0) - close (candleAt first5 4))
     / close (candleAt first5 0)) * 100 in
  let sharpFall := fallPercent >? 5 in
  let last3 := JS.slice_last 3 recent in
  let risePercent :=
    ((close (candleAt last3 2) - open (candleAt last3 0))
     / open (candleAt last3 0)) * 100 in
  let sharpRise := risePercent >? 4 in
  let volumeSpike := existsb (fun c => volume c >? avgVolume * 2) last3 in
  if sharpFall && sharpRise && volumeSpike
  then Some (mkOperatorSignal SQUEEZE HIGH Action.BUY
    "Short Squeeze in progress! Sharp fall trapped shorts, now forced to cover. Explosive upward move with high volume. Ride the momentum.")
  else None.

Definition detectOperatorGame (candles : list CandleData)
  : option OperatorSignal :=
  if (length candles <? 10)%nat then None
  else
    match detectAccumulation candles with
    | Some accumulation => Some accumulation
    | None =>
    match detectDistribution candles with
    | Some distribution => Some distribution
    | None =>
    match detectBullTrap candles with
    | Some bullTrap => Some bullTrap
    | None =>
    match detectBearTrap candles with
    | Some bearTrap => Some bearTrap
    | None =>
    match detectPumpAndDump candles with
    | Some pumpDump => Some pumpDump
    | None =>
    match detectFakeBreakout candles with
    | Some fakeBreakout => Some fakeBreakout
    | None =>
    match detectShortSqueeze candles with
    | Some squeeze => Some squeeze
    | None => None
    end end end end end end end.

(** The reading of the specification: an ordered list of detectors,
    evaluated lazily, the first one that fires wins. *)
Definition Detector : Type := list CandleData -> option OperatorSignal.

Definition priorityOrder : list (OperatorType * Detector) :=
  [ (ACCUMULATION, detectAccumulation);
    (DISTRIBUTION, detectDistribution);
    (BULL_TRAP, detectBullTrap);
    (BEAR_TRAP, detectBearTrap);
    (PUMP_DUMP, detectPumpAndDump);
    (BREAKOUT_FAKE, detectFakeBreakout);
    (SQUEEZE, detectShortSqueeze) ].

Fixpoint firstFiring (ds : list (OperatorType * Detector))
         (candles : list CandleData) : option OperatorSignal :=
  match ds with
  | [] => None
  | (_, d) :: rest =>
      match d candles with
      | Some verdict => Some verdict
      | None => firstFiring rest candles
      end
  end.


(** *** Operator strength score *)

Record OperatorStrength : Type := mkStrength {
  score : Q;
  sentiment : Direction;
  strengthDescription : string
}.

(** A bar as an exchange reports it: open and close within the
    [low, high] band and a volume that is not negative.  On such bars a
    quotient of the strength score has a zero divisor only under a zero
    dividend, where the source's NaN fails the comparison that follows
    just as the model's 0 does. *)
Definition wellFormed (c : CandleData) : bool :=
  (low c <=? open c) && (open c <=? high c) &&
  (low c <=? close c) && (close c <=? high c) &&
  (0 <=? volume c).

(** A volume-confirmed large-body candle:
    [volumeRatio > 1.2 && bodyRatio > 0.6]. *)
Definition isStrongCandle (avgVolume : Q) (candle : CandleData) : bool :=
  let volumeRatio := volume candle / avgVolume in
  let body := Qabs (close candle - open candle) in
  let range := high candle - low candle in
  let bodyRatio := body / range in
  (volumeRatio >? 1.2) && (bodyRatio >? 0.6).

(** One pass of the [forEach]: the two running scores. *)
Definition strengthStep (avgVolume : Q) (total : nat) (st : Q * Q)
           (ic : nat * CandleData) : Q * Q :=
  let '(bullishScore, bearishScore) := st in
  let '(idx, candle) := ic in
  let isGreen := close candle >? open candle in
  let volumeRatio := volume candle / avgVolume in
  let bullishScore :=
    if isGreen && isStrongCandle avgVolume candle
    then bullishScore + 10 * volumeRatio else bullishScore in
  let bearishScore :=
    if negb isGreen && isStrongCandle avgVolume candle
    then bearishScore + 10 * volumeRatio else bearishScore in
  let recencyWeight := JS.ofNat (idx + 1) / JS.ofNat total in
  (bullishScore * (1 + recencyWeight * 0.5),
   bearishScore * (1 + recencyWeight * 0.5)).

Definition calculateOperatorStrength (candles : list CandleData)
  : OperatorStrength :=
  if (length candles <? 10)%nat
  then mkStrength 50 NEUTRAL "Insufficient data"
  else
    let recent := JS.slice_last 10 candles in
    let avgVolume := JS.sum (volumes recent) / JS.ofNat (length recent) in
    let '(bullishScore, bearishScore) :=
      fold_left (strengthStep avgVolume (length recent))
                (JS.indexed recent) (0, 0) in
    let totalScore := bullishScore + bearishScore in
    let operatorScore :=
      Qmin 100
        ((bullishScore / (if Qeq_bool totalScore 0 then 1 else totalScore))
         * 100) in
    if operatorScore >? 65
    then mkStrength (JS.Math_round operatorScore) BULLISH
           "Strong operator buying detected. Institutions accumulating positions."
    else if operatorScore <? 35
    then mkStrength (JS.Math_round operatorScore) BEARISH
           "Strong operator selling detected. Institutions distributing positions."
    else mkStrength (JS.Math_round operatorScore) NEUTRAL
           "Balanced operator activity. No clear directional bias.".

End OperatorGame.

(** ** Multi-timeframe analysis *)

Module Trend.
Inductive t : Type :=
  STRONG_BULLISH | BULLISH | NEUTRAL | BEARISH | STRONG_BEARISH.

Definition eqb (a b : t) : bool :=
  match a, b with
  | STRONG_BULLISH, STRONG_BULLISH | BULLISH, BULLISH | NEUTRAL, NEUTRAL
  | BEARISH, BEARISH | STRONG_BEARISH, STRONG_BEARISH => true
  | _, _ => false
  end.
End Trend.

Module VolumeState.
Inductive t : Type := HIGH | NORMAL | LOW.
End VolumeState.

Module MTF.

(** *** Aggregation of 1H bars into 4H bars *)

Definition aggregateChunk (chunk : list CandleData) : CandleData :=
  {| open := open (candleAt chunk 0);
     high := JS.Math_max (map high chunk);
     low := JS.Math_min (map low chunk);
     close := close (candleAt chunk (length chunk - 1));
     volume := JS.sum (map volume chunk);
     timestamp := timestamp (candleAt chunk 0) |}.

(** The [for (let i = 0; i < candles.length; i += 4)] loop, with its
    index and its accumulator. *)
Equations? aggregateLoop (candles : list CandleData) (i : nat)
           (aggregated : list CandleData)
  : list CandleData by wf (length candles - i)%nat lt :=
  aggregateLoop candles i aggregated with lt_dec i (length candles) => {
    | right _ := aggregated;
    | left _ :=
        let chunk := JS.slice i (i + 4) candles in
        if (length chunk =? 0)%nat
        then aggregateLoop candles (i + 4) aggregated
        else aggregateLoop candles (i + 4) (aggregated ++ [aggregateChunk chunk]) }.
Proof. all: lia. Defined.

Definition aggregateTo4H (candles : list CandleData) : list CandleData :=
  aggregateLoop candles 0 [].

(** The volume of a bar (the name [volume] is a field of the signal
    record below). *)
Definition volumeOf (c : CandleData) : Q := volume c.

(** *** Per-timeframe signals *)

Inductive Timeframe : Type := tf1m | tf5m | tf15m | tf1H | tf4H | tf1D.

Record TimeframeSignal : Type := mkTimeframeSignal {
  timeframe : Timeframe;
  trend : Trend.t;
  score : Q;
  rsi : Q;
  macd : Direction;
  ema : Direction;
  priceAction : Direction;
  volume : VolumeState.t;
  confidence : Q
}.

(** The object literal [{ '1m': ..., '5m': ..., '15m': ..., '1H': ...,
    '4H': ..., '1D': ... }]. *)
Record Timeframes : Type := mkTimeframes {
  on1m : TimeframeSignal;
  on5m : TimeframeSignal;
  on15m : TimeframeSignal;
  on1H : TimeframeSignal;
  on4H : TimeframeSignal;
  on1D : TimeframeSignal
}.

Definition lookup (tfs : Timeframes) (tf : Timeframe) : TimeframeSignal :=
  match tf with
  | tf1m => on1m tfs | tf5m => on5m tfs | tf15m => on15m tfs
  | tf1H => on1H tfs | tf4H => on4H tfs | tf1D => on1D tfs
  end.

(** Property order of the literal, as [Object.entries] and
    [Object.values] enumerate it. *)
Definition keys : list Timeframe := [tf1m; tf5m; tf15m; tf1H; tf4H; tf1D].

Definition Object_entries (tfs : Timeframes)
  : list (Timeframe * TimeframeSignal) :=
  map (fun tf => (tf, lookup tfs tf)) keys.

Definition Object_values (tfs : Timeframes) : list TimeframeSignal :=
  map (lookup tfs) keys.

Record KeyLevels : Type := mkKeyLevels {
  support : list Q;
  resistance : list Q
}.

(** [heatmapMatrix] and [reasoning] are presentation only and left out. *)
Record MTFAnalysis : Type := mkMTFAnalysis {
  symbol : string;
  currentPrice : Q;
  timeframes : Timeframes;
  overallTrend : Trend.t;
  confidenceScore : Q;
  alignment : Q;
  recommendation : Recommendation;
  keyLevels : KeyLevels
}.

Definition TIMEFRAME_WEIGHTS (tf : Timeframe) : Q :=
  match tf with
  | tf1m => 0.03
  | tf5m => 0.07
  | tf15m => 0.15
  | tf1H => 0.20
  | tf4H => 0.25
  | tf1D => 0.30
  end.

Definition calculateOverallTrend (tfs : Timeframes) : Trend.t :=
  let weightedScore :=
    fold_left (fun acc e => acc + score (snd e) * TIMEFRAME_WEIGHTS (fst e))
              (Object_entries tfs) 0 in
  if weightedScore >? 60 then Trend.STRONG_BULLISH
  else if weightedScore >? 20 then Trend.BULLISH
  else if weightedScore <? -60 then Trend.STRONG_BEARISH
  else if weightedScore <? -20 then Trend.BEARISH
  else Trend.NEUTRAL.

Definition calculateConfidenceScore (tfs : Timeframes) : Q :=
  let weightedConfidence :=
    fold_left
      (fun acc e => acc + confidence (snd e) * TIMEFRAME_WEIGHTS (fst e))
      (Object_entries tfs) 0 in
  JS.Math_round weightedConfidence.

Definition isBullishTrend (t : Trend.t) : bool :=
  match t with Trend.BULLISH | Trend.STRONG_BULLISH => true | _ => false end.

Definition isBearishTrend (t : Trend.t) : bool :=
  match t with Trend.BEARISH | Trend.STRONG_BEARISH => true | _ => false end.

Definition isNeutralTrend (t : Trend.t) : bool :=
  match t with Trend.NEUTRAL => true | _ => false end.

(** The body of [calculateAlignment] once the trends are extracted. *)
Definition alignmentOfTrends (trends : list Trend.t) : Q :=
  let bullish := JS.count isBullishTrend trends in
  let bearish := JS.count isBearishTrend trends in
  let neutral := JS.count isNeutralTrend trends in
  let maxAlignment := JS.Math_max (map JS.ofNat [bullish; bearish; neutral]) in
  JS.Math_round ((maxAlignment / JS.ofNat (length trends)) * 100).

Definition calculateAlignment (tfs : Timeframes) : Q :=
  let trends := map trend (Object_values tfs) in
  alignmentOfTrends trends.

Definition getDefaultTimeframeSignal (tf : Timeframe) : TimeframeSignal :=
  {| timeframe := tf; trend := Trend.NEUTRAL; score := 0; rsi := 50;
     macd := NEUTRAL; ema := NEUTRAL; priceAction := NEUTRAL;
     volume := VolumeState.NORMAL; confidence := 0 |}.

Definition getDefaultMTFAnalysis (sym : string) : MTFAnalysis :=
  {| symbol := sym;
     currentPrice := 0;
     timeframes :=
       {| on1m := getDefaultTimeframeSignal tf1m;
          on5m := getDefaultTimeframeSignal tf5m;
          on15m := getDefaultTimeframeSignal tf15m;
          on1H := getDefaultTimeframeSignal tf1H;
          on4H := getDefaultTimeframeSignal tf4H;
          on1D := getDefaultTimeframeSignal tf1D |};
     overallTrend := Trend.NEUTRAL;
     confidenceScore := 0;
     alignment := 0;
     recommendation := HOLD;
     keyLevels := {| support := []; resistance := [] |} |}.


(** *** Per-timeframe analysis

    The indicators come from the [technicalindicators] package and are
    taken as section variables. *)

Record MACDOutput : Type := mkMACDOutput {
  MACD_value : option Q;
  MACD_signal : option Q
}.

(** Truthiness of an optional number: defined and not zero. *)
Definition truthy (x : option Q) : bool :=
  match x with
  | Some v => negb (Qeq_bool v 0)
  | None => false
  end.

Definition numberOf (x : option Q) : Q :=
  match x with Some v => v | None => 0 end.

(** [xs[xs.length - 1]] *)
Definition lastOf (A : Type) (xs : list A) : option A :=
  nth_error xs (length xs - 1).

Definition isDirected (d : Direction) : bool :=
  match d with NEUTRAL => false | _ => true end.

(** The second half of [analyzeTimeframe]: the score, the trend and the
    confidence, from the five readings of the first half. *)
Definition scoreTimeframe (tf : Timeframe) (rsi : Q)
           (macd ema priceAction : Direction) (volume : VolumeState.t)
  : TimeframeSignal :=
  let score := 0 in
  let score :=
    if rsi >? 70 then score - 20
    else if rsi >? 60 then score + 10
    else if rsi >? 50 then score + 5
    else if rsi >? 40 then score - 5
    else if rsi >? 30 then score - 10
    else score + 20 in
  let score :=
    match macd with
    | BULLISH => score + 20 | BEARISH => score - 20 | NEUTRAL => score
    end in
  let score :=
    match ema with
    | BULLISH => score + 25 | BEARISH => score - 25 | NEUTRAL => score
    end in
  let score :=
    match priceAction with
    | BULLISH => score + 20 | BEARISH => score - 20 | NEUTRAL => score
    end in
  let score :=
    match volume with
    | VolumeState.HIGH =>
        if score >? 0 then score + 15
        else if score <? 0 then score - 15
        else score
    | _ => score
    end in
  let score := Qmax (-100) (Qmin 100 score) in
  let trend :=
    if score >? 60 then Trend.STRONG_BULLISH
    else if score >? 20 then Trend.BULLISH
    else if score <? -60 then Trend.STRONG_BEARISH
    else if score <? -20 then Trend.BEARISH
    else Trend.NEUTRAL in
  let indicators := JS.count isDirected [macd; ema; priceAction] in
  let confidence := Qmin 100 (Qabs score + JS.ofNat indicators * 10) in
  {| timeframe := tf; trend := trend; score := score; rsi := rsi;
     macd := macd; ema := ema; priceAction := priceAction;
     volume := volume; confidence := confidence |}.

Section Indicators.
Variable RSI_calculate : list Q -> nat -> list Q.
Variable MACD_calculate : list Q -> nat -> nat -> nat -> list MACDOutput.
Variable EMA_calculate : list Q -> nat -> list Q.

Definition analyzeTimeframe (candles : list CandleData) (tf : Timeframe)
  : TimeframeSignal :=
  if (length candles <? 20)%nat then getDefaultTimeframeSignal tf
  else
    let closes := map close candles in
    let volumes := map volumeOf candles in
    let rsi :=
      if (14 <=? length closes)%nat then
        match lastOf (RSI_calculate closes 14) with
        | Some v => if Qeq_bool v 0 then 50 else v
        | None => 50
        end
      else 50 in
    let macd :=
      if (26 <=? length closes)%nat then
        match lastOf (MACD_calculate closes 12 26 9) with
        | Some lastMACD =>
            if truthy (MACD_value lastMACD) && truthy (MACD_signal lastMACD)
            then if numberOf (MACD_value lastMACD)
                    >? numberOf (MACD_signal lastMACD)
                 then BULLISH else BEARISH
            else NEUTRAL
        | None => NEUTRAL
        end
      else NEUTRAL in
    let ema :=
      if (50 <=? length closes)%nat then
        match lastOf (EMA_calculate closes 20),
              lastOf (EMA_calculate closes 50) with
        | Some lastEMA20, Some lastEMA50 =>
            let currentPrice := nth (length closes - 1) closes 0 in
            if (currentPrice >? lastEMA20) && (lastEMA20 >? lastEMA50)
            then BULLISH
            else if (currentPrice <? lastEMA20) && (lastEMA20 <? lastEMA50)
            then BEARISH
            else NEUTRAL
        | _, _ => NEUTRAL
        end
      else NEUTRAL in
    let recent := JS.slice_last 10 candles in
    let bullishCandles := JS.count (fun c => close c >? open c) recent in
    let bearishCandles := JS.count (fun c => close c <? open c) recent in
    let priceAction :=
      if (6 <? bullishCandles)%nat then BULLISH
      else if (6 <? bearishCandles)%nat then BEARISH
      else NEUTRAL in
    let avgVolume := JS.sum volumes / JS.ofNat (length volumes) in
    let recentVolume := JS.sum (JS.slice_last 5 volumes) / 5 in
    let volume :=
      if recentVolume >? avgVolume * 1.5 then VolumeState.HIGH
      else if recentVolume <? avgVolume * 0.7 then VolumeState.LOW
      else VolumeState.NORMAL in
    scoreTimeframe tf rsi macd ema priceAction volume.

(** *** Recommendation and key levels *)

Definition generateRecommendation (tfs : Timeframes) (overallTrend : Trend.t)
           (confidenceScore : Q) : Recommendation :=
  let higherTFScore :=
    (score (on1D tfs) + score (on4H tfs) + score (on1H tfs)) / 3 in
  let trendIs (t : Trend.t) : bool := Trend.eqb overallTrend t in
  if trendIs Trend.STRONG_BULLISH && (confidenceScore >? 70) then STRONG_BUY
  else if trendIs Trend.BULLISH
          || (trendIs Trend.STRONG_BULLISH && (confidenceScore >? 50)) then BUY
  else if trendIs Trend.STRONG_BEARISH && (confidenceScore >? 70) then STRONG_SELL
  else if trendIs Trend.BEARISH
          || (trendIs Trend.STRONG_BEARISH && (confidenceScore >? 50)) then SELL
  else if higherTFScore >? 40 then BUY
  else if higherTFScore <? -40 then SELL
  else HOLD.

(** [xs.sort((a, b) => a - b)], as an insertion sort. *)
Fixpoint insertAscending (x : Q) (sorted : list Q) : list Q :=
  match sorted with
  | [] => [x]
  | y :: rest =>
      if x <=? y then x :: y :: rest else y :: insertAscending x rest
  end.

Definition sortAscending (xs : list Q) : list Q :=
  fold_right insertAscending [] xs.

(** [xs.sort((a, b) => b - a)] *)
Fixpoint insertDescending (x : Q) (sorted : list Q) : list Q :=
  match sorted with
  | [] => [x]
  | y :: rest =>
      if x >=? y then x :: y :: rest else y :: insertDescending x rest
  end.

Definition sortDescending (xs : list Q) : list Q :=
  fold_right insertDescending [] xs.

Definition isSwingHigh (highs : list Q) (i : nat) : bool :=
  (nth i highs 0 >? nth (i - 1) highs 0) &&
  (nth i highs 0 >? nth (i - 2) highs 0) &&
  (nth i highs 0 >? nth (i + 1) highs 0) &&
  (nth i highs 0 >? nth (i + 2) highs 0).

Definition isSwingLow (lows : list Q) (i : nat) : bool :=
  (nth i lows 0 <? nth (i - 1) lows 0) &&
  (nth i lows 0 <? nth (i - 2) lows 0) &&
  (nth i lows 0 <? nth (i + 1) lows 0) &&
  (nth i lows 0 <? nth (i + 2) lows 0).

(** [identifyKeyLevels] reads the daily series only. *)
Definition identifyKeyLevels (dailyCandles : list CandleData) : KeyLevels :=
  if (length dailyCandles <? 50)%nat
  then {| support := []; resistance := [] |}
  else
    let recent := JS.slice_last 50 dailyCandles in
    let highs := map high recent in
    let lows := map low recent in
    let resistance :=
      map (fun i => nth i highs 0)
          (filter (isSwingHigh highs) (seq 2 (length highs - 2 - 2))) in
    let support :=
      map (fun i => nth i lows 0)
          (filter (isSwingLow lows) (seq 2 (length lows - 2 - 2))) in
    {| support := JS.slice 0 3 (sortDescending support);
       resistance := JS.slice 0 3 (sortAscending resistance) |}.

(** The body of [analyzeMultiTimeframe] once the six series are fetched
    ([timeframeData]); fetching itself is outside the model. *)
Definition analyzeFetched (sym : string)
           (timeframeData : Timeframe -> list CandleData) : MTFAnalysis :=
  let tfs :=
    {| on1m := analyzeTimeframe (timeframeData tf1m) tf1m;
       on5m := analyzeTimeframe (timeframeData tf5m) tf5m;
       on15m := analyzeTimeframe (timeframeData tf15m) tf15m;
       on1H := analyzeTimeframe (timeframeData tf1H) tf1H;
       on4H := analyzeTimeframe (timeframeData tf4H) tf4H;
       on1D := analyzeTimeframe (timeframeData tf1D) tf1D |} in
  let overallTrend := calculateOverallTrend tfs in
  let confidenceScore := calculateConfidenceScore tfs in
  let alignment := calculateAlignment tfs in
  let recommendation := generateRecommendation tfs overallTrend confidenceScore in
  let keyLevels := identifyKeyLevels (timeframeData tf1D) in
  let daily := timeframeData tf1D in
  let currentPrice :=
    match nth_error daily (length daily - 1) with
    | Some c => close c
    | None => 0
    end in
  {| symbol := sym;
     currentPrice := currentPrice;
     timeframes := tfs;
     overallTrend := overallTrend;
     confidenceScore := confidenceScore;
     alignment := alignment;
     recommendation := recommendation;
     keyLevels := keyLevels |}.
End Indicators.

End MTF.

(** ** Smart Money Concepts (structure detector) *)

Module Structure.
Inductive t : Type := BULLISH | BEARISH | RANGING.
End Structure.

Module SMC.

(** The [type] of sweeps, order blocks, gaps and institutional candles
    is ['BULLISH' | 'BEARISH'] in the source; [Direction] is reused for
    it and [NEUTRAL] is never produced. *)
Record LiquiditySweep : Type := mkSweep {
  ls_type : Direction;
  ls_price : Q;
  ls_timestamp : Q;
  ls_confidence : Level
}.

Record OrderBlock : Type := mkOrderBlock {
  ob_type : Direction;
  ob_high : Q;
  ob_low : Q;
  ob_timestamp : Q;
  ob_strength : Strength
}.

Record FairValueGap : Type := mkFVG {
  fvg_type : Direction;
  fvg_top : Q;
  fvg_bottom : Q;
  fvg_timestamp : Q;
  fvg_filled : bool
}.

Inductive BOSType : Type := BULLISH_BOS | BEARISH_BOS.

Record BreakOfStructure : Type := mkBOS {
  bos_type : BOSType;
  bos_price : Q;
  bos_timestamp : Q;
  bos_previousStructure : Q
}.

Inductive CHOCHType : Type := BULLISH_CHOCH | BEARISH_CHOCH.

Record ChangeOfCharacter : Type := mkCHOCH {
  choch_type : CHOCHType;
  choch_price : Q;
  choch_timestamp : Q;
  choch_significance : Level
}.

Record InstitutionalCandle : Type := mkInstitutional {
  ic_index : nat;
  ic_type : Direction;
  ic_volume : Q;
  ic_bodySize : Q
}.

Inductive ZoneType : Type := SUPPLY | DEMAND.

Record SupplyDemandZone : Type := mkZone {
  sdz_type : ZoneType;
  sdz_top : Q;
  sdz_bottom : Q;
  sdz_strength : Q;
  sdz_touches : nat
}.

Record SMCAnalysis : Type := mkSMCAnalysis {
  liquiditySweeps : list LiquiditySweep;
  orderBlocks : list OrderBlock;
  fairValueGaps : list FairValueGap;
  marketStructure : Structure.t;
  bos : option BreakOfStructure;
  choch : option ChangeOfCharacter;
  institutionalCandles : list InstitutionalCandle;
  supplyDemandZones : list SupplyDemandZone;
  overallConfidence : Q;
  recommendation : Recommendation;
  reasoning : list string
}.

(** [candle.timestamp || i] *)
Definition timestampOr (candle : CandleData) (i : nat) : Q :=
  match timestamp candle with
  | Some ts => if Qeq_bool ts 0 then JS.ofNat i else ts
  | None => JS.ofNat i
  end.

(** 1. Liquidity sweeps (stop hunts) *)
Definition sweepsAt (candles : list CandleData) (lookback i : nat)
  : list LiquiditySweep :=
  let current := candleAt candles i in
  let next := candleAt candles (i + 1) in
  let previous := JS.slice (i - lookback) i candles in
  let swingHigh := JS.Math_max (map high previous) in
  let swingLow := JS.Math_min (map low previous) in
  (if (low current <? swingLow) && (close next >? open current)
      && (close next >? swingLow)
   then [mkSweep BULLISH (low current) (timestampOr current i)
           (if close next >? open current * 1.01 then HIGH else MEDIUM)]
   else []) ++
  (if (high current >? swingHigh) && (close next <? open current)
      && (close next <? swingHigh)
   then [mkSweep BEARISH (high current) (timestampOr current i)
           (if close next <? open current * 0.99 then HIGH else MEDIUM)]
   else []).

(** The array [sweeps] when the loop ends. *)
Definition sweepsFound (candles : list CandleData) : list LiquiditySweep :=
  let lookback := 20%nat in
  flat_map (sweepsAt candles lookback)
           (seq lookback (length candles - 1 - lookback)).

Definition detectLiquiditySweeps (candles : list CandleData)
  : list LiquiditySweep :=
  let sweeps := sweepsFound candles in
  JS.slice_last 5 sweeps.

(** 2. Order blocks *)
Definition orderBlocksAt (candles : list CandleData) (i : nat)
  : list OrderBlock :=
  let current := candleAt candles i in
  let next := candleAt candles (i + 1) in
  let nextTwo := candleAt candles (i + 2) in
  let nextThree := candleAt candles (i + 3) in
  let isBearish := close current <? open current in
  let strongBullishMove :=
    (close next >? open next) && (close nextTwo >? open nextTwo)
    && (close nextThree >? high current) in
  let isBullish := close current >? open current in
  let strongBearishMove :=
    (close next <? open next) && (close nextTwo <? open nextTwo)
    && (close nextThree <? low current) in
  (if isBearish && strongBullishMove
   then
     let strength :=
       if close nextThree >? high current * 1.03 then STRONG
       else if close nextThree >? high current * 1.015 then MODERATE
       else WEAK in
     [mkOrderBlock BULLISH (high current) (low current)
        (timestampOr current i) strength]
   else []) ++
  (if isBullish && strongBearishMove
   then
     let strength :=
       if close nextThree <? low current * 0.97 then STRONG
       else if close nextThree <? low current * 0.985 then MODERATE
       else WEAK in
     [mkOrderBlock BEARISH (high current) (low current)
        (timestampOr current i) strength]
   else []).

(** The array [orderBlocks] when the loop ends. *)
Definition orderBlocksFound (candles : list CandleData) : list OrderBlock :=
  flat_map (orderBlocksAt candles) (seq 1 (length candles - 3 - 1)).

Definition detectOrderBlocks (candles : list CandleData) : list OrderBlock :=
  let found := orderBlocksFound candles in
  JS.slice_last 3 found.

(** 3. Fair value gaps *)
Definition gapsAt (candles : list CandleData) (i : nat) : list FairValueGap :=
  let prev := candleAt candles (i - 1) in
  let current := candleAt candles i in
  let next := candleAt candles (i + 1) in
  (if (low next >? high prev) && (close current >? open current)
   then
     let gapSize := ((low next - high prev) / high prev) * 100 in
     if gapSize >? 0.3
     then [mkFVG BULLISH (low next) (high prev) (timestampOr current i) false]
     else []
   else []) ++
  (if (high next <? low prev) && (close current <? open current)
   then
     let gapSize := ((low prev - high next) / low prev) * 100 in
     if gapSize >? 0.3
     then [mkFVG BEARISH (low prev) (high next) (timestampOr current i) false]
     else []
   else []).

(** The array [fvgs] when the loop ends. *)
Definition gapsFound (candles : list CandleData) : list FairValueGap :=
  flat_map (gapsAt candles) (seq 1 (length candles - 1 - 1)).

Definition detectFairValueGaps (candles : list CandleData)
  : list FairValueGap :=
  let fvgs := gapsFound candles in
  JS.slice_last 5 fvgs.

(** 4. Market structure *)
Definition determineMarketStructure (candles : list CandleData)
  : Structure.t :=
  let recent := JS.slice_last 20 candles in
  let highs := map high recent in
  let lows := map low recent in
  let idxs := seq 2 (length recent - 2) in
  let higherHighs :=
    JS.count (fun i => nth i highs 0 >? nth (i - 2) highs 0) idxs in
  let higherLows :=
    JS.count (fun i => nth i lows 0 >? nth (i - 2) lows 0) idxs in
  let lowerHighs :=
    JS.count (fun i => nth i highs 0 <? nth (i - 2) highs 0) idxs in
  let lowerLows :=
    JS.count (fun i => nth i lows 0 <? nth (i - 2) lows 0) idxs in
  if (8 <=? higherHighs)%nat && (8 <=? higherLows)%nat
  then Structure.BULLISH
  else if (8 <=? lowerHighs)%nat && (8 <=? lowerLows)%nat
  then Structure.BEARISH
  else Structure.RANGING.

(** 5. Break of structure *)
Definition detectBreakOfStructure (candles : list CandleData)
  : option BreakOfStructure :=
  let recent := JS.slice_last 30 candles in
  let current := candleAt candles (length candles - 1) in
  let swingHigh := JS.Math_max (map high (JS.slice_drop_last 5 recent)) in
  let swingLow := JS.Math_min (map low (JS.slice_drop_last 5 recent)) in
  if close current >? swingHigh
  then Some (mkBOS BULLISH_BOS (close current)
               (timestampOr current (length candles - 1)) swingHigh)
  else if close current <? swingLow
  then Some (mkBOS BEARISH_BOS (close current)
               (timestampOr current (length candles - 1)) swingLow)
  else None.

(** 6. Change of character *)
Definition detectChangeOfCharacter (candles : list CandleData)
  : option ChangeOfCharacter :=
  let recent := JS.slice_last 20 candles in
  let structure :=
    determineMarketStructure
      (JS.slice (length candles - 40) (length candles - 20) candles) in
  let currentStructure := determineMarketStructure recent in
  let last := candleAt recent (length recent - 1) in
  match structure, currentStructure with
  | Structure.BULLISH, Structure.BEARISH =>
      Some (mkCHOCH BEARISH_CHOCH (close last)
              (timestampOr last (length candles - 1)) HIGH)
  | Structure.BEARISH, Structure.BULLISH =>
      Some (mkCHOCH BULLISH_CHOCH (close last)
              (timestampOr last (length candles - 1)) HIGH)
  | _, _ => None
  end.

(** 7. Institutional candles *)
(** The array [institutional] when the [forEach] ends. *)
Definition institutionalFound (candles : list CandleData)
  : list InstitutionalCandle :=
  let avgVolume :=
    JS.sum (map volume candles) / JS.ofNat (length candles) in
  flat_map
    (fun ic : nat * CandleData =>
       let '(index, candle) := ic in
       let body := Qabs (close candle - open candle) in
       let range := high candle - low candle in
       let bodyRatio := body / range in
       if (volume candle >? avgVolume * 2) && (bodyRatio >? 0.7)
       then [mkInstitutional index
               (if close candle >? open candle then BULLISH else BEARISH)
               (volume candle) body]
       else [])
    (JS.indexed candles).

Definition detectInstitutionalCandles (candles : list CandleData)
  : list InstitutionalCandle :=
  let institutional := institutionalFound candles in
  JS.slice_last 5 institutional.

(** 8. Supply and demand zones *)
Definition zonesAt (candles : list CandleData) (i : nat)
  : list SupplyDemandZone :=
  let zone := JS.slice (i - 5) (i + 1) candles in
  let after := JS.slice (i + 1) (i + 11) candles in
  let zoneHigh := JS.Math_max (map high zone) in
  let zoneLow := JS.Math_min (map low zone) in
  let rally := JS.count (fun c => close c >? zoneHigh * 1.02) after in
  let drop := JS.count (fun c => close c <? zoneLow * 0.98) after in
  (if (5 <=? rally)%nat
   then
     let touches :=
       JS.count (fun c => (low c <=? zoneHigh) && (low c >=? zoneLow))
                (skipn (i + 11) candles) in
     [mkZone DEMAND zoneHigh zoneLow
        (Qmin 100 (JS.ofNat rally * 10 + JS.ofNat touches * 5)) touches]
   else []) ++
  (if (5 <=? drop)%nat
   then
     let touches :=
       JS.count (fun c => (high c >=? zoneLow) && (high c <=? zoneHigh))
                (skipn (i + 11) candles) in
     [mkZone SUPPLY zoneHigh zoneLow
        (Qmin 100 (JS.ofNat drop * 10 + JS.ofNat touches * 5)) touches]
   else []).

(** The array [zones] when the loop ends. *)
Definition zonesFound (candles : list CandleData) : list SupplyDemandZone :=
  let lookback := 50%nat in
  flat_map (zonesAt candles)
           (seq lookback (length candles - 10 - lookback)).

Definition identifySupplyDemandZones (candles : list CandleData)
  : list SupplyDemandZone :=
  let zones := zonesFound candles in
  JS.slice_last 3 zones.

(** *** The overall score

    [bullishScore] and [bearishScore] are the two accumulators of
    [calculateSMCScore], in the order of its updates. *)
Section Score.
Variable liquiditySweeps_ : list LiquiditySweep.
Variable orderBlocks_ : list OrderBlock.
Variable fairValueGaps_ : list FairValueGap.
Variable marketStructure_ : Structure.t.
Variable bos_ : option BreakOfStructure.
Variable choch_ : option ChangeOfCharacter.
Variable institutionalCandles_ : list InstitutionalCandle.
Variable supplyDemandZones_ : list SupplyDemandZone.

Definition recentBullishSweeps : nat :=
  JS.count (fun s => Direction_eqb (ls_type s) BULLISH) liquiditySweeps_.
Definition recentBearishSweeps : nat :=
  JS.count (fun s => Direction_eqb (ls_type s) BEARISH) liquiditySweeps_.

Definition bullishOB : nat :=
  JS.count (fun ob => Direction_eqb (ob_type ob) BULLISH
                      && Strength_eqb (ob_strength ob) STRONG) orderBlocks_.
Definition bearishOB : nat :=
  JS.count (fun ob => Direction_eqb (ob_type ob) BEARISH
                      && Strength_eqb (ob_strength ob) STRONG) orderBlocks_.

Definition bullishFVG : nat :=
  JS.count (fun fvg => Direction_eqb (fvg_type fvg) BULLISH) fairValueGaps_.
Definition bearishFVG : nat :=
  JS.count (fun fvg => Direction_eqb (fvg_type fvg) BEARISH) fairValueGaps_.

Definition recentBullishInst : nat :=
  JS.count (fun ic => Direction_eqb (ic_type ic) BULLISH)
           institutionalCandles_.
Definition recentBearishInst : nat :=
  JS.count (fun ic => Direction_eqb (ic_type ic) BEARISH)
           institutionalCandles_.

Definition bosIs (k : BOSType) : bool :=
  match bos_, k with
  | Some b, BULLISH_BOS =>
      match bos_type b with BULLISH_BOS => true | _ => false end
  | Some b, BEARISH_BOS =>
      match bos_type b with BEARISH_BOS => true | _ => false end
  | None, _ => false
  end.

Definition chochIs (k : CHOCHType) : bool :=
  match choch_, k with
  | Some c, BULLISH_CHOCH =>
      match choch_type c with BULLISH_CHOCH => true | _ => false end
  | Some c, BEARISH_CHOCH =>
      match choch_type c with BEARISH_CHOCH => true | _ => false end
  | None, _ => false
  end.

Definition bullishScore : Q :=
  0
  + JS.ofNat recentBullishSweeps * 15
  + JS.ofNat bullishOB * 20
  + JS.ofNat bullishFVG * 10
  + (match marketStructure_ with Structure.BULLISH => 25 | _ => 0 end)
  + (if bosIs BULLISH_BOS then 20 else 0)
  + (if chochIs BULLISH_CHOCH then 25 else 0)
  + JS.ofNat recentBullishInst * 10.

Definition bearishScore : Q :=
  0
  + JS.ofNat recentBearishSweeps * 15
  + JS.ofNat bearishOB * 20
  + JS.ofNat bearishFVG * 10
  + (match marketStructure_ with Structure.BEARISH => 25 | _ => 0 end)
  + (if bosIs BULLISH_BOS then 0 else if bosIs BEARISH_BOS then 20 else 0)
  + (if chochIs BULLISH_CHOCH then 0
     else if chochIs BEARISH_CHOCH then 25 else 0)
  + JS.ofNat recentBearishInst * 10.

Definition scoreReasoning : list string :=
  (if (0 <? recentBullishSweeps)%nat
   then [(JS.showNat recentBullishSweeps
          ++ " bullish liquidity sweep(s) detected")%string] else []) ++
  (if (0 <? recentBearishSweeps)%nat
   then [(JS.showNat recentBearishSweeps
          ++ " bearish liquidity sweep(s) detected")%string] else []) ++
  (if (0 <? bullishOB)%nat
   then [(JS.showNat bullishOB
          ++ " strong bullish order block(s)")%string] else []) ++
  (if (0 <? bearishOB)%nat
   then [(JS.showNat bearishOB
          ++ " strong bearish order block(s)")%string] else []) ++
  (match marketStructure_ with
   | Structure.BULLISH =>
       ["Bullish market structure (higher highs & higher lows)"%string]
   | Structure.BEARISH =>
       ["Bearish market structure (lower highs & lower lows)"%string]
   | Structure.RANGING => []
   end) ++
  (if bosIs BULLISH_BOS
   then ["Bullish Break of Structure confirmed"%string]
   else if bosIs BEARISH_BOS
   then ["Bearish Break of Structure confirmed"%string] else []) ++
  (if chochIs BULLISH_CHOCH
   then ["Bullish Change of Character - trend reversal"%string]
   else if chochIs BEARISH_CHOCH
   then ["Bearish Change of Character - trend reversal"%string] else []).

Record Score : Type := mkScore {
  confidence : Q;
  score_recommendation : Recommendation;
  score_reasoning : list string
}.

(** [supplyDemandZones] is a parameter of the source function that
    its body never reads.  The two sums are integers and exact; the
    quotient and its product by 100 are rounded to binary64 before
    [Math.round]: with 115 against 85 the product is 57.49999999999999
    and the confidence 57. *)
Definition calculateSMCScore : Score :=
  let _unused := supplyDemandZones_ in
  let totalScore := bullishScore + bearishScore in
  let confidence :=
    Qmin 100
      (JS.Math_round
         (JS.double
            (JS.double
               (Qmax bullishScore bearishScore
                / (if Qeq_bool totalScore 0 then 1 else totalScore))
             * 100))) in
  let recommendation :=
    if bullishScore >? bearishScore * 1.5 then STRONG_BUY
    else if bullishScore >? bearishScore then BUY
    else if bearishScore >? bullishScore * 1.5 then STRONG_SELL
    else if bearishScore >? bullishScore then SELL
    else HOLD in
  mkScore confidence recommendation scoreReasoning.
End Score.

Definition getDefaultAnalysis : SMCAnalysis :=
  {| liquiditySweeps := [];
     orderBlocks := [];
     fairValueGaps := [];
     marketStructure := Structure.RANGING;
     bos := None;
     choch := None;
     institutionalCandles := [];
     supplyDemandZones := [];
     overallConfidence := 0;
     recommendation := HOLD;
     reasoning := ["Insufficient data for SMC analysis"%string] |}.

Definition analyzeSMC (candles : list CandleData) : SMCAnalysis :=
  if (length candles <? 50)%nat then getDefaultAnalysis
  else
    let liquiditySweeps := detectLiquiditySweeps candles in
    let orderBlocks := detectOrderBlocks candles in
    let fairValueGaps := detectFairValueGaps candles in
    let marketStructure := determineMarketStructure candles in
    let bos := detectBreakOfStructure candles in
    let choch := detectChangeOfCharacter candles in
    let institutionalCandles := detectInstitutionalCandles candles in
    let supplyDemandZones := identifySupplyDemandZones candles in
    let s :=
      calculateSMCScore liquiditySweeps orderBlocks fairValueGaps
        marketStructure bos choch institutionalCandles supplyDemandZones in
    {| liquiditySweeps := liquiditySweeps;
       orderBlocks := orderBlocks;
       fairValueGaps := fairValueGaps;
       marketStructure := marketStructure;
       bos := bos;
       choch := choch;
       institutionalCandles := institutionalCandles;
       supplyDemandZones := supplyDemandZones;
       overallConfidence := confidence s;
       recommendation := score_recommendation s;
       reasoning := score_reasoning s |}.

End SMC.

(** ** AI confidence engine *)

Module SignalStrength.
Inductive t : Type := VERY_STRONG | STRONG | MODERATE | WEAK | VERY_WEAK.
End SignalStrength.

Module TimeHorizon.
Inductive t : Type := SCALP | INTRADAY | SWING | POSITIONAL.
End TimeHorizon.

Module PositionSize.
Inductive t : Type := SMALL | MEDIUM | LARGE.
End PositionSize.

Module AIConfidence.

(** The engine's own (narrower) views of its inputs. *)
Record TechnicalSignal : Type := mkTechnicalSignal {
  pattern : string;
  signal : Direction;
  strength : Strength
}.

Record OperatorGame : Type := mkOperatorGame {
  type_ : string;
  confidence : Level;
  action : Action.t
}.

Record OperatorStrength : Type := mkOperatorStrength {
  score : Q;
  sentiment : string
}.

Record ComponentScores : Type := mkComponentScores {
  technical : Q;
  smc : Q;
  mtf : Q;
  operator : Q;
  volumeComponent : Q;
  momentum : Q
}.

(** [reasoning], [keyFactors], [warnings] and [opportunities] are text
    for display and left out. *)
Record AIConfidence : Type := mkAIConfidence {
  tradeConfidenceScore : Q;
  riskScore : Q;
  probabilityBullish : Q;
  probabilityBearish : Q;
  signalStrength : SignalStrength.t;
  recommendation : Recommendation;
  timeHorizon : TimeHorizon.t;
  componentScores : ComponentScores;
  suggestedEntry : Q;
  suggestedTarget : Q;
  suggestedStopLoss : Q;
  riskRewardRatio : Q;
  positionSize : PositionSize.t
}.

Definition COMPONENT_WEIGHTS : ComponentScores :=
  {| technical := 0.15; smc := 0.25; mtf := 0.25; operator := 0.20;
     volumeComponent := 0.10; momentum := 0.05 |}.

(** *** Component score calculators *)

Definition patternPoints (s : TechnicalSignal) : Q :=
  match strength s with
  | STRONG => 10
  | MODERATE => 5
  | WEAK => 0
  end.

Definition calculateTechnicalScore (rsi : Q) (macdSignal : string)
           (technicalSignals : list TechnicalSignal) : Q :=
  let score := 50 in
  let score :=
    if rsi >? 70 then score - 15
    else if rsi >? 60 then score + 10
    else if rsi >? 50 then score + 15
    else if rsi >? 40 then score + 10
    else if rsi >? 30 then score - 10
    else score + 15 in
  let score :=
    if String.eqb macdSignal "BULLISH" then score + 15
    else if String.eqb macdSignal "BEARISH" then score - 15
    else score in
  let bullishPatterns :=
    filter (fun s => Direction_eqb (signal s) BULLISH) technicalSignals in
  let bearishPatterns :=
    filter (fun s => Direction_eqb (signal s) BEARISH) technicalSignals in
  let score :=
    fold_left (fun acc p => acc + patternPoints p) bullishPatterns score in
  let score :=
    fold_left (fun acc p => acc - patternPoints p) bearishPatterns score in
  JS.clamp100 score.

Definition calculateSMCScore (smcAnalysis : option SMC.SMCAnalysis) : Q :=
  match smcAnalysis with
  | None => 50
  | Some a =>
      let score := 50 in
      let score :=
        match SMC.marketStructure a with
        | Structure.BULLISH => score + 20
        | Structure.BEARISH => score - 20
        | Structure.RANGING => score
        end in
      let score :=
        match option_map SMC.bos_type (SMC.bos a) with
        | Some SMC.BULLISH_BOS => score + 15
        | Some SMC.BEARISH_BOS => score - 15
        | None => score
        end in
      let score :=
        match option_map SMC.choch_type (SMC.choch a) with
        | Some SMC.BULLISH_CHOCH => score + 20
        | Some SMC.BEARISH_CHOCH => score - 20
        | None => score
        end in
      let bullishSweeps :=
        JS.count (fun s => Direction_eqb (SMC.ls_type s) BULLISH)
                 (SMC.liquiditySweeps a) in
      let bearishSweeps :=
        JS.count (fun s => Direction_eqb (SMC.ls_type s) BEARISH)
                 (SMC.liquiditySweeps a) in
      let score := score + JS.ofNat bullishSweeps * 5 in
      let score := score - JS.ofNat bearishSweeps * 5 in
      let bullishOB :=
        JS.count (fun ob => Direction_eqb (SMC.ob_type ob) BULLISH)
                 (SMC.orderBlocks a) in
      let bearishOB :=
        JS.count (fun ob => Direction_eqb (SMC.ob_type ob) BEARISH)
                 (SMC.orderBlocks a) in
      let score := score + JS.ofNat bullishOB * 5 in
      let score := score - JS.ofNat bearishOB * 5 in
      JS.clamp100 score
  end.

Definition calculateMTFScore (mtfAnalysis : option MTF.MTFAnalysis) : Q :=
  match mtfAnalysis with
  | None => 50
  | Some m =>
      let baseScore := MTF.confidenceScore m in
      let alignmentBonus := (MTF.alignment m - 50) * 0.5 in
      let score := baseScore + alignmentBonus in
      let score :=
        match MTF.overallTrend m with
        | Trend.STRONG_BULLISH => Qmin 100 (score + 10)
        | Trend.STRONG_BEARISH => Qmax 0 (score - 10)
        | _ => score
        end in
      JS.clamp100 score
  end.

Definition calculateOperatorScore (operatorGame : option OperatorGame)
           (operatorStrength : option OperatorStrength) : Q :=
  let score := 50 in
  let score :=
    match operatorGame with
    | Some g =>
        match action g with
        | Action.BUY =>
            score + (match confidence g with HIGH => 30 | _ => 20 end)
        | Action.SELL =>
            score - (match confidence g with HIGH => 30 | _ => 20 end)
        | Action.AVOID => 30
        | Action.WAIT => score
        end
    | None => score
    end in
  let score :=
    match operatorStrength with
    | Some s =>
        let strengthContribution := (AIConfidence.score s - 50) * 0.4 in
        score + strengthContribution
    | None => score
    end in
  JS.clamp100 score.

Definition calculateVolumeScore (candles : list CandleData) : Q :=
  if (length candles <? 10)%nat then 50
  else
    let recent := JS.slice_last 10 candles in
    let avgVolume :=
      JS.sum (map volume recent) / JS.ofNat (length recent) in
    let currentVolume := volume (candleAt recent (length recent - 1)) in
    let volumeRatio := currentVolume / avgVolume in
    let score := 50 in
    let lastCandle := candleAt recent (length recent - 1) in
    let isBullish := close lastCandle >? open lastCandle in
    let score :=
      if Qeq_bool avgVolume 0 then
        (* [volumeRatio] is [Infinity], [-Infinity] or [NaN] *)
        if currentVolume >? 0 then score + (if isBullish then 30 else -30)
        else if currentVolume <? 0 then score - 10
        else score
      else if volumeRatio >? 2 then score + (if isBullish then 30 else -30)
      else if volumeRatio >? 1.5 then score + (if isBullish then 20 else -20)
      else if volumeRatio >? 1.2 then score + (if isBullish then 10 else -10)
      else if volumeRatio <? 0.7 then score - 10
      else score in
    JS.clamp100 score.

Definition calculateMomentumScore (candles : list CandleData) (rsi : Q) : Q :=
  if (length candles <? 5)%nat then 50
  else
    let recent := JS.slice_last 5 candles in
    let priceChange :=
      ((close (candleAt recent 4) - close (candleAt recent 0))
       / close (candleAt recent 0)) * 100 in
    let score := 50 in
    let score :=
      if priceChange >? 3 then score + 30
      else if priceChange >? 1.5 then score + 20
      else if priceChange >? 0.5 then score + 10
      else if priceChange <? -3 then score - 30
      else if priceChange <? -1.5 then score - 20
      else if priceChange <? -0.5 then score - 10
      else score in
    let score :=
      if (rsi >? 60) && (priceChange >? 0) then score + 10
      else if (rsi <? 40) && (priceChange <? 0) then score - 10
      else score in
    JS.clamp100 score.

(** *** Helper functions *)

Definition generateRecommendation (confidence probabilityBullish riskScore : Q)
           (operatorGame : option OperatorGame)
           (mtfAnalysis : option MTF.MTFAnalysis) : Recommendation :=
  let typeIs (k : string) : bool :=
    match operatorGame with
    | Some g => String.eqb (type_ g) k
    | None => false
    end in
  let normal :=
    if (confidence >? 80) && (probabilityBullish >? 70) then STRONG_BUY
    else if (confidence >? 65) && (probabilityBullish >? 60) then BUY
    else if (confidence >? 80) && (probabilityBullish <? 30) then STRONG_SELL
    else if (confidence >? 65) && (probabilityBullish <? 40) then SELL
    else HOLD in
  if typeIs "BULL_TRAP"%string || typeIs "PUMP_DUMP"%string then STRONG_SELL
  else if typeIs "BEAR_TRAP"%string then STRONG_BUY
  else if riskScore >? 75 then
    if probabilityBullish >? 60 then HOLD
    else if probabilityBullish <? 40 then HOLD
    else normal
  else normal.

Definition isVeryStrong (s : SignalStrength.t) : bool :=
  match s with SignalStrength.VERY_STRONG => true | _ => false end.

Definition determineTimeHorizon (mtfAnalysis : option MTF.MTFAnalysis)
           (signalStrength : SignalStrength.t) : TimeHorizon.t :=
  match mtfAnalysis with
  | None => TimeHorizon.INTRADAY
  | Some m =>
      let tfs := MTF.timeframes m in
      let htfAligned :=
        Trend.eqb (MTF.trend (MTF.on1D tfs)) (MTF.trend (MTF.on4H tfs)) in
      let ltfAligned :=
        Trend.eqb (MTF.trend (MTF.on15m tfs)) (MTF.trend (MTF.on1H tfs)) in
      if htfAligned && isVeryStrong signalStrength
      then TimeHorizon.POSITIONAL
      else if htfAligned then TimeHorizon.SWING
      else if ltfAligned then TimeHorizon.INTRADAY
      else TimeHorizon.SCALP
  end.

Definition determinePositionSize (confidence riskScore : Q)
           (signalStrength : SignalStrength.t) : PositionSize.t :=
  if (confidence >? 80) && (riskScore <? 40) && isVeryStrong signalStrength
  then PositionSize.LARGE
  else if (confidence >? 65) && (riskScore <? 60) then PositionSize.MEDIUM
  else PositionSize.SMALL.

Record TradeSetup : Type := mkTradeSetup {
  setupEntry : Q;
  setupTarget : Q;
  setupStopLoss : Q;
  setupRiskReward : Q
}.

(** [Math.round(x * 100) / 100] *)
Definition round2 (x : Q) : Q := JS.Math_round (x * 100) / 100.

Definition calculateTradeSetup (currentPrice : Q)
           (recommendation : Recommendation)
           (smcAnalysis : option SMC.SMCAnalysis)
           (mtfAnalysis : option MTF.MTFAnalysis)
           (volatility : Q) : TradeSetup :=
  let includesBUY :=
    match recommendation with STRONG_BUY | BUY => true | _ => false end in
  let includesSELL :=
    match recommendation with STRONG_SELL | SELL => true | _ => false end in
  let volatilityMultiplier := 1 + (volatility / 100) * 0.5 in
  let blocks :=
    match smcAnalysis with Some a => SMC.orderBlocks a | None => [] end in
  let resistanceLevels :=
    match mtfAnalysis with
    | Some m => MTF.resistance (MTF.keyLevels m) | None => [] end in
  let supportLevels :=
    match mtfAnalysis with
    | Some m => MTF.support (MTF.keyLevels m) | None => [] end in
  let finish (entry target stopLoss : Q) : TradeSetup :=
    let risk := Qabs (entry - stopLoss) in
    let reward := Qabs (target - entry) in
    let riskRewardRatio := if risk >? 0 then reward / risk else 0 in
    mkTradeSetup (round2 entry) (round2 target) (round2 stopLoss)
                 (round2 riskRewardRatio) in
  if includesBUY then
    let entry :=
      match find (fun ob => Direction_eqb (SMC.ob_type ob) BULLISH) blocks with
      | Some bullishOB =>
          if SMC.ob_low bullishOB <? currentPrice
          then (SMC.ob_low bullishOB + SMC.ob_high bullishOB) / 2
          else currentPrice
      | None => currentPrice
      end in
    let target :=
      match resistanceLevels with
      | r0 :: _ => r0
      | [] => currentPrice * (1 + 0.03 * volatilityMultiplier)
      end in
    let stopLoss :=
      match supportLevels with
      | _ :: _ => nth (length supportLevels - 1) supportLevels 0
      | [] => currentPrice * (1 - 0.015 * volatilityMultiplier)
      end in
    finish entry target stopLoss
  else if includesSELL then
    let entry :=
      match find (fun ob => Direction_eqb (SMC.ob_type ob) BEARISH) blocks with
      | Some bearishOB =>
          if SMC.ob_high bearishOB >? currentPrice
          then (SMC.ob_low bearishOB + SMC.ob_high bearishOB) / 2
          else currentPrice
      | None => currentPrice
      end in
    let target :=
      match supportLevels with
      | _ :: _ => nth (length supportLevels - 1) supportLevels 0
      | [] => currentPrice * (1 - 0.03 * volatilityMultiplier)
      end in
    let stopLoss :=
      match resistanceLevels with
      | r0 :: _ => r0
      | [] => currentPrice * (1 + 0.015 * volatilityMultiplier)
      end in
    finish entry target stopLoss
  else mkTradeSetup currentPrice currentPrice currentPrice 0.

(** The [if]/[else if] chain on [tradeConfidenceScore] that sets
    [signalStrength] in [calculateAIConfidence]. *)
Definition classifySignalStrength (tradeConfidenceScore : Q)
  : SignalStrength.t :=
  if tradeConfidenceScore >? 85 then SignalStrength.VERY_STRONG
  else if tradeConfidenceScore >? 70 then SignalStrength.STRONG
  else if tradeConfidenceScore >? 55 then SignalStrength.MODERATE
  else if tradeConfidenceScore >? 40 then SignalStrength.WEAK
  else SignalStrength.VERY_WEAK.

Section Engine.
(** [Math.log] and [Math.sqrt]. *)
Variable Math_log : Q -> Q.
Variable Math_sqrt : Q -> Q.

Definition calculateVolatility (candles : list CandleData) : Q :=
  if (length candles <? 20)%nat then 50
  else
    let recent := JS.slice_last 20 candles in
    let returns :=
      map (fun ic : nat * CandleData =>
             let '(i, c) := ic in
             Math_log (close c / close (candleAt recent i)))
          (JS.indexed (skipn 1 recent)) in
    let mean := JS.sum returns / JS.ofNat (length returns) in
    let variance :=
      fold_left (fun sum r => sum + (r - mean) ^ 2) returns 0
      / JS.ofNat (length returns) in
    let stdDev := Math_sqrt variance in
    Qmin 100 (stdDev * 2000).

Definition calculateAIConfidence
           (symbol : string) (currentPrice : Q)
           (candles : list CandleData) (rsi : Q) (macdSignal : string)
           (technicalSignals : list TechnicalSignal)
           (operatorGame : option OperatorGame)
           (operatorStrength : option OperatorStrength)
           (smcAnalysis : option SMC.SMCAnalysis)
           (mtfAnalysis : option MTF.MTFAnalysis) : AIConfidence :=
  let technicalScore :=
    calculateTechnicalScore rsi macdSignal technicalSignals in
  let smcScore := calculateSMCScore smcAnalysis in
  let mtfScore := calculateMTFScore mtfAnalysis in
  let operatorScore := calculateOperatorScore operatorGame operatorStrength in
  let volumeScore := calculateVolumeScore candles in
  let momentumScore := calculateMomentumScore candles rsi in
  let tradeConfidenceScore :=
    JS.Math_round
      (technicalScore * technical COMPONENT_WEIGHTS +
       smcScore * smc COMPONENT_WEIGHTS +
       mtfScore * mtf COMPONENT_WEIGHTS +
       operatorScore * operator COMPONENT_WEIGHTS +
       volumeScore * volumeComponent COMPONENT_WEIGHTS +
       momentumScore * momentum COMPONENT_WEIGHTS) in
  let normalizedScore := (tradeConfidenceScore - 50) * 2 in
  let probabilityBullish := Qmax 0 (Qmin 100 (50 + normalizedScore / 2)) in
  let probabilityBearish := 100 - probabilityBullish in
  let volatility := calculateVolatility candles in
  let riskScore :=
    JS.Math_round (100 - tradeConfidenceScore * 0.7 + volatility * 0.3) in
  let signalStrength := classifySignalStrength tradeConfidenceScore in
  let recommendation :=
    generateRecommendation tradeConfidenceScore probabilityBullish
      riskScore operatorGame mtfAnalysis in
  let timeHorizon := determineTimeHorizon mtfAnalysis signalStrength in
  let setup :=
    calculateTradeSetup currentPrice recommendation smcAnalysis
      mtfAnalysis volatility in
  let positionSize :=
    determinePositionSize tradeConfidenceScore riskScore signalStrength in
  {| tradeConfidenceScore := tradeConfidenceScore;
     riskScore := riskScore;
     probabilityBullish := probabilityBullish;
     probabilityBearish := probabilityBearish;
     signalStrength := signalStrength;
     recommendation := recommendation;
     timeHorizon := timeHorizon;
     componentScores :=
       {| technical := technicalScore; smc := smcScore; mtf := mtfScore;
          operator := operatorScore; volumeComponent := volumeScore;
          momentum := momentumScore |};
     suggestedEntry := setupEntry setup;
     suggestedTarget := setupTarget setup;
     suggestedStopLoss := setupStopLoss setup;
     riskRewardRatio := setupRiskReward setup;
     positionSize := positionSize |}.
End Engine.

End AIConfidence.

(** ** Readings of the specification, and concrete inputs

    The definitions below do not come from the source: they phrase what
    the specification says (to be compared with the code) or fix the
    concrete series the scenarios and examples run on. *)

Module Reading.

(** *** Resampling, as the specification words it

    [resample(series, factor)] groups [factor] consecutive bars into one
    and fails with [InsufficientData] when the series is shorter than
    [factor]. *)

Inductive ResampleError : Type := InsufficientData.

Section Groups.
Variable A : Type.

(** Consecutive groups of [S k] elements; the last one may be shorter. *)
Equations? groups (k : nat) (xs : list A) : list (list A)
  by wf (length xs) lt :=
  groups k [] := [];
  groups k (x :: rest) := (x :: firstn k rest) :: groups k (skipn k rest).
Proof. rewrite length_skipn. simpl. lia. Defined.
End Groups.

Definition resample (series : list CandleData) (factor : nat)
  : ResampleError + list CandleData :=
  if (length series <? factor)%nat then inl InsufficientData
  else inr (map MTF.aggregateChunk (groups (factor - 1) series)).

(** One output bar [bar] summarises the group [g]. *)
Definition summarises (g : list CandleData) (bar : CandleData) : Prop :=
  open bar = open (hd noCandle g) /\
  close bar = close (last g noCandle) /\
  (forall c, In c g -> high c <= high bar) /\
  (exists c, In c g /\ high bar = high c) /\
  (forall c, In c g -> low bar <= low c) /\
  (exists c, In c g /\ low bar = low c) /\
  volume bar = JS.sum (map volume g).

(** *** Time horizon, as the specification words it

    The resolutions ranked by their weight, heaviest first. *)
Fixpoint insertByWeight (tf : MTF.Timeframe) (ranked : list MTF.Timeframe)
  : list MTF.Timeframe :=
  match ranked with
  | [] => [tf]
  | r :: rest =>
      if MTF.TIMEFRAME_WEIGHTS r <? MTF.TIMEFRAME_WEIGHTS tf
      then tf :: r :: rest
      else r :: insertByWeight tf rest
  end.

Definition rankedByWeight : list MTF.Timeframe :=
  fold_right insertByWeight [] MTF.keys.

Definition ranked (i : nat) : MTF.Timeframe := nth i rankedByWeight MTF.tf1m.

Definition agree (tfs : MTF.Timeframes) (a b : MTF.Timeframe) : bool :=
  Trend.eqb (MTF.trend (MTF.lookup tfs a)) (MTF.trend (MTF.lookup tfs b)).

(** "The two highest-weighted resolutions agree (POSITIONAL/SWING) versus
    the two lowest (INTRADAY/SCALP)." *)
Definition horizonBySpec (tfs : MTF.Timeframes) (s : SignalStrength.t)
  : TimeHorizon.t :=
  if agree tfs (ranked 0) (ranked 1) then
    if AIConfidence.isVeryStrong s then TimeHorizon.POSITIONAL
    else TimeHorizon.SWING
  else if agree tfs (ranked 4) (ranked 5) then TimeHorizon.INTRADAY
  else TimeHorizon.SCALP.

(** *** Risk score, as the specification words it *)
Definition riskBySpec (overallConfidence volatility : Q) : Q :=
  JS.clamp100 (100 - 0.7 * overallConfidence + 0.3 * volatility).

(** *** Structure confidence, as the specification words it *)
Definition structureConfidenceBySpec (bullishSum bearishSum : Q) : Q :=
  if Qeq_bool bullishSum 0 && Qeq_bool bearishSum 0 then 0
  else Qmin 100 (Qmax bullishSum bearishSum / (bullishSum + bearishSum) * 100).

End Reading.

Module Scenario.

Definition bar (o h l c v : Q) : CandleData := mkCandle o h l c v None.

(** Scenario A: the two bars of the bullish-engulfing example, with any
    volume and timestamp. *)
Definition bar1 (v : Q) (ts : option Q) : CandleData :=
  mkCandle 100 101 90 92 v ts.
Definition bar2 (v : Q) (ts : option Q) : CandleData :=
  mkCandle 90 106 89 105 v ts.

(** Scenario B: ten quiet bars under a resistance of 100, a pierce to 102,
    then three closes below 99, the last on heavy volume. *)
Definition quiet : CandleData := bar 98 100 97 99 1000.

Definition bullTrapSeries : list CandleData :=
  repeat quiet 10 ++
  [ bar 99 102 98 101 1000;
    bar 101 101.5 99 100 1000;
    bar 100 100 97 98 1000;
    bar 98 98.5 96 97 1000;
    bar 97 97.5 95 96 3000 ].

(** Scenario D: a ten-bar series. *)
Definition tenBars : list CandleData := repeat quiet 10.

(** A lone strong bullish order block and a lone bearish gap. *)
Definition strongBullishBlock : SMC.OrderBlock :=
  SMC.mkOrderBlock BULLISH 100 95 1 STRONG.
Definition strongBearishBlock : SMC.OrderBlock :=
  SMC.mkOrderBlock BEARISH 100 95 1 STRONG.
Definition bearishGap : SMC.FairValueGap :=
  SMC.mkFVG BEARISH 100 99 1 false.

(** A report whose 1D and 4H trends differ, whose 15m and 1H trends
    differ, and whose 1m and 5m trends agree. *)
Definition signalWith (tf : MTF.Timeframe) (t : Trend.t)
  : MTF.TimeframeSignal :=
  MTF.mkTimeframeSignal tf t 0 50 NEUTRAL NEUTRAL NEUTRAL
                        VolumeState.NORMAL 0.

Definition splitTimeframes : MTF.Timeframes :=
  {| MTF.on1m := signalWith MTF.tf1m Trend.NEUTRAL;
     MTF.on5m := signalWith MTF.tf5m Trend.NEUTRAL;
     MTF.on15m := signalWith MTF.tf15m Trend.BULLISH;
     MTF.on1H := signalWith MTF.tf1H Trend.BEARISH;
     MTF.on4H := signalWith MTF.tf4H Trend.BEARISH;
     MTF.on1D := signalWith MTF.tf1D Trend.BULLISH |}.

Definition splitReport : MTF.MTFAnalysis :=
  {| MTF.symbol := "RELIANCE";
     MTF.currentPrice := 100;
     MTF.timeframes := splitTimeframes;
     MTF.overallTrend := Trend.NEUTRAL;
     MTF.confidenceScore := 0;
     MTF.alignment := 33;
     MTF.recommendation := HOLD;
     MTF.keyLevels := {| MTF.support := []; MTF.resistance := [] |} |}.

(** Engine inputs.  With no bars the volume and momentum scores and the
    volatility take their defaults (50), whatever [Math.log] and
    [Math.sqrt] are. *)
Definition noLog (x : Q) : Q := 0.
Definition noSqrt (x : Q) : Q := 0.

(** Overbought RSI and a bearish MACD, nothing else known. *)
Definition cautious : AIConfidence.AIConfidence :=
  AIConfidence.calculateAIConfidence noLog noSqrt "RELIANCE" 100 []
    75 "BEARISH" [] None None None None.

(** Every component at its floor: bearish structure with bearish BOS and
    CHOCH, a strongly bearish unaligned multi-timeframe report, operators
    selling with strength 0, two strong bearish patterns. *)
Definition bearishStructure : SMC.SMCAnalysis :=
  {| SMC.liquiditySweeps := [];
     SMC.orderBlocks := [];
     SMC.fairValueGaps := [];
     SMC.marketStructure := Structure.BEARISH;
     SMC.bos := Some (SMC.mkBOS SMC.BEARISH_BOS 95 1 96);
     SMC.choch := Some (SMC.mkCHOCH SMC.BEARISH_CHOCH 95 1 HIGH);
     SMC.institutionalCandles := [];
     SMC.supplyDemandZones := [];
     SMC.overallConfidence := 100;
     SMC.recommendation := STRONG_SELL;
     SMC.reasoning := [] |}.

Definition bearishReport : MTF.MTFAnalysis :=
  {| MTF.symbol := "RELIANCE";
     MTF.currentPrice := 100;
     MTF.timeframes := splitTimeframes;
     MTF.overallTrend := Trend.STRONG_BEARISH;
     MTF.confidenceScore := 0;
     MTF.alignment := 33;
     MTF.recommendation := STRONG_SELL;
     MTF.keyLevels := {| MTF.support := []; MTF.resistance := [] |} |}.

Definition bleak : AIConfidence.AIConfidence :=
  AIConfidence.calculateAIConfidence noLog noSqrt "RELIANCE" 100 []
    75 "BEARISH"
    [ AIConfidence.mkTechnicalSignal "Bearish Engulfing" BEARISH STRONG;
      AIConfidence.mkTechnicalSignal "Downtrend" BEARISH STRONG ]
    (Some (AIConfidence.mkOperatorGame "DISTRIBUTION" HIGH Action.SELL))
    (Some (AIConfidence.mkOperatorStrength 0 "BEARISH"))
    (Some bearishStructure) (Some bearishReport).

(** A series that climbs and then falls back: ten quiet bars, twenty
    bars rising by one point each and twenty falling by one point each. *)
Definition ramp (start step : Q) (n : nat) : list CandleData :=
  map (fun i => let p := start + step * JS.ofNat i in
                bar p (p + 2) (p - 2) (p + 1) 1000)
      (seq 0 n).

Definition reversalSeries : list CandleData :=
  repeat quiet 10 ++ ramp 100 1 20 ++ ramp 120 (-1) 20.

(** Scenario C: fifty rising bars on every timeframe, read by indicators
    that report an oversold RSI, a MACD above its signal line and a
    20-period average above the 50-period one. *)
Definition risingSeries : list CandleData := repeat (bar 99 101 98 100 1000) 50.

Definition oversoldRSI (values : list Q) (period : nat) : list Q := [25].

Definition risingMACD (values : list Q) (fastPeriod slowPeriod signalPeriod : nat)
  : list MTF.MACDOutput :=
  [MTF.mkMACDOutput (Some 2) (Some 1)].

Definition risingEMA (values : list Q) (period : nat) : list Q :=
  [if (period <=? 20)%nat then 99 else 98].

(** No bar on any timeframe. *)
Definition noData (tf : MTF.Timeframe) : list CandleData := [].

(** Eight quiet bars, then a heavy green bar answered by a heavy red
    one. *)
Definition contestedSeries : list CandleData :=
  repeat quiet 8 ++ [bar 100 110 99 109 5000; bar 109 110 99 100 5000].

(** Sixty daily bars: up twenty, down twenty, up twenty. *)
Definition zigzagSeries : list CandleData :=
  ramp 100 1 20 ++ ramp 120 (-1) 20 ++ ramp 100 1 20.

(** Evidence whose sums are 115 and 85, an exact half (57.5) in
    percent: four bullish sweeps, a bullish structure, a bullish break
    of structure and a bullish gap, against one bearish sweep, two
    strong bearish order blocks and three bearish gaps. *)
Definition bullishSweep : SMC.LiquiditySweep := SMC.mkSweep BULLISH 100 1 HIGH.
Definition bearishSweep : SMC.LiquiditySweep := SMC.mkSweep BEARISH 100 1 HIGH.
Definition bullishGap : SMC.FairValueGap := SMC.mkFVG BULLISH 100 99 1 false.
Definition bullishBreak : SMC.BreakOfStructure :=
  SMC.mkBOS SMC.BULLISH_BOS 100 1 99.

Definition halfSweeps : list SMC.LiquiditySweep :=
  repeat bullishSweep 4 ++ [bearishSweep].
Definition halfBlocks : list SMC.OrderBlock :=
  [strongBearishBlock; strongBearishBlock].
Definition halfGaps : list SMC.FairValueGap :=
  [bullishGap; bearishGap; bearishGap; bearishGap].

(** Thirteen steps of four bars, one red bar and three green ones that
    close above it: each step but the first leaves a bullish order
    block. *)
Definition stairs : list CandleData :=
  flat_map (fun k => let p := 100 + 10 * JS.ofNat k in
                     [ bar (p + 1) (p + 2) (p - 1) p 1000;
                       bar p (p + 4) p (p + 3) 1000;
                       bar (p + 3) (p + 7) (p + 3) (p + 6) 1000;
                       bar (p + 6) (p + 10) (p + 6) (p + 9) 1000 ])
           (seq 0 13).

(** A confident, low-risk run of the engine: twenty rising bars, the
    last one on heavy volume, and every analysis bullish.  [Math.log] is
    taken as its approximation near 1 and [Math.sqrt] to six
    decimals. *)
Definition nearLog (x : Q) : Q := 2 * (x - 1) / (x + 1).

Definition floorSqrt (x : Q) : Q :=
  inject_Z (Z.sqrt (Qfloor (x * 1000000000000))) / 1000000.

Definition climb : list CandleData :=
  map (fun i => let p := 100 + 2 * JS.ofNat i in
                bar p (p + 3) (p - 1) (p + 2)
                    (if (i =? 19)%nat then 5000 else 1000))
      (seq 0 20).

Definition bullishStructure : SMC.SMCAnalysis :=
  {| SMC.liquiditySweeps := [];
     SMC.orderBlocks := [];
     SMC.fairValueGaps := [];
     SMC.marketStructure := Structure.BULLISH;
     SMC.bos := Some (SMC.mkBOS SMC.BULLISH_BOS 140 1 139);
     SMC.choch := Some (SMC.mkCHOCH SMC.BULLISH_CHOCH 140 1 HIGH);
     SMC.institutionalCandles := [];
     SMC.supplyDemandZones := [];
     SMC.overallConfidence := 100;
     SMC.recommendation := STRONG_BUY;
     SMC.reasoning := [] |}.

Definition bullishReport : MTF.MTFAnalysis :=
  {| MTF.symbol := "RELIANCE";
     MTF.currentPrice := 140;
     MTF.timeframes :=
       {| MTF.on1m := signalWith MTF.tf1m Trend.STRONG_BULLISH;
          MTF.on5m := signalWith MTF.tf5m Trend.STRONG_BULLISH;
          MTF.on15m := signalWith MTF.tf15m Trend.STRONG_BULLISH;
          MTF.on1H := signalWith MTF.tf1H Trend.STRONG_BULLISH;
          MTF.on4H := signalWith MTF.tf4H Trend.STRONG_BULLISH;
          MTF.on1D := signalWith MTF.tf1D Trend.STRONG_BULLISH |};
     MTF.overallTrend := Trend.STRONG_BULLISH;
     MTF.confidenceScore := 90;
     MTF.alignment := 100;
     MTF.recommendation := STRONG_BUY;
     MTF.keyLevels := {| MTF.support := []; MTF.resistance := [] |} |}.

Definition confident : AIConfidence.AIConfidence :=
  AIConfidence.calculateAIConfidence nearLog floorSqrt "RELIANCE" 140 climb
    55 "BULLISH"
    [ AIConfidence.mkTechnicalSignal "Bullish Engulfing" BULLISH STRONG;
      AIConfidence.mkTechnicalSignal "Uptrend" BULLISH STRONG ]
    (Some (AIConfidence.mkOperatorGame "ACCUMULATION" HIGH Action.BUY))
    (Some (AIConfidence.mkOperatorStrength 100 "BULLISH"))
    (Some bullishStructure) (Some bullishReport).


End Scenario.

(** ** Vocabulary of the further properties *)

Module Vocabulary.

(** The operator verdict handed to the engine has [type === k]. *)
Definition trapOf (operatorGame : option AIConfidence.OperatorGame)
           (k : string) : bool :=
  match operatorGame with
  | Some g => String.eqb (AIConfidence.type_ g) k
  | None => false
  end.

(** A score lies in the documented range 0-100. *)
Definition inRange100 (x : Q) : Prop := 0 <= x <= 100.

(** The action and the confidence the detectors attach to each kind of
    verdict. *)
Definition verdictAction (k : OperatorGame.OperatorType) : Action.t :=
  match k with
  | OperatorGame.ACCUMULATION => Action.BUY
  | OperatorGame.DISTRIBUTION => Action.SELL
  | OperatorGame.BULL_TRAP => Action.AVOID
  | OperatorGame.BEAR_TRAP => Action.BUY
  | OperatorGame.PUMP_DUMP => Action.AVOID
  | OperatorGame.BREAKOUT_FAKE => Action.WAIT
  | OperatorGame.SQUEEZE => Action.BUY
  end.

Definition verdictConfidence (k : OperatorGame.OperatorType) : Level :=
  match k with
  | OperatorGame.BREAKOUT_FAKE => MEDIUM
  | _ => HIGH
  end.

(** [kept] is what is left of the array [found] after [found.slice(-n)]:
    its last [n] elements, or all of them when there are fewer. *)
Definition keepsLast (A : Type) (n : nat) (found kept : list A) : Prop :=
  exists older,
    found = older ++ kept /\ length kept = Nat.min n (length found).

End Vocabulary.


(** * Properties *)

Unset Implicit Arguments.

(** ** Comparisons, rounding and folds *)

Lemma ltb_true_iff (x y : Q) : (x <? y) = true <-> x < y.
Proof.
  unfold JS.ltb. rewrite negb_true_iff.
  split; intro H.
  - apply Qnot_le_lt. intro Hle. apply Qle_bool_iff in Hle. congruence.
  - destruct (Qle_bool y x) eqn:E; [|reflexivity].
    apply Qle_bool_iff in E. exfalso. exact (Qlt_not_le _ _ H E).
Qed.

Lemma gtb_true_iff (x y : Q) : (x >? y) = true <-> y < x.
Proof. unfold JS.gtb. apply ltb_true_iff. Qed.

(** ** Candlestick detector *)

Lemma candleAt_last3 (older : list CandleData) (a b c : CandleData) :
  let candles := older ++ [a; b; c] in
  candleAt candles (length candles - 1) = c /\
  candleAt candles (length candles - 2) = b /\
  candleAt candles (length candles - 3) = a.
Proof.
  cbv zeta. unfold candleAt. rewrite length_app. cbn [length].
  repeat split; rewrite app_nth2 by lia.
  - replace (length older + 3 - 1 - length older)%nat with 2%nat by lia.
    reflexivity.
  - replace (length older + 3 - 2 - length older)%nat with 1%nat by lia.
    reflexivity.
  - replace (length older + 3 - 3 - length older)%nat with 0%nat by lia.
    reflexivity.
Qed.

Lemma scenarioA_engulfs v1 v2 t1 t2 :
  Technical.isBullishEngulfing (Scenario.bar1 v1 t1) (Scenario.bar2 v2 t2)
  = true.
Proof. reflexivity. Qed.

(** The guard of the detector: below three bars nothing is reported. *)
Lemma candlestick_needs_three_bars (candles : list CandleData) :
  (length candles < 3)%nat ->
  Technical.detectCandlestickPatterns candles = [].
Proof.
  intro H. unfold Technical.detectCandlestickPatterns.
  apply Nat.ltb_lt in H. rewrite H. reflexivity.
Qed.

(** C7, as stated, fails: on the two-bar series of Scenario A alone the
    detector's three-bar guard returns the empty report. *)
Lemma scenarioA_two_bars_report_nothing :
  Technical.detectCandlestickPatterns
    [Scenario.bar1 0 None; Scenario.bar2 0 None] = [].
Proof. reflexivity. Qed.

(** C7, amended: whenever the two bars of Scenario A are the last two of
    a series of at least three bars, the candlestick detector's report
    starts with the signal labelled "Bullish Engulfing", of direction
    BULLISH and strength STRONG. *)
Theorem scenarioA_bullish_engulfing
        (older : list CandleData) (earlier : CandleData)
        (v1 v2 : Q) (t1 t2 : option Q) :
  exists s rest,
    Technical.detectCandlestickPatterns
      (older ++ [earlier; Scenario.bar1 v1 t1; Scenario.bar2 v2 t2])
    = s :: rest /\
    Technical.pattern s = "Bullish Engulfing"%string /\
    Technical.signal s = BULLISH /\
    Technical.strength s = STRONG.
Proof.
  destruct (candleAt_last3 older earlier
              (Scenario.bar1 v1 t1) (Scenario.bar2 v2 t2)) as (Hc & Hp & Ht).
  cbv zeta in Hc, Hp, Ht.
  unfold Technical.detectCandlestickPatterns.
  replace (length _ <? 3)%nat with false.
  2:{ symmetry. apply Nat.ltb_ge. rewrite length_app. cbn. lia. }
  cbv zeta. rewrite Hc, Hp, Ht, scenarioA_engulfs.
  cbn [Technical.pushIf app].
  eexists. eexists. split; [reflexivity|]. repeat split.
Qed.

(** ** Structure detector: insufficient data *)

(** C3: a series of fewer than 50 bars gets the default report: RANGING
    structure, every event list empty, no BOS and no CHOCH, confidence 0
    and recommendation HOLD.  The function is total, and this branch reads
    no bar at all. *)
Theorem analyzeSMC_insufficient_data (candles : list CandleData) :
  (length candles < 50)%nat ->
  let report := SMC.analyzeSMC candles in
  report = SMC.getDefaultAnalysis /\
  SMC.marketStructure report = Structure.RANGING /\
  SMC.liquiditySweeps report = [] /\
  SMC.orderBlocks report = [] /\
  SMC.fairValueGaps report = [] /\
  SMC.institutionalCandles report = [] /\
  SMC.supplyDemandZones report = [] /\
  SMC.bos report = None /\
  SMC.choch report = None /\
  SMC.overallConfidence report = 0 /\
  SMC.recommendation report = HOLD.
Proof.
  intros Hlen report. subst report.
  unfold SMC.analyzeSMC.
  apply Nat.ltb_lt in Hlen. rewrite Hlen.
  repeat split.
Qed.

(** Scenario D: a ten-bar series. *)
Lemma analyzeSMC_ten_bars :
  SMC.analyzeSMC Scenario.tenBars = SMC.getDefaultAnalysis /\
  SMC.marketStructure (SMC.analyzeSMC Scenario.tenBars) = Structure.RANGING /\
  SMC.overallConfidence (SMC.analyzeSMC Scenario.tenBars) = 0 /\
  SMC.recommendation (SMC.analyzeSMC Scenario.tenBars) = HOLD.
Proof.
  assert (H : (length Scenario.tenBars < 50)%nat) by (cbn; lia).
  pose proof (analyzeSMC_insufficient_data Scenario.tenBars H) as R.
  cbv zeta in R.
  destruct R as (R0 & R1 & _ & _ & _ & _ & _ & _ & _ & R9 & R10).
  repeat split; assumption.
Defined.

(** ** Operator-game detector: priority order *)

Import OperatorGame.

Lemma firstFiring_spec (ds : list (OperatorType * Detector))
      (candles : list CandleData) (v : OperatorSignal) :
  firstFiring ds candles = Some v <->
  exists pre k d post,
    ds = pre ++ (k, d) :: post /\
    Forall (fun kd => snd kd candles = None) pre /\
    d candles = Some v.
Proof.
  induction ds as [|[k d] rest IH]; cbn.
  - split; [discriminate|].
    intros (pre & k & d & post & E & _). destruct pre; discriminate.
  - destruct (d candles) as [w|] eqn:Ed.
    + split.
      * intro E. injection E as <-.
        exists [], k, d, rest. repeat split; [constructor | assumption].
      * intros (pre & k' & d' & post & E & Hpre & Hd).
        destruct pre as [|p pre].
        -- cbn in E. injection E as <- <- <-. congruence.
        -- cbn in E. injection E as <- _. inversion Hpre as [|? ? Hp _].
           cbn in Hp. congruence.
    + rewrite IH. split.
      * intros (pre & k' & d' & post & E & Hpre & Hd).
        exists ((k, d) :: pre), k', d', post. subst rest.
        repeat split; [constructor; assumption | assumption].
      * intros (pre & k' & d' & post & E & Hpre & Hd).
        destruct pre as [|p pre].
        -- cbn in E. injection E as <- <- <-. congruence.
        -- cbn in E. injection E as <- ->. inversion Hpre; subst.
           exists pre, k', d', post. repeat split; assumption.
Qed.

Lemma firstFiring_none (ds : list (OperatorType * Detector))
      (candles : list CandleData) :
  firstFiring ds candles = None <->
  Forall (fun kd => snd kd candles = None) ds.
Proof.
  induction ds as [|[k d] rest IH]; cbn.
  - split; constructor.
  - destruct (d candles) eqn:Ed.
    + split; [discriminate|]. intro H. inversion H; subst. cbn in *. congruence.
    + rewrite IH. split.
      * intro H. constructor; assumption.
      * intro H. inversion H; assumption.
Qed.

(** Each detector only ever returns a verdict of its own kind. *)
Ltac own_kind d :=
  unfold d; intros;
  repeat match goal with
         | H : context [if ?b then _ else _] |- _ => destruct b
         | H : context [let '(_, _) := ?p in _] |- _ => destruct p
         | H : None = Some _ |- _ => discriminate H
         | H : Some _ = Some _ |- _ => injection H as <-
         end;
  try reflexivity.

Lemma detectors_own_kind (candles : list CandleData) :
  Forall (fun kd : OperatorType * Detector =>
            forall v, snd kd candles = Some v -> type_ v = fst kd)
         priorityOrder.
Proof.
  unfold priorityOrder. repeat constructor; cbn [fst snd].
  - own_kind detectAccumulation.
  - own_kind detectDistribution.
  - own_kind detectBullTrap.
  - own_kind detectBearTrap.
  - own_kind detectPumpAndDump.
  - own_kind detectFakeBreakout.
  - own_kind detectShortSqueeze.
Qed.

(** C4: below ten bars the detector returns null; from ten bars on it
    returns the verdict of the first detector that fires in the order
    accumulation, distribution, bull trap, bear trap, pump-and-dump, fake
    breakout, short squeeze (every detector before it having returned
    null), and null when none fires.  The result is an optional verdict,
    so at most one is returned, and its kind is that of the detector it
    comes from. *)
Theorem detectOperatorGame_priority (candles : list CandleData) :
  ((length candles < 10)%nat -> detectOperatorGame candles = None) /\
  ((10 <= length candles)%nat ->
   detectOperatorGame candles = firstFiring priorityOrder candles /\
   (forall v,
       detectOperatorGame candles = Some v <->
       exists pre k d post,
         priorityOrder = pre ++ (k, d) :: post /\
         Forall (fun kd => snd kd candles = None) pre /\
         d candles = Some v /\ type_ v = k) /\
   (detectOperatorGame candles = None <->
    Forall (fun kd => snd kd candles = None) priorityOrder)) /\
  map fst priorityOrder =
    [ACCUMULATION; DISTRIBUTION; BULL_TRAP; BEAR_TRAP;
     PUMP_DUMP; BREAKOUT_FAKE; SQUEEZE].
Proof.
  split; [|split; [|reflexivity]].
  - intro H. unfold detectOperatorGame.
    apply Nat.ltb_lt in H. rewrite H. reflexivity.
  - intro H.
    assert (E : detectOperatorGame candles = firstFiring priorityOrder candles).
    { unfold detectOperatorGame.
      apply Nat.ltb_ge in H. rewrite H. cbn.
      repeat match goal with
             | |- context [match ?d candles with _ => _ end] =>
                 destruct (d candles); try reflexivity
             end. }
    split; [exact E|]. rewrite E. split.
    + intro v. rewrite firstFiring_spec. split.
      * intros (pre & k & d & post & Eq & Hpre & Hd).
        exists pre, k, d, post. repeat split; try assumption.
        pose proof (detectors_own_kind candles) as Hk.
        rewrite Eq in Hk. apply Forall_app in Hk. destruct Hk as [_ Hk].
        inversion Hk as [|? ? Hkd _]. exact (Hkd v Hd).
      * intros (pre & k & d & post & Eq & Hpre & Hd & _).
        exists pre, k, d, post. repeat split; assumption.
    + apply firstFiring_none.
Qed.

(** Scenario B: the bull-trap series is long enough, accumulation and
    distribution stay silent on it, and the bull-trap verdict is
    returned. *)
Lemma detectOperatorGame_bull_trap :
  (10 <= length Scenario.bullTrapSeries)%nat /\
  detectOperatorGame Scenario.bullTrapSeries
  = firstFiring priorityOrder Scenario.bullTrapSeries /\
  option_map type_ (detectOperatorGame Scenario.bullTrapSeries)
  = Some BULL_TRAP /\
  option_map action (detectOperatorGame Scenario.bullTrapSeries)
  = Some Action.AVOID.
Proof.
  assert (H : (10 <= length Scenario.bullTrapSeries)%nat) by (cbn; lia).
  split; [exact H|].
  split.
  - exact (proj1 (proj1 (proj2 (detectOperatorGame_priority
                                  Scenario.bullTrapSeries)) H)).
  - split; vm_compute; reflexivity.
Defined.

(** ** Multi-timeframe alignment *)

Lemma trend_counts_partition (trends : list Trend.t) :
  (JS.count MTF.isBullishTrend trends
   + JS.count MTF.isBearishTrend trends
   + JS.count MTF.isNeutralTrend trends = length trends)%nat.
Proof.
  unfold JS.count.
  induction trends as [|t rest IH]; [reflexivity|].
  destruct t; cbn [filter MTF.isBullishTrend MTF.isBearishTrend
                     MTF.isNeutralTrend length]; lia.
Qed.

(** Three counts that add up to six have a maximum of at least two. *)
Lemma pigeonhole_six (b s n : nat) :
  (b + s + n = 6)%nat -> (2 <= Nat.max b (Nat.max s n) <= 6)%nat.
Proof. lia. Qed.

Lemma Math_max_ofNat3 (b s n : nat) :
  JS.Math_max (map JS.ofNat [b; s; n]) = JS.ofNat (Nat.max b (Nat.max s n)).
Proof.
  cbn [JS.Math_max map fold_left].
  assert (M : forall x y, Qmax (JS.ofNat x) (JS.ofNat y) = JS.ofNat (Nat.max x y)).
  { intros x y. unfold Qmax, GenericMinMax.gmax, JS.ofNat.
    destruct (Nat.max_spec x y) as [[Hlt ->]|[Hle ->]].
    - replace (inject_Z (Z.of_nat x) ?= inject_Z (Z.of_nat y)) with Lt;
        [reflexivity|].
      symmetry. apply (proj1 (Qlt_alt _ _)). rewrite <- Zlt_Qlt. lia.
    - destruct (inject_Z (Z.of_nat x) ?= inject_Z (Z.of_nat y)) eqn:E;
        try reflexivity.
      apply (proj2 (Qlt_alt _ _)) in E. rewrite <- Zlt_Qlt in E. lia. }
  rewrite !M. f_equal. lia.
Qed.

Lemma alignment_of_max (m : nat) :
  (2 <= m <= 6)%nat ->
  In (JS.Math_round (JS.ofNat m / JS.ofNat 6 * 100)) [33; 50; 67; 83; 100].
Proof.
  intros [Hlo Hhi].
  do 7 (destruct m as [|m]; [try lia; vm_compute; tauto|]).
  lia.
Qed.

(** C10: whatever the six per-timeframe trend classes are, the bullish,
    bearish and neutral counts add up to six, their maximum is at least
    two, and the alignment percentage is one of 33, 50, 67, 83, 100; in
    particular it is never below 33. *)
Theorem calculateAlignment_values (tfs : MTF.Timeframes) :
  let trends := map MTF.trend (MTF.Object_values tfs) in
  let bullish := JS.count MTF.isBullishTrend trends in
  let bearish := JS.count MTF.isBearishTrend trends in
  let neutral := JS.count MTF.isNeutralTrend trends in
  (bullish + bearish + neutral = 6)%nat /\
  (2 <= Nat.max bullish (Nat.max bearish neutral))%nat /\
  In (MTF.calculateAlignment tfs) [33; 50; 67; 83; 100] /\
  33 <= MTF.calculateAlignment tfs.
Proof.
  intros trends bullish bearish neutral.
  assert (Hsum : (bullish + bearish + neutral = 6)%nat).
  { exact (trend_counts_partition trends). }
  pose proof (pigeonhole_six _ _ _ Hsum) as Hmax.
  assert (Hin : In (MTF.calculateAlignment tfs) [33; 50; 67; 83; 100]).
  { unfold MTF.calculateAlignment, MTF.alignmentOfTrends.
    fold trends. fold bullish bearish neutral.
    rewrite Math_max_ofNat3.
    replace (length trends) with 6%nat by reflexivity.
    apply alignment_of_max. exact Hmax. }
  repeat split; try assumption; try lia.
  cbn [In] in Hin.
  destruct Hin as [<-|[<-|[<-|[<-|[<-|[]]]]]]; vm_compute; discriminate.
Qed.

(** ** Structure detector: the directional score *)

Lemma ofNat_S (n : nat) : JS.ofNat (S n) == JS.ofNat n + 1.
Proof.
  unfold JS.ofNat. rewrite Nat2Z.inj_succ, <- Z.add_1_r, inject_Z_plus.
  reflexivity.
Qed.

Lemma ofNat_nonneg (n : nat) : 0 <= JS.ofNat n.
Proof.
  unfold JS.ofNat. change 0 with (inject_Z 0). rewrite <- Zle_Qle. lia.
Qed.

Lemma count_insert (A : Type) (p : A -> bool) (xs ys : list A) (x : A) :
  JS.count p (xs ++ x :: ys)
  = ((if p x then 1 else 0) + JS.count p (xs ++ ys))%nat.
Proof.
  unfold JS.count. rewrite !filter_app, !length_app. cbn [filter].
  destruct (p x); cbn [length]; lia.
Qed.

Section Monotone.
Variable liquiditySweeps : list SMC.LiquiditySweep.
Variables before after : list SMC.OrderBlock.
Variable fairValueGaps : list SMC.FairValueGap.
Variable marketStructure : Structure.t.
Variable bos : option SMC.BreakOfStructure.
Variable choch : option SMC.ChangeOfCharacter.
Variable institutionalCandles : list SMC.InstitutionalCandle.
Variable ob : SMC.OrderBlock.

(** C8: with every other piece of evidence fixed, inserting one more
    strong order block anywhere in the order-block list raises the score
    of its own direction by exactly 20, so it never decreases it. *)
Theorem strong_order_block_monotone :
  SMC.ob_strength ob = STRONG ->
  (SMC.ob_type ob = BULLISH ->
   SMC.bullishScore liquiditySweeps (before ++ ob :: after) fairValueGaps
                    marketStructure bos choch institutionalCandles
   == SMC.bullishScore liquiditySweeps (before ++ after) fairValueGaps
                       marketStructure bos choch institutionalCandles + 20 /\
   SMC.bullishScore liquiditySweeps (before ++ after) fairValueGaps
                    marketStructure bos choch institutionalCandles
   <= SMC.bullishScore liquiditySweeps (before ++ ob :: after) fairValueGaps
                       marketStructure bos choch institutionalCandles) /\
  (SMC.ob_type ob = BEARISH ->
   SMC.bearishScore liquiditySweeps (before ++ ob :: after) fairValueGaps
                    marketStructure bos choch institutionalCandles
   == SMC.bearishScore liquiditySweeps (before ++ after) fairValueGaps
                       marketStructure bos choch institutionalCandles + 20 /\
   SMC.bearishScore liquiditySweeps (before ++ after) fairValueGaps
                    marketStructure bos choch institutionalCandles
   <= SMC.bearishScore liquiditySweeps (before ++ ob :: after) fairValueGaps
                       marketStructure bos choch institutionalCandles).
Proof.
  intro Hstrong.
  split; intro Hdir.
  - match goal with |- ?l == ?r /\ _ => assert (E : l == r) end.
    { unfold SMC.bullishScore, SMC.bullishOB.
      rewrite count_insert, Hdir, Hstrong.
      cbn [Direction_eqb Strength_eqb andb Nat.add].
      rewrite ofNat_S. ring. }
    split; [exact E|]. rewrite E. lra.
  - match goal with |- ?l == ?r /\ _ => assert (E : l == r) end.
    { unfold SMC.bearishScore, SMC.bearishOB.
      rewrite count_insert, Hdir, Hstrong.
      cbn [Direction_eqb Strength_eqb andb Nat.add].
      rewrite ofNat_S. ring. }
    split; [exact E|]. rewrite E. lra.
Qed.
End Monotone.

Lemma strong_order_block_monotone_example :
  SMC.bullishScore [] [] [] Structure.RANGING None None []
  <= SMC.bullishScore [] [Scenario.strongBullishBlock] [] Structure.RANGING
                      None None [] /\
  SMC.bearishScore [] [] [] Structure.RANGING None None []
  <= SMC.bearishScore [] [Scenario.strongBearishBlock] [] Structure.RANGING
                      None None [].
Proof.
  split.
  - exact (proj2 (proj1 (strong_order_block_monotone
                           [] [] [] [] Structure.RANGING None None []
                           Scenario.strongBullishBlock eq_refl) eq_refl)).
  - exact (proj2 (proj2 (strong_order_block_monotone
                           [] [] [] [] Structure.RANGING None None []
                           Scenario.strongBearishBlock eq_refl) eq_refl)).
Defined.

(** ** Structure detector: the overall confidence *)

Lemma Math_round_mono (x y : Q) : x <= y -> JS.Math_round x <= JS.Math_round y.
Proof.
  intro H. unfold JS.Math_round. rewrite <- Zle_Qle.
  apply Qfloor_resp_le. lra.
Qed.

Lemma Math_round_comp (x y : Q) : x == y -> JS.Math_round x = JS.Math_round y.
Proof.
  intro H. unfold JS.Math_round. f_equal. apply Qfloor_comp. rewrite H.
  reflexivity.
Qed.

Lemma Math_round_integer (x : Q) : exists z : Z, JS.Math_round x = inject_Z z.
Proof. exists (Qfloor (x + (1 # 2))). reflexivity. Qed.

(** *** One rounding to binary64 *)

Lemma roundHalfEven_near (y : Q) :
  - (1 # 2) <= inject_Z (JS.roundHalfEven y) - y <= 1 # 2.
Proof.
  unfold JS.roundHalfEven. cbv zeta.
  pose proof (Qfloor_le y) as Hlo. pose proof (Qlt_floor y) as Hhi.
  rewrite inject_Z_plus in Hhi. change (inject_Z 1) with 1 in Hhi.
  destruct (Qcompare_spec (y - inject_Z (Qfloor y)) (1 # 2)) as [E|E|E].
  - destruct (Z.even (Qfloor y)).
    + lra.
    + rewrite inject_Z_plus. change (inject_Z 1) with 1. lra.
  - lra.
  - rewrite inject_Z_plus. change (inject_Z 1) with 1. lra.
Qed.

(** Powers of two are positive. *)
Lemma pow2_pos (e : Z) : 0 < 2 ^ e.
Proof. apply Qpower_0_lt. reflexivity. Qed.

(** The unit in the last place sits 52 binary places under the number. *)
Lemma ulpExponent_lower (x : Q) :
  0 < x -> 2 ^ (JS.ulpExponent x + 52) <= x.
Proof.
  intro Hx. unfold JS.ulpExponent. cbv zeta.
  set (a := Z.log2 (Qnum x)). set (b := Z.log2 (Zpos (Qden x))).
  destruct (Qle_bool (2 ^ (a - b - 52 + 52)) x) eqn:E.
  - now apply Qle_bool_iff in E.
  - clear E.
    replace (a - b - 52 - 1 + 52)%Z with (a - (b + 1))%Z by lia.
    rewrite Qpower_minus by (intro H; discriminate H).
    assert (Hn : (0 < Qnum x)%Z).
    { destruct x as [n d]. unfold Qlt in Hx. cbn in *. lia. }
    destruct (Z.log2_spec (Qnum x) Hn) as [Ha _]. fold a in Ha.
    destruct (Z.log2_spec (Zpos (Qden x)) eq_refl) as [_ Hb]. fold b in Hb.
    assert (Ha0 : (0 <= a)%Z) by apply Z.log2_nonneg.
    assert (Hb0 : (0 <= b)%Z) by apply Z.log2_nonneg.
    assert (HA : 2 ^ a <= inject_Z (Qnum x)).
    { change 2 with (inject_Z 2). rewrite <- Zpower_Qpower by exact Ha0.
      rewrite <- Zle_Qle. exact Ha. }
    assert (HB : inject_Z (Zpos (Qden x)) <= 2 ^ (b + 1)).
    { change 2 with (inject_Z 2). rewrite <- Zpower_Qpower by lia.
      rewrite <- Zle_Qle. change (Z.succ b) with (b + 1)%Z in Hb. lia. }
    assert (HD : 0 < inject_Z (Zpos (Qden x))) by reflexivity.
    pose proof (pow2_pos a) as PA. pose proof (pow2_pos (b + 1)) as PB.
    assert (Ex : x == inject_Z (Qnum x) / inject_Z (Zpos (Qden x))).
    { destruct x as [n d]. apply Qmake_Qdiv. }
    rewrite Ex.
    set (A := 2 ^ a) in *. set (B := 2 ^ (b + 1)) in *.
    set (N := inject_Z (Qnum x)) in *.
    set (D := inject_Z (Zpos (Qden x))) in *.
    apply Qle_shift_div_l; [exact HD|].
    apply Qle_trans with A; [|exact HA].
    setoid_replace (A / B * D) with (A * (D / B)) by (field; lra).
    assert (D / B <= 1) by (apply Qle_shift_div_r; lra).
    nra.
Qed.

(** The relative error of one rounding is at most 2^-53. *)
Lemma double_error (x : Q) :
  0 < x ->
  - (x * JS.unitRoundoff) <= JS.double x - x <= x * JS.unitRoundoff.
Proof.
  intro Hx. unfold JS.double. cbv zeta.
  pose proof (Qred_correct x) as Er.
  set (r := Qred x) in *.
  assert (Hr : 0 < r) by (rewrite Er; exact Hx).
  destruct (Qnum r) eqn:En.
  - exfalso. destruct r as [n d]. unfold Qlt in Hr. cbn in *. lia.
  - rewrite Qred_correct.
    pose proof (ulpExponent_lower r Hr) as Hlow.
    set (e := JS.ulpExponent r) in *.
    pose proof (pow2_pos e) as Pe.
    pose proof (roundHalfEven_near (r / 2 ^ e)) as [Nlo Nhi].
    set (m := inject_Z (JS.roundHalfEven (r / 2 ^ e))) in *.
    replace (e + 52)%Z with (52 + e)%Z in Hlow by lia.
    rewrite Qpower_plus in Hlow by (intro H; discriminate H).
    assert (E53 : (2 ^ 53 == 2 * 2 ^ 52)%Q) by reflexivity.
    assert (P52 : 0 < 2 ^ 52) by reflexivity.
    set (s := 2 ^ e) in *. set (k := 2 ^ 52) in *.
    assert (Ey : r / s * s == r) by (field; lra).
    assert (Hh : s * (1 # 2) <= x * JS.unitRoundoff).
    { assert (Ek : k * JS.unitRoundoff == 1 # 2) by reflexivity.
      assert (Hs : s == 2 * (k * s) * JS.unitRoundoff).
      { setoid_replace (2 * (k * s) * JS.unitRoundoff)
          with (2 * s * (k * JS.unitRoundoff)) by ring.
        rewrite Ek. field. }
      assert (Hu : 0 <= JS.unitRoundoff) by (unfold JS.unitRoundoff; lra).
      assert (Hm : (k * s) * JS.unitRoundoff <= x * JS.unitRoundoff)
        by (apply Qmult_le_compat_r; lra).
      set (ksu := k * s * JS.unitRoundoff) in *.
      setoid_replace (2 * (k * s) * JS.unitRoundoff) with (2 * ksu) in Hs
        by (unfold ksu; ring).
      set (xu := x * JS.unitRoundoff) in *. clearbody ksu xu s. clear - Hs Hm.
      lra. }
    set (y := r / s) in *.
    assert (H1 : 0 <= (m - y + (1 # 2)) * s)
      by (apply Qmult_le_0_compat; lra).
    assert (H2 : 0 <= ((1 # 2) - (m - y)) * s)
      by (apply Qmult_le_0_compat; lra).
    setoid_replace ((m - y + (1 # 2)) * s) with (m * s - y * s + s * (1 # 2))
      in H1 by field.
    setoid_replace (((1 # 2) - (m - y)) * s) with (s * (1 # 2) - (m * s - y * s))
      in H2 by field.
    set (u := x * JS.unitRoundoff) in *. set (ms := m * s) in *.
    set (ys := y * s) in *. clearbody u ms ys s k. lra.
  - exfalso. destruct r as [n d]. unfold Qlt in Hr. cbn in *. lia.
Qed.

(** [double] depends on the value of its argument alone. *)
Lemma double_comp (x y : Q) : x == y -> JS.double x = JS.double y.
Proof. intro E. unfold JS.double. now rewrite (Qred_complete _ _ E). Qed.

Lemma Zlt_succ_Qle (a b : Z) : (a < b)%Z -> inject_Z a + 1 <= inject_Z b.
Proof.
  intro H. change 1 with (inject_Z 1). rewrite <- inject_Z_plus.
  rewrite <- Zle_Qle. lia.
Qed.

(** Rounding a percentage computed in floating point: the result is an
    integer within one half of the exact percentage. *)
Lemma rounded_percentage (m t : Q) (zm zt : Z) :
  m == inject_Z zm -> t == inject_Z zt ->
  0 < t -> t <= 2 * m -> m <= t -> t <= 1099511627776 ->
  let c := JS.Math_round (JS.double (JS.double (m / t) * 100)) in
  m / t * 100 - (1 # 2) <= c <= m / t * 100 + (1 # 2) /\ 50 <= c <= 100.
Proof.
  intros Em Et Ht Hhalf Hfull Hbig. cbv zeta.
  set (r := m / t).
  assert (Er : r * t == m) by (unfold r; field; lra).
  assert (Hr : (1 # 2) <= r <= 1).
  { unfold r. split.
    - apply Qle_shift_div_l; lra.
    - apply Qle_shift_div_r; lra. }
  pose proof (double_error r ltac:(lra)) as [Qlo Qhi].
  set (q := JS.double r) in *.
  pose proof (double_error (q * 100) ltac:(unfold JS.unitRoundoff in *; lra))
    as [Plo Phi].
  set (p := JS.double (q * 100)) in *.
  assert (Hp : r * 100 - (1 # 20000000000000) <= p
               <= r * 100 + (1 # 20000000000000)).
  { unfold JS.unitRoundoff in *. clearbody p q. split; lra. }
  unfold JS.Math_round.
  pose proof (Qfloor_le (p + (1 # 2))) as Flo.
  pose proof (Qlt_floor (p + (1 # 2))) as Fhi.
  rewrite inject_Z_plus in Fhi. change (inject_Z 1) with 1 in Fhi.
  set (n := Qfloor (p + (1 # 2))) in *.
  clearbody n p q. clear Qlo Qhi Plo Phi.
  assert (Hrange : 50 <= inject_Z n <= 100).
  { split.
    - assert (H : (49 < n)%Z).
      { rewrite Zlt_Qlt. change (inject_Z 49) with 49. lra. }
      apply Zlt_succ_Qle in H. change (inject_Z 49 + 1) with 50 in H.
      exact H.
    - assert (H : (n < 101)%Z).
      { rewrite Zlt_Qlt. change (inject_Z 101) with 101. lra. }
      assert (H' : (n <= 100)%Z) by lia.
      rewrite Zle_Qle in H'. exact H'. }
  split; [|exact Hrange].
  rewrite Em, Et in Er. rewrite Et in Ht, Hbig.
  set (T := inject_Z zt) in *. set (M := inject_Z zm) in *.
  split.
  - (* r * 100 - 1/2 <= n *)
    destruct (Z_lt_le_dec (2 * n * zt + zt) (200 * zm)) as [Hz|Hz].
    + exfalso. apply Zlt_succ_Qle in Hz.
      rewrite !inject_Z_plus, !inject_Z_mult in Hz.
      fold T M in Hz.
      change (inject_Z 2) with 2 in Hz. change (inject_Z 200) with 200 in Hz.
      assert (H1 : (r * 100 - (1 # 20000000000000)) * T
                   <= (inject_Z n + (1 # 2)) * T)
        by (apply Qmult_le_compat_r; lra).
      assert (H2 : (1 # 20000000000000) * T <= 1 # 18) by lra.
      setoid_replace ((r * 100 - (1 # 20000000000000)) * T)
        with (100 * (r * T) - (1 # 20000000000000) * T) in H1 by ring.
      rewrite Er in H1.
      set (nT := inject_Z n * T) in *.
      setoid_replace ((inject_Z n + (1 # 2)) * T) with (nT + T * (1 # 2)) in H1
        by (unfold nT; field).
      setoid_replace (2 * inject_Z n * T) with (2 * nT) in Hz
        by (unfold nT; ring).
      clearbody nT M T. lra.
    + rewrite Zle_Qle in Hz.
      rewrite !inject_Z_plus, !inject_Z_mult in Hz.
      fold T M in Hz.
      change (inject_Z 2) with 2 in Hz. change (inject_Z 200) with 200 in Hz.
      rewrite <- Er in Hz.
      apply (Qmult_le_r _ _ T); [exact Ht|].
      setoid_replace ((r * 100 - (1 # 2)) * T) with ((200 * (r * T) - T) * (1 # 2))
        by field.
      setoid_replace (2 * inject_Z n * T) with (2 * (inject_Z n * T)) in Hz
        by ring.
      set (nT := inject_Z n * T) in *. set (rT := r * T) in *.
      clearbody nT rT M T. lra.
  - (* n <= r * 100 + 1/2 *)
    destruct (Z_lt_le_dec (200 * zm) (2 * n * zt - zt)) as [Hz|Hz].
    + exfalso. apply Zlt_succ_Qle in Hz.
      unfold Z.sub in Hz.
      rewrite !inject_Z_plus, !inject_Z_mult, inject_Z_opp in Hz.
      fold T M in Hz.
      change (inject_Z 2) with 2 in Hz. change (inject_Z 200) with 200 in Hz.
      assert (H1 : (inject_Z n - (1 # 2)) * T
                   <= (r * 100 + (1 # 20000000000000)) * T)
        by (apply Qmult_le_compat_r; lra).
      assert (H2 : (1 # 20000000000000) * T <= 1 # 18) by lra.
      setoid_replace ((r * 100 + (1 # 20000000000000)) * T)
        with (100 * (r * T) + (1 # 20000000000000) * T) in H1 by ring.
      rewrite Er in H1.
      set (nT := inject_Z n * T) in *.
      setoid_replace ((inject_Z n - (1 # 2)) * T) with (nT - T * (1 # 2)) in H1
        by (unfold nT; field).
      setoid_replace (2 * inject_Z n * T) with (2 * nT) in Hz
        by (unfold nT; ring).
      clearbody nT M T. lra.
    + rewrite Zle_Qle in Hz. unfold Z.sub in Hz.
      rewrite !inject_Z_plus, !inject_Z_mult, inject_Z_opp in Hz.
      fold T M in Hz.
      change (inject_Z 2) with 2 in Hz. change (inject_Z 200) with 200 in Hz.
      rewrite <- Er in Hz.
      apply (Qmult_le_r _ _ T); [exact Ht|].
      setoid_replace ((r * 100 + (1 # 2)) * T) with ((200 * (r * T) + T) * (1 # 2))
        by field.
      setoid_replace (2 * inject_Z n * T) with (2 * (inject_Z n * T)) in Hz
        by ring.
      set (nT := inject_Z n * T) in *. set (rT := r * T) in *.
      clearbody nT rT M T. lra.
Qed.


Section Confidence.
Variable liquiditySweeps : list SMC.LiquiditySweep.
Variable orderBlocks : list SMC.OrderBlock.
Variable fairValueGaps : list SMC.FairValueGap.
Variable marketStructure : Structure.t.
Variable bos : option SMC.BreakOfStructure.
Variable choch : option SMC.ChangeOfCharacter.
Variable institutionalCandles : list SMC.InstitutionalCandle.
Variable supplyDemandZones : list SMC.SupplyDemandZone.

Lemma bullishScore_nonneg :
  0 <= SMC.bullishScore liquiditySweeps orderBlocks fairValueGaps
                        marketStructure bos choch institutionalCandles.
Proof.
  unfold SMC.bullishScore.
  pose proof (ofNat_nonneg (SMC.recentBullishSweeps liquiditySweeps)).
  pose proof (ofNat_nonneg (SMC.bullishOB orderBlocks)).
  pose proof (ofNat_nonneg (SMC.bullishFVG fairValueGaps)).
  pose proof (ofNat_nonneg (SMC.recentBullishInst institutionalCandles)).
  destruct marketStructure, (SMC.bosIs bos SMC.BULLISH_BOS),
    (SMC.chochIs choch SMC.BULLISH_CHOCH); lra.
Qed.

Lemma bearishScore_nonneg :
  0 <= SMC.bearishScore liquiditySweeps orderBlocks fairValueGaps
                        marketStructure bos choch institutionalCandles.
Proof.
  unfold SMC.bearishScore.
  pose proof (ofNat_nonneg (SMC.recentBearishSweeps liquiditySweeps)).
  pose proof (ofNat_nonneg (SMC.bearishOB orderBlocks)).
  pose proof (ofNat_nonneg (SMC.bearishFVG fairValueGaps)).
  pose proof (ofNat_nonneg (SMC.recentBearishInst institutionalCandles)).
  destruct marketStructure, (SMC.bosIs bos SMC.BULLISH_BOS),
    (SMC.bosIs bos SMC.BEARISH_BOS),
    (SMC.chochIs choch SMC.BULLISH_CHOCH),
    (SMC.chochIs choch SMC.BEARISH_CHOCH); lra.
Qed.

Lemma bullishScore_integer :
  exists z : Z,
    SMC.bullishScore liquiditySweeps orderBlocks fairValueGaps
                     marketStructure bos choch institutionalCandles
    == inject_Z z.
Proof.
  exists (0 + Z.of_nat (SMC.recentBullishSweeps liquiditySweeps) * 15
          + Z.of_nat (SMC.bullishOB orderBlocks) * 20
          + Z.of_nat (SMC.bullishFVG fairValueGaps) * 10
          + (match marketStructure with Structure.BULLISH => 25 | _ => 0 end)
          + (if SMC.bosIs bos SMC.BULLISH_BOS then 20 else 0)
          + (if SMC.chochIs choch SMC.BULLISH_CHOCH then 25 else 0)
          + Z.of_nat (SMC.recentBullishInst institutionalCandles) * 10)%Z.
  unfold SMC.bullishScore, JS.ofNat.
  rewrite !inject_Z_plus, !inject_Z_mult.
  destruct marketStructure, (SMC.bosIs bos SMC.BULLISH_BOS),
    (SMC.chochIs choch SMC.BULLISH_CHOCH); reflexivity.
Qed.

Lemma bearishScore_integer :
  exists z : Z,
    SMC.bearishScore liquiditySweeps orderBlocks fairValueGaps
                     marketStructure bos choch institutionalCandles
    == inject_Z z.
Proof.
  exists (0 + Z.of_nat (SMC.recentBearishSweeps liquiditySweeps) * 15
          + Z.of_nat (SMC.bearishOB orderBlocks) * 20
          + Z.of_nat (SMC.bearishFVG fairValueGaps) * 10
          + (match marketStructure with Structure.BEARISH => 25 | _ => 0 end)
          + (if SMC.bosIs bos SMC.BULLISH_BOS then 0
             else if SMC.bosIs bos SMC.BEARISH_BOS then 20 else 0)
          + (if SMC.chochIs choch SMC.BULLISH_CHOCH then 0
             else if SMC.chochIs choch SMC.BEARISH_CHOCH then 25 else 0)
          + Z.of_nat (SMC.recentBearishInst institutionalCandles) * 10)%Z.
  unfold SMC.bearishScore, JS.ofNat.
  rewrite !inject_Z_plus, !inject_Z_mult.
  destruct marketStructure, (SMC.bosIs bos SMC.BULLISH_BOS),
    (SMC.bosIs bos SMC.BEARISH_BOS),
    (SMC.chochIs choch SMC.BULLISH_CHOCH),
    (SMC.chochIs choch SMC.BEARISH_CHOCH); reflexivity.
Qed.

(** C9, amended: when one of the two sums is positive (and they total at
    most 2^40), the confidence is the ratio max/(bullish+bearish) x 100
    rounded to an integer: an integer between 50 and 100, so that the cap
    at 100 never binds, at most one half away from the exact ratio.  It
    is the nearest integer, except that at an exact half it can be the
    integer below instead of the one above, the ratio being computed in
    floating point.  The confidence is 0 when both sums are 0, and the
    divisor the code uses is never 0. *)
Theorem smc_confidence_rounded_ratio :
  let bullish :=
    SMC.bullishScore liquiditySweeps orderBlocks fairValueGaps
                     marketStructure bos choch institutionalCandles in
  let bearish :=
    SMC.bearishScore liquiditySweeps orderBlocks fairValueGaps
                     marketStructure bos choch institutionalCandles in
  let confidence :=
    SMC.confidence
      (SMC.calculateSMCScore liquiditySweeps orderBlocks fairValueGaps
         marketStructure bos choch institutionalCandles supplyDemandZones) in
  (bullish == 0 /\ bearish == 0 -> confidence == 0) /\
  (0 < bullish \/ 0 < bearish ->
   bullish + bearish <= 1099511627776 ->
   (exists z : Z, confidence = inject_Z z) /\
   Qabs (confidence - Qmax bullish bearish / (bullish + bearish) * 100)
   <= 1 # 2 /\
   (confidence
    == JS.Math_round (Qmax bullish bearish / (bullish + bearish) * 100) \/
    confidence
    == Qmax bullish bearish / (bullish + bearish) * 100 - (1 # 2)) /\
   50 <= confidence <= 100) /\
  (exists divisor,
      ~ divisor == 0 /\
      (0 < bullish + bearish -> divisor = bullish + bearish) /\
      confidence
      = Qmin 100
          (JS.Math_round
             (JS.double
                (JS.double (Qmax bullish bearish / divisor) * 100)))).
Proof.
  intros bullish bearish confidence.
  pose proof bullishScore_nonneg as Hb. fold bullish in Hb.
  pose proof bearishScore_nonneg as Hs. fold bearish in Hs.
  destruct bullishScore_integer as [zb Eb]. fold bullish in Eb.
  destruct bearishScore_integer as [zs Es]. fold bearish in Es.
  assert (Hc : confidence
               = Qmin 100
                   (JS.Math_round
                      (JS.double
                         (JS.double
                            (Qmax bullish bearish
                             / (if Qeq_bool (bullish + bearish) 0 then 1
                                else bullish + bearish)) * 100))))
    by reflexivity.
  clearbody bullish bearish confidence.
  split; [|split].
  - intros [Zb Zs]. rewrite Hc.
    replace (Qeq_bool (bullish + bearish) 0) with true
      by (symmetry; apply Qeq_bool_iff; lra).
    assert (E0 : Qmax bullish bearish / 1 == 0).
    { destruct (Q.max_spec bullish bearish) as [[_ ->]|[_ ->]];
        [rewrite Zs | rewrite Zb]; reflexivity. }
    rewrite (double_comp _ 0 E0). vm_compute. reflexivity.
  - intros Hpos Hbig.
    assert (Hsum : 0 < bullish + bearish) by (destruct Hpos; lra).
    assert (Hne : Qeq_bool (bullish + bearish) 0 = false).
    { apply not_true_is_false. intro E. apply Qeq_bool_iff in E. lra. }
    rewrite Hne in Hc.
    assert (Et : bullish + bearish == inject_Z (zb + zs))
      by (rewrite inject_Z_plus, Eb, Es; reflexivity).
    assert (Hr : exists m zm,
               Qmax bullish bearish == m /\ m == inject_Z zm /\
               bullish + bearish <= 2 * m /\ m <= bullish + bearish).
    { destruct (Q.max_spec bullish bearish) as [[Hlt E]|[Hle E]].
      - exists bearish, zs. repeat split; try assumption; lra.
      - exists bullish, zb. repeat split; try assumption; lra. }
    destruct Hr as (m & zm & Emax & Em & Hhalf & Hfull).
    pose proof (rounded_percentage m (bullish + bearish) zm (zb + zs)
                  Em Et Hsum Hhalf Hfull Hbig) as R.
    cbv zeta in R.
    assert (Eq : Qmax bullish bearish / (bullish + bearish)
                 == m / (bullish + bearish)) by (rewrite Emax; reflexivity).
    rewrite (double_comp _ _ Eq) in Hc.
    set (c := JS.Math_round _) in *.
    destruct R as ((Rlo & Rhi) & (R50 & R100)).
    assert (Hmin : confidence = c).
    { rewrite Hc. unfold Qmin, GenericMinMax.gmin.
      destruct (Qcompare_spec 100 c) as [E|E|E]; try reflexivity.
      - destruct (Math_round_integer
                    (JS.double
                       (JS.double (m / (bullish + bearish)) * 100)))
          as [z Ez].
        fold c in Ez. clearbody c. subst c.
        unfold Qeq in E. cbn in E.
        assert (Hz : z = 100%Z) by lia. now rewrite Hz.
      - exfalso. clear - E R100. clearbody c. lra. }
    split; [|split; [|split]].
    + rewrite Hmin. unfold c. apply Math_round_integer.
    + rewrite Hmin, Eq. apply Qabs_Qle_condition. split; lra.
    + assert (Ex : Qmax bullish bearish / (bullish + bearish) * 100
                   == m / (bullish + bearish) * 100)
        by (rewrite Eq; reflexivity).
      rewrite Hmin, (Math_round_comp _ _ Ex), Ex.
      destruct (Math_round_integer
                  (JS.double (JS.double (m / (bullish + bearish)) * 100)))
        as [z Ez].
      fold c in Ez. clearbody c. rewrite Ez in Rlo, Rhi |- *.
      set (exact := m / (bullish + bearish) * 100) in *.
      unfold JS.Math_round.
      pose proof (Qfloor_le (exact + (1 # 2))) as Flo.
      pose proof (Qlt_floor (exact + (1 # 2))) as Fhi.
      rewrite inject_Z_plus in Fhi. change (inject_Z 1) with 1 in Fhi.
      set (n := Qfloor (exact + (1 # 2))) in *.
      clearbody n exact. clear - Flo Fhi Rlo Rhi.
      destruct (Z.lt_trichotomy z n) as [Hlt|[->|Hgt]].
      * right. apply Zlt_succ_Qle in Hlt. lra.
      * left. reflexivity.
      * exfalso. apply Zlt_succ_Qle in Hgt. lra.
    + rewrite Hmin. split; assumption.
  - exists (if Qeq_bool (bullish + bearish) 0 then 1 else bullish + bearish).
    split; [|split; [|exact Hc]].
    + destruct (Qeq_bool (bullish + bearish) 0) eqn:E.
      * intro A. vm_compute in A. discriminate.
      * intro A. apply Qeq_bool_iff in A. congruence.
    + intro Hsum. destruct (Qeq_bool (bullish + bearish) 0) eqn:E.
      * apply Qeq_bool_iff in E. lra.
      * reflexivity.
Qed.
End Confidence.

(** C9, as stated, fails: one strong bullish order block (20) against one
    bearish gap (10) gives confidence 67, not 200/3. *)
Lemma smc_confidence_is_rounded :
  let bullish :=
    SMC.bullishScore [] [Scenario.strongBullishBlock] [Scenario.bearishGap]
                     Structure.RANGING None None [] in
  let bearish :=
    SMC.bearishScore [] [Scenario.strongBullishBlock] [Scenario.bearishGap]
                     Structure.RANGING None None [] in
  let confidence :=
    SMC.confidence
      (SMC.calculateSMCScore [] [Scenario.strongBullishBlock]
         [Scenario.bearishGap] Structure.RANGING None None [] []) in
  bullish == 20 /\ bearish == 10 /\
  confidence == 67 /\
  Reading.structureConfidenceBySpec bullish bearish == 200 / 3 /\
  ~ confidence == Reading.structureConfidenceBySpec bullish bearish.
Proof.
  cbv zeta. repeat split; try (vm_compute; reflexivity).
  vm_compute. discriminate.
Qed.

(** The amended statement where the exact ratio is a half: 115 against
    85 is 57.5 percent, the floating-point product is 57.49999999999999
    and the confidence 57. *)
Lemma smc_confidence_rounded_ratio_example :
  let bullish :=
    SMC.bullishScore Scenario.halfSweeps Scenario.halfBlocks
      Scenario.halfGaps Structure.BULLISH (Some Scenario.bullishBreak)
      None [] in
  let bearish :=
    SMC.bearishScore Scenario.halfSweeps Scenario.halfBlocks
      Scenario.halfGaps Structure.BULLISH (Some Scenario.bullishBreak)
      None [] in
  let confidence :=
    SMC.confidence
      (SMC.calculateSMCScore Scenario.halfSweeps Scenario.halfBlocks
         Scenario.halfGaps Structure.BULLISH (Some Scenario.bullishBreak)
         None [] []) in
  bullish == 115 /\ bearish == 85 /\ confidence == 57 /\
  JS.Math_round (Qmax bullish bearish / (bullish + bearish) * 100) == 58 /\
  Qabs (confidence - Qmax bullish bearish / (bullish + bearish) * 100)
  <= 1 # 2.
Proof.
  cbv zeta.
  pose proof (smc_confidence_rounded_ratio
                Scenario.halfSweeps Scenario.halfBlocks Scenario.halfGaps
                Structure.BULLISH (Some Scenario.bullishBreak) None [] [])
    as R.
  cbv zeta in R. destruct R as (_ & R & _).
  destruct R as (_ & R & _ & _).
  - left. vm_compute. reflexivity.
  - vm_compute. discriminate.
  - repeat split; try (vm_compute; reflexivity). exact R.
Defined.

(** ** Confidence engine: time horizon *)

Lemma Trend_eqb_sym (a b : Trend.t) : Trend.eqb a b = Trend.eqb b a.
Proof. destruct a, b; reflexivity. Qed.

Lemma rankedByWeight_order :
  Reading.rankedByWeight
  = [MTF.tf1D; MTF.tf4H; MTF.tf1H; MTF.tf15m; MTF.tf5m; MTF.tf1m].
Proof. reflexivity. Qed.

(** C6, as stated, fails: on a report whose 1D and 4H trends differ,
    whose 15m and 1H trends differ and whose two lowest-weighted
    resolutions (5m and 1m) agree, the specification's rule gives
    INTRADAY and the code gives SCALP. *)
Lemma timeHorizon_ignores_lowest_weighted :
  Reading.ranked 4 = MTF.tf5m /\ Reading.ranked 5 = MTF.tf1m /\
  Reading.agree Scenario.splitTimeframes (Reading.ranked 0) (Reading.ranked 1)
  = false /\
  Reading.agree Scenario.splitTimeframes (Reading.ranked 4) (Reading.ranked 5)
  = true /\
  Reading.horizonBySpec Scenario.splitTimeframes SignalStrength.WEAK
  = TimeHorizon.INTRADAY /\
  AIConfidence.determineTimeHorizon (Some Scenario.splitReport)
                                    SignalStrength.WEAK
  = TimeHorizon.SCALP.
Proof. repeat split. Qed.

(** C6, amended: with the resolutions ranked by weight (1D, 4H, 1H, 15m,
    5m, 1m), the horizon of a report is POSITIONAL (signal strength
    VERY_STRONG) or SWING when the two highest-weighted resolutions agree
    on trend; otherwise it is INTRADAY when the third and fourth (1H and
    15m) agree, and SCALP when they do not.  The two lowest-weighted
    resolutions are not consulted. *)
Theorem determineTimeHorizon_by_rank
        (report : MTF.MTFAnalysis) (s : SignalStrength.t) :
  let tfs := MTF.timeframes report in
  Reading.rankedByWeight
  = [MTF.tf1D; MTF.tf4H; MTF.tf1H; MTF.tf15m; MTF.tf5m; MTF.tf1m] /\
  AIConfidence.determineTimeHorizon (Some report) s
  = (if Reading.agree tfs (Reading.ranked 0) (Reading.ranked 1) then
       if AIConfidence.isVeryStrong s then TimeHorizon.POSITIONAL
       else TimeHorizon.SWING
     else if Reading.agree tfs (Reading.ranked 2) (Reading.ranked 3)
          then TimeHorizon.INTRADAY
          else TimeHorizon.SCALP).
Proof.
  intro tfs. split; [exact rankedByWeight_order|].
  unfold AIConfidence.determineTimeHorizon. fold tfs.
  change (Reading.agree tfs (Reading.ranked 0) (Reading.ranked 1))
    with (Trend.eqb (MTF.trend (MTF.on1D tfs)) (MTF.trend (MTF.on4H tfs))).
  change (Reading.agree tfs (Reading.ranked 2) (Reading.ranked 3))
    with (Trend.eqb (MTF.trend (MTF.on1H tfs)) (MTF.trend (MTF.on15m tfs))).
  rewrite (Trend_eqb_sym (MTF.trend (MTF.on1H tfs))).
  destruct (Trend.eqb (MTF.trend (MTF.on1D tfs)) (MTF.trend (MTF.on4H tfs)));
    destruct (AIConfidence.isVeryStrong s); reflexivity.
Qed.

(** ** Confidence engine: probabilities and risk *)

Lemma clamp100_range (x : Q) : 0 <= JS.clamp100 x <= 100.
Proof.
  unfold JS.clamp100. split.
  - apply Q.le_max_l.
  - apply Q.max_lub; [lra | apply Q.le_min_l].
Qed.

Lemma clamp100_id (x : Q) : 0 <= x <= 100 -> JS.clamp100 x == x.
Proof.
  intros [Hlo Hhi]. unfold JS.clamp100.
  rewrite (Q.min_r 100 x Hhi). apply Q.max_r. exact Hlo.
Qed.

Lemma clamp100_comp (x y : Q) : x == y -> JS.clamp100 x == JS.clamp100 y.
Proof. intro H. unfold JS.clamp100. rewrite H. reflexivity. Qed.

Lemma technicalScore_range rsi macdSignal technicalSignals :
  0 <= AIConfidence.calculateTechnicalScore rsi macdSignal technicalSignals
  <= 100.
Proof. apply clamp100_range. Qed.

Lemma smcScore_range smcAnalysis :
  0 <= AIConfidence.calculateSMCScore smcAnalysis <= 100.
Proof.
  destruct smcAnalysis; cbn [AIConfidence.calculateSMCScore];
    [apply clamp100_range | lra].
Qed.

Lemma mtfScore_range mtfAnalysis :
  0 <= AIConfidence.calculateMTFScore mtfAnalysis <= 100.
Proof.
  destruct mtfAnalysis; cbn [AIConfidence.calculateMTFScore];
    [apply clamp100_range | lra].
Qed.

Lemma operatorScore_range operatorGame operatorStrength :
  0 <= AIConfidence.calculateOperatorScore operatorGame operatorStrength
  <= 100.
Proof. apply clamp100_range. Qed.

Lemma volumeScore_range candles :
  0 <= AIConfidence.calculateVolumeScore candles <= 100.
Proof.
  unfold AIConfidence.calculateVolumeScore.
  destruct (length candles <? 10)%nat; [lra | apply clamp100_range].
Qed.

Lemma momentumScore_range candles rsi :
  0 <= AIConfidence.calculateMomentumScore candles rsi <= 100.
Proof.
  unfold AIConfidence.calculateMomentumScore.
  destruct (length candles <? 5)%nat; [lra | apply clamp100_range].
Qed.

Lemma probabilities_algebra (c pb pbear : Q) :
  0 <= c <= 100 ->
  pb = JS.clamp100 (50 + (c - 50) * 2 / 2) ->
  pbear = 100 - pb ->
  0 <= c <= 100 /\
  pb == JS.clamp100 (50 + (c - 50)) /\
  pb == c /\
  pbear = 100 - pb /\
  pb + pbear == 100.
Proof.
  intros Hrange Hpb Hbear.
  assert (Hclamp : pb == JS.clamp100 (50 + (c - 50))).
  { rewrite Hpb. apply clamp100_comp. field. }
  split; [exact Hrange|].
  split; [exact Hclamp|].
  split; [rewrite Hclamp; rewrite clamp100_id by lra; ring|].
  split; [exact Hbear|].
  rewrite Hbear. ring.
Qed.


Lemma tradeConfidenceScore_range
      (Math_log Math_sqrt : Q -> Q) (symbol : string) (currentPrice : Q)
      (candles : list CandleData) (rsi : Q) (macdSignal : string)
      (technicalSignals : list AIConfidence.TechnicalSignal)
      (operatorGame : option AIConfidence.OperatorGame)
      (operatorStrength : option AIConfidence.OperatorStrength)
      (smcAnalysis : option SMC.SMCAnalysis)
      (mtfAnalysis : option MTF.MTFAnalysis) :
  0 <= AIConfidence.tradeConfidenceScore
         (AIConfidence.calculateAIConfidence Math_log Math_sqrt symbol
            currentPrice candles rsi macdSignal technicalSignals
            operatorGame operatorStrength smcAnalysis mtfAnalysis)
  <= 100.
Proof.
  cbn [AIConfidence.calculateAIConfidence AIConfidence.tradeConfidenceScore].
  pose proof (technicalScore_range rsi macdSignal technicalSignals).
  pose proof (smcScore_range smcAnalysis).
  pose proof (mtfScore_range mtfAnalysis).
  pose proof (operatorScore_range operatorGame operatorStrength).
  pose proof (volumeScore_range candles).
  pose proof (momentumScore_range candles rsi).
  cbn [AIConfidence.COMPONENT_WEIGHTS AIConfidence.technical AIConfidence.smc
       AIConfidence.mtf AIConfidence.operator AIConfidence.volumeComponent
       AIConfidence.momentum].
  split.
  - apply (Math_round_mono 0). lra.
  - apply (Math_round_mono _ 100). lra.
Qed.

(** The fields of the result, read off the body of the engine. *)
Lemma engine_probabilityBullish
      (Math_log Math_sqrt : Q -> Q) (symbol : string) (currentPrice : Q)
      (candles : list CandleData) (rsi : Q) (macdSignal : string)
      (technicalSignals : list AIConfidence.TechnicalSignal)
      (operatorGame : option AIConfidence.OperatorGame)
      (operatorStrength : option AIConfidence.OperatorStrength)
      (smcAnalysis : option SMC.SMCAnalysis)
      (mtfAnalysis : option MTF.MTFAnalysis) :
  AIConfidence.probabilityBullish
    (AIConfidence.calculateAIConfidence Math_log Math_sqrt symbol
       currentPrice candles rsi macdSignal technicalSignals
       operatorGame operatorStrength smcAnalysis mtfAnalysis)
  = JS.clamp100
      (50 + (AIConfidence.tradeConfidenceScore
               (AIConfidence.calculateAIConfidence Math_log Math_sqrt symbol
                  currentPrice candles rsi macdSignal technicalSignals
                  operatorGame operatorStrength smcAnalysis mtfAnalysis)
             - 50) * 2 / 2).
Proof.
  cbn [AIConfidence.calculateAIConfidence AIConfidence.probabilityBullish
       AIConfidence.tradeConfidenceScore].
  unfold JS.clamp100. reflexivity.
Qed.

Lemma engine_probabilityBearish
      (Math_log Math_sqrt : Q -> Q) (symbol : string) (currentPrice : Q)
      (candles : list CandleData) (rsi : Q) (macdSignal : string)
      (technicalSignals : list AIConfidence.TechnicalSignal)
      (operatorGame : option AIConfidence.OperatorGame)
      (operatorStrength : option AIConfidence.OperatorStrength)
      (smcAnalysis : option SMC.SMCAnalysis)
      (mtfAnalysis : option MTF.MTFAnalysis) :
  AIConfidence.probabilityBearish
    (AIConfidence.calculateAIConfidence Math_log Math_sqrt symbol
       currentPrice candles rsi macdSignal technicalSignals
       operatorGame operatorStrength smcAnalysis mtfAnalysis)
  = 100 - AIConfidence.probabilityBullish
            (AIConfidence.calculateAIConfidence Math_log Math_sqrt symbol
               currentPrice candles rsi macdSignal technicalSignals
               operatorGame operatorStrength smcAnalysis mtfAnalysis).
Proof.
  cbn [AIConfidence.calculateAIConfidence AIConfidence.probabilityBullish
       AIConfidence.probabilityBearish].
  reflexivity.
Qed.

Lemma engine_riskScore
      (Math_log Math_sqrt : Q -> Q) (symbol : string) (currentPrice : Q)
      (candles : list CandleData) (rsi : Q) (macdSignal : string)
      (technicalSignals : list AIConfidence.TechnicalSignal)
      (operatorGame : option AIConfidence.OperatorGame)
      (operatorStrength : option AIConfidence.OperatorStrength)
      (smcAnalysis : option SMC.SMCAnalysis)
      (mtfAnalysis : option MTF.MTFAnalysis) :
  AIConfidence.riskScore
    (AIConfidence.calculateAIConfidence Math_log Math_sqrt symbol
       currentPrice candles rsi macdSignal technicalSignals
       operatorGame operatorStrength smcAnalysis mtfAnalysis)
  = JS.Math_round
      (100
       - AIConfidence.tradeConfidenceScore
           (AIConfidence.calculateAIConfidence Math_log Math_sqrt symbol
              currentPrice candles rsi macdSignal technicalSignals
              operatorGame operatorStrength smcAnalysis mtfAnalysis) * 0.7
       + AIConfidence.calculateVolatility Math_log Math_sqrt candles * 0.3).
Proof.
  cbn [AIConfidence.calculateAIConfidence AIConfidence.riskScore
       AIConfidence.tradeConfidenceScore].
  reflexivity.
Qed.

(** C2: the overall confidence lies in [0,100]; the bullish probability
    is clamp(50 + (overallConfidence - 50), 0, 100), which is the overall
    confidence itself; the bearish probability is 100 minus the bullish
    one; and the two add up to exactly 100. *)
Theorem probabilities_from_confidence
      (Math_log Math_sqrt : Q -> Q) (symbol : string) (currentPrice : Q)
      (candles : list CandleData) (rsi : Q) (macdSignal : string)
      (technicalSignals : list AIConfidence.TechnicalSignal)
      (operatorGame : option AIConfidence.OperatorGame)
      (operatorStrength : option AIConfidence.OperatorStrength)
      (smcAnalysis : option SMC.SMCAnalysis)
      (mtfAnalysis : option MTF.MTFAnalysis) :
  let result :=
    AIConfidence.calculateAIConfidence Math_log Math_sqrt symbol
      currentPrice candles rsi macdSignal technicalSignals
      operatorGame operatorStrength smcAnalysis mtfAnalysis in
  let overallConfidence := AIConfidence.tradeConfidenceScore result in
  0 <= overallConfidence <= 100 /\
  AIConfidence.probabilityBullish result
  == JS.clamp100 (50 + (overallConfidence - 50)) /\
  AIConfidence.probabilityBullish result == overallConfidence /\
  AIConfidence.probabilityBearish result
  = 100 - AIConfidence.probabilityBullish result /\
  AIConfidence.probabilityBullish result
  + AIConfidence.probabilityBearish result == 100.
Proof.
  intros result overallConfidence.
  exact (probabilities_algebra _ _ _
           (tradeConfidenceScore_range Math_log Math_sqrt symbol currentPrice
              candles rsi macdSignal technicalSignals operatorGame
              operatorStrength smcAnalysis mtfAnalysis)
           (engine_probabilityBullish Math_log Math_sqrt symbol currentPrice
              candles rsi macdSignal technicalSignals operatorGame
              operatorStrength smcAnalysis mtfAnalysis)
           (engine_probabilityBearish Math_log Math_sqrt symbol currentPrice
              candles rsi macdSignal technicalSignals operatorGame
              operatorStrength smcAnalysis mtfAnalysis)).
Qed.


Lemma calculateVolatility_nonneg (Math_log Math_sqrt : Q -> Q)
      (candles : list CandleData) :
  (forall x, 0 <= Math_sqrt x) ->
  0 <= AIConfidence.calculateVolatility Math_log Math_sqrt candles.
Proof.
  intro Hsqrt. unfold AIConfidence.calculateVolatility.
  destruct (length candles <? 20)%nat; [lra|].
  cbv zeta. apply Q.min_glb; [lra|].
  match goal with |- 0 <= Math_sqrt ?v * 2000 => pose proof (Hsqrt v) end.
  lra.
Qed.

Lemma risk_floor (c v risk : Q) :
  risk = JS.Math_round (100 - c * 0.7 + v * 0.3) ->
  0 <= c <= 100 -> 0 <= v -> 30 <= risk.
Proof.
  intros -> Hc Hv. apply (Math_round_mono 30). lra.
Qed.

(** The lower clamp is never needed: a non-negative square root makes the
    volatility non-negative and the risk score at least 30. *)
Lemma riskScore_at_least_30
      (Math_log Math_sqrt : Q -> Q) (symbol : string) (currentPrice : Q)
      (candles : list CandleData) (rsi : Q) (macdSignal : string)
      (technicalSignals : list AIConfidence.TechnicalSignal)
      (operatorGame : option AIConfidence.OperatorGame)
      (operatorStrength : option AIConfidence.OperatorStrength)
      (smcAnalysis : option SMC.SMCAnalysis)
      (mtfAnalysis : option MTF.MTFAnalysis) :
  (forall x, 0 <= Math_sqrt x) ->
  30 <= AIConfidence.riskScore
          (AIConfidence.calculateAIConfidence Math_log Math_sqrt symbol
             currentPrice candles rsi macdSignal technicalSignals
             operatorGame operatorStrength smcAnalysis mtfAnalysis).
Proof.
  intro Hsqrt.
  pose proof (engine_riskScore Math_log Math_sqrt symbol currentPrice
                candles rsi macdSignal technicalSignals operatorGame
                operatorStrength smcAnalysis mtfAnalysis) as Hrisk.
  pose proof (tradeConfidenceScore_range Math_log Math_sqrt symbol
                currentPrice candles rsi macdSignal technicalSignals
                operatorGame operatorStrength smcAnalysis mtfAnalysis)
    as Hrange.
  pose proof (calculateVolatility_nonneg Math_log Math_sqrt candles Hsqrt)
    as Hvol.
  exact (risk_floor _ _ _ Hrisk Hrange Hvol).
Qed.



(** The code applies no clamp: with every component at its floor the
    confidence is 8, and the risk score is 109, above the documented
    range. *)
Lemma riskScore_above_100 :
  AIConfidence.tradeConfidenceScore Scenario.bleak == 8 /\
  AIConfidence.riskScore Scenario.bleak == 109 /\
  Reading.riskBySpec 8 50 == 100 /\
  ~ AIConfidence.riskScore Scenario.bleak <= 100.
Proof.
  repeat split; try (vm_compute; reflexivity).
  vm_compute. intro H. apply H. reflexivity.
Qed.


(** ** Aggregation of 1H bars into 4H bars *)

Lemma groups_nil (A : Type) (k : nat) : Reading.groups k (@nil A) = [].
Proof. now simp groups. Qed.

Lemma groups_cons (A : Type) (k : nat) (x : A) (rest : list A) :
  Reading.groups k (x :: rest)
  = (x :: firstn k rest) :: Reading.groups k (skipn k rest).
Proof. now simp groups. Qed.

(** Induction on the length of the series, the measure of both loops. *)
Lemma length_induction (A : Type) (P : list A -> Prop) :
  (forall xs, (forall ys, (length ys < length xs)%nat -> P ys) -> P xs) ->
  forall xs, P xs.
Proof.
  intros step xs.
  assert (H : forall n ys, (length ys < n)%nat -> P ys).
  { induction n as [|n IH]; intros ys Hlt; [lia|].
    apply step. intros zs Hz. apply IH. lia. }
  apply (H (S (length xs))). lia.
Qed.

Lemma groups_concat (A : Type) (k : nat) (xs : list A) :
  concat (Reading.groups k xs) = xs.
Proof.
  induction xs as [xs IH] using length_induction.
  destruct xs as [|x rest]; [now rewrite groups_nil|].
  rewrite groups_cons. cbn [concat].
  rewrite IH by (rewrite length_skipn; cbn; lia).
  cbn [app]. f_equal. apply firstn_skipn.
Qed.

Lemma groups_sizes (A : Type) (k : nat) (xs : list A) :
  Forall (fun g => (1 <= length g <= S k)%nat) (Reading.groups k xs).
Proof.
  induction xs as [xs IH] using length_induction.
  destruct xs as [|x rest]; [rewrite groups_nil; constructor|].
  rewrite groups_cons. constructor.
  - cbn [length]. pose proof (firstn_le_length k rest).
    rewrite length_firstn. lia.
  - apply IH. rewrite length_skipn. cbn. lia.
Qed.

(** Every group but the last is full. *)
Lemma groups_full (A : Type) (k : nat) (xs : list A) :
  Forall (fun g => length g = S k) (removelast (Reading.groups k xs)).
Proof.
  induction xs as [xs IH] using length_induction.
  destruct xs as [|x rest]; [rewrite groups_nil; constructor|].
  rewrite groups_cons.
  destruct (Reading.groups k (skipn k rest)) as [|g gs] eqn:E.
  - constructor.
  - change (removelast ((x :: firstn k rest) :: g :: gs))
      with ((x :: firstn k rest) :: removelast (g :: gs)).
    constructor.
    + cbn [length]. rewrite length_firstn.
      destruct (skipn k rest) as [|y ys] eqn:Es;
        [rewrite groups_nil in E; discriminate|].
      assert (length (skipn k rest) = length (y :: ys)) as Hl by now rewrite Es.
      rewrite length_skipn in Hl. cbn in Hl. lia.
    + rewrite <- E. apply IH. rewrite length_skipn. cbn. lia.
Qed.

(** The loop of [aggregateTo4H], started at index [i] with [aggregated]
    already pushed, appends one aggregated bar per group of the rest. *)
Lemma aggregateLoop_groups (candles : list CandleData) :
  forall (n i : nat) (aggregated : list CandleData),
    (length candles - i <= n)%nat ->
    MTF.aggregateLoop candles i aggregated
    = aggregated
      ++ map MTF.aggregateChunk (Reading.groups 3 (skipn i candles)).
Proof.
  induction n as [|n IH]; intros i aggregated Hn.
  - simp aggregateLoop. destruct (lt_dec i (length candles)) as [Hlt|Hge];
      [lia|]. cbn.
    rewrite skipn_all2 by lia. rewrite groups_nil. cbn.
    now rewrite app_nil_r.
  - simp aggregateLoop. destruct (lt_dec i (length candles)) as [Hlt|Hge]; cbn.
    + unfold JS.slice.
      replace (i + 4 - i)%nat with 4%nat by lia.
      destruct (skipn i candles) as [|x rest] eqn:Es.
      { assert (length (skipn i candles) = 0%nat) as Hl by now rewrite Es.
        rewrite length_skipn in Hl. lia. }
      cbn [firstn length Nat.eqb].
      rewrite IH by lia.
      rewrite groups_cons. cbn [map].
      rewrite <- app_assoc. cbn [app].
      replace (skipn (i + 4) candles) with (skipn 3 rest); [reflexivity|].
      replace (i + 4)%nat with (4 + i)%nat by lia.
      rewrite <- skipn_skipn, Es. reflexivity.
    + rewrite skipn_all2 by lia. rewrite groups_nil. cbn.
      now rewrite app_nil_r.
Qed.

Lemma aggregateTo4H_map (candles : list CandleData) :
  MTF.aggregateTo4H candles
  = map MTF.aggregateChunk (Reading.groups 3 candles).
Proof.
  unfold MTF.aggregateTo4H.
  rewrite (aggregateLoop_groups candles (length candles) 0 []) by lia.
  reflexivity.
Qed.

(** [Math.max(...xs)] and [Math.min(...xs)] are the extrema of a
    non-empty array. *)
Lemma fold_Qmax_upper (xs : list Q) (a x : Q) :
  In x (a :: xs) -> x <= fold_left Qmax xs a.
Proof.
  revert a x. induction xs as [|y ys IH]; intros a x Hin; cbn [fold_left].
  - destruct Hin as [<-|[]]. apply Qle_refl.
  - destruct Hin as [<-|[<-|Hin]].
    + apply Qle_trans with (Qmax a y); [apply Q.le_max_l|].
      apply IH. now left.
    + apply Qle_trans with (Qmax a y); [apply Q.le_max_r|].
      apply IH. now left.
    + apply IH. now right.
Qed.

Lemma fold_Qmax_attained (xs : list Q) (a : Q) :
  In (fold_left Qmax xs a) (a :: xs).
Proof.
  revert a. induction xs as [|y ys IH]; intro a; cbn [fold_left].
  - now left.
  - destruct (IH (Qmax a y)) as [E|Hin].
    + rewrite <- E. unfold Qmax, GenericMinMax.gmax.
      destruct (a ?= y); [now left | right; now left | now left].
    + right. now right.
Qed.

Lemma fold_Qmin_lower (xs : list Q) (a x : Q) :
  In x (a :: xs) -> fold_left Qmin xs a <= x.
Proof.
  revert a x. induction xs as [|y ys IH]; intros a x Hin; cbn [fold_left].
  - destruct Hin as [<-|[]]. apply Qle_refl.
  - destruct Hin as [<-|[<-|Hin]].
    + apply Qle_trans with (Qmin a y); [|apply Q.le_min_l].
      apply IH. now left.
    + apply Qle_trans with (Qmin a y); [|apply Q.le_min_r].
      apply IH. now left.
    + apply IH. now right.
Qed.

Lemma fold_Qmin_attained (xs : list Q) (a : Q) :
  In (fold_left Qmin xs a) (a :: xs).
Proof.
  revert a. induction xs as [|y ys IH]; intro a; cbn [fold_left].
  - now left.
  - destruct (IH (Qmin a y)) as [E|Hin].
    + rewrite <- E. unfold Qmin, GenericMinMax.gmin.
      destruct (a ?= y); [now left | now left | right; now left].
    + right. now right.
Qed.

Lemma candleAt_last (g : list CandleData) :
  candleAt g (length g - 1) = last g noCandle.
Proof.
  unfold candleAt.
  induction g as [|c rest IH]; [reflexivity|].
  destruct rest as [|d rest]; [reflexivity|].
  cbn [length] in *.
  replace (S (S (length rest)) - 1)%nat
    with (S (S (length rest) - 1))%nat by lia.
  exact IH.
Qed.

Lemma aggregateChunk_summarises (g : list CandleData) :
  g <> [] -> Reading.summarises g (MTF.aggregateChunk g).
Proof.
  intro Hne. destruct g as [|c rest]; [congruence|].
  unfold Reading.summarises, MTF.aggregateChunk.
  cbn [open high low close volume].
  split; [reflexivity|].
  split; [now rewrite candleAt_last|].
  cbn [map JS.Math_max JS.Math_min].
  split; [|split; [|split; [|split]]].
  - intros d Hd. apply fold_Qmax_upper.
    change (In (high d) (map high (c :: rest))). now apply in_map.
  - pose proof (fold_Qmax_attained (map high rest) (high c)) as Hin.
    change (In (fold_left Qmax (map high rest) (high c))
               (map high (c :: rest))) in Hin.
    apply in_map_iff in Hin. destruct Hin as (d & Ed & Hd).
    exists d. split; [exact Hd | now symmetry].
  - intros d Hd. apply fold_Qmin_lower.
    change (In (low d) (map low (c :: rest))). now apply in_map.
  - pose proof (fold_Qmin_attained (map low rest) (low c)) as Hin.
    change (In (fold_left Qmin (map low rest) (low c))
               (map low (c :: rest))) in Hin.
    apply in_map_iff in Hin. destruct Hin as (d & Ed & Hd).
    exists d. split; [exact Hd | now symmetry].
  - reflexivity.
Qed.

(** C5, as stated, fails: a one-bar series is shorter than the factor 4,
    the specification's [resample] fails with InsufficientData, and the
    code returns a one-bar series. *)
Lemma aggregateTo4H_short_series_succeeds :
  (length [Scenario.quiet] < 4)%nat /\
  Reading.resample [Scenario.quiet] 4 = inl Reading.InsufficientData /\
  MTF.aggregateTo4H [Scenario.quiet] = [Scenario.quiet].
Proof. repeat split. cbn. lia. Qed.

(** C5, amended: [aggregateTo4H] never fails.  It cuts the series into
    consecutive groups of four bars, the last group holding the one to
    three bars left over when the length is not a multiple of four, and
    returns one bar per group: its open is the group's first open, its
    close the group's last close, its high and low the group's extrema,
    its volume the sum of the group's volumes.  From four bars on, this is
    the specification's resample with factor 4. *)
Theorem aggregateTo4H_groups (candles : list CandleData) :
  let groups := Reading.groups 3 candles in
  concat groups = candles /\
  Forall (fun g => (1 <= length g <= 4)%nat) groups /\
  Forall (fun g => length g = 4%nat) (removelast groups) /\
  Forall2 Reading.summarises groups (MTF.aggregateTo4H candles) /\
  ((4 <= length candles)%nat ->
   Reading.resample candles 4 = inr (MTF.aggregateTo4H candles)).
Proof.
  intro groups.
  split; [apply groups_concat|].
  split; [apply groups_sizes|].
  split; [apply groups_full|].
  split.
  - rewrite aggregateTo4H_map. fold groups.
    pose proof (groups_sizes _ 3%nat candles) as Hs. fold groups in Hs.
    clearbody groups.
    induction Hs as [|g gs Hg _ IH]; cbn [map]; constructor; [|exact IH].
    apply aggregateChunk_summarises. intros ->. cbn in Hg. lia.
  - intro Hlen. unfold Reading.resample.
    apply Nat.ltb_ge in Hlen. rewrite Hlen.
    now rewrite aggregateTo4H_map.
Qed.

(** * Further properties of the confidence engine *)

Lemma ltb_false_iff (x y : Q) : (x <? y) = false <-> y <= x.
Proof.
  unfold JS.ltb. rewrite negb_false_iff. apply Qle_bool_iff.
Qed.

Lemma gtb_false_iff (x y : Q) : (x >? y) = false <-> x <= y.
Proof. unfold JS.gtb. apply ltb_false_iff. Qed.

(** Turn every boolean comparison in the context into an inequality. *)
Ltac comparisons :=
  repeat match goal with
         | H : (_ <? _) = true |- _ => apply ltb_true_iff in H
         | H : (_ <? _) = false |- _ => apply ltb_false_iff in H
         | H : (_ >? _) = true |- _ => apply gtb_true_iff in H
         | H : (_ >? _) = false |- _ => apply gtb_false_iff in H
         end.

Lemma Math_round_near (x : Q) :
  x - (1 # 2) < JS.Math_round x /\ JS.Math_round x <= x + (1 # 2).
Proof.
  unfold JS.Math_round. split.
  - pose proof (Qlt_floor (x + (1 # 2))) as H.
    rewrite inject_Z_plus in H. change (inject_Z 1) with 1 in H. lra.
  - apply Qfloor_le.
Qed.

Import Vocabulary.

Lemma generateRecommendation_traps (confidence probabilityBullish riskScore : Q)
      (operatorGame : option AIConfidence.OperatorGame)
      (mtfAnalysis : option MTF.MTFAnalysis) :
  (trapOf operatorGame "BULL_TRAP" || trapOf operatorGame "PUMP_DUMP" = true ->
   AIConfidence.generateRecommendation confidence probabilityBullish riskScore
     operatorGame mtfAnalysis = STRONG_SELL) /\
  (trapOf operatorGame "BULL_TRAP" || trapOf operatorGame "PUMP_DUMP" = false ->
   trapOf operatorGame "BEAR_TRAP" = true ->
   AIConfidence.generateRecommendation confidence probabilityBullish riskScore
     operatorGame mtfAnalysis = STRONG_BUY).
Proof.
  unfold AIConfidence.generateRecommendation, trapOf. cbv zeta.
  split.
  - intro H. rewrite H. reflexivity.
  - intros H1 H2. rewrite H1, H2. reflexivity.
Qed.

(** When the bullish probability is the confidence itself, the numeric
    scale collapses to three outcomes. *)
Lemma generateRecommendation_numeric (confidence probabilityBullish riskScore : Q)
      (operatorGame : option AIConfidence.OperatorGame)
      (mtfAnalysis : option MTF.MTFAnalysis) :
  probabilityBullish == confidence ->
  trapOf operatorGame "BULL_TRAP" = false ->
  trapOf operatorGame "PUMP_DUMP" = false ->
  trapOf operatorGame "BEAR_TRAP" = false ->
  AIConfidence.generateRecommendation confidence probabilityBullish riskScore
    operatorGame mtfAnalysis
  = if riskScore >? 75 then HOLD
    else if confidence >? 80 then STRONG_BUY
    else if confidence >? 65 then BUY
    else HOLD.
Proof.
  intros Hpb H1 H2 H3.
  unfold AIConfidence.generateRecommendation. cbv zeta.
  unfold trapOf in H1, H2, H3. rewrite H1, H2, H3. cbn [orb].
  destruct (riskScore >? 75) eqn:Er;
    destruct (confidence >? 80) eqn:E80;
    destruct (confidence >? 65) eqn:E65;
    destruct (probabilityBullish >? 70) eqn:P70;
    destruct (probabilityBullish >? 60) eqn:P60;
    destruct (probabilityBullish <? 30) eqn:P30;
    destruct (probabilityBullish <? 40) eqn:P40;
    cbn [andb]; try reflexivity; comparisons; exfalso; lra.
Qed.

(** The fields of the engine's result, read off its body. *)
Lemma engine_recommendation
      (Math_log Math_sqrt : Q -> Q) (symbol : string) (currentPrice : Q)
      (candles : list CandleData) (rsi : Q) (macdSignal : string)
      (technicalSignals : list AIConfidence.TechnicalSignal)
      (operatorGame : option AIConfidence.OperatorGame)
      (operatorStrength : option AIConfidence.OperatorStrength)
      (smcAnalysis : option SMC.SMCAnalysis)
      (mtfAnalysis : option MTF.MTFAnalysis) :
  let result :=
    AIConfidence.calculateAIConfidence Math_log Math_sqrt symbol
      currentPrice candles rsi macdSignal technicalSignals
      operatorGame operatorStrength smcAnalysis mtfAnalysis in
  AIConfidence.recommendation result
  = AIConfidence.generateRecommendation
      (AIConfidence.tradeConfidenceScore result)
      (AIConfidence.probabilityBullish result)
      (AIConfidence.riskScore result) operatorGame mtfAnalysis.
Proof.
  cbv zeta.
  cbn [AIConfidence.calculateAIConfidence AIConfidence.recommendation
       AIConfidence.tradeConfidenceScore AIConfidence.probabilityBullish
       AIConfidence.riskScore].
  reflexivity.
Qed.

Lemma engine_positionSize
      (Math_log Math_sqrt : Q -> Q) (symbol : string) (currentPrice : Q)
      (candles : list CandleData) (rsi : Q) (macdSignal : string)
      (technicalSignals : list AIConfidence.TechnicalSignal)
      (operatorGame : option AIConfidence.OperatorGame)
      (operatorStrength : option AIConfidence.OperatorStrength)
      (smcAnalysis : option SMC.SMCAnalysis)
      (mtfAnalysis : option MTF.MTFAnalysis) :
  let result :=
    AIConfidence.calculateAIConfidence Math_log Math_sqrt symbol
      currentPrice candles rsi macdSignal technicalSignals
      operatorGame operatorStrength smcAnalysis mtfAnalysis in
  AIConfidence.positionSize result
  = AIConfidence.determinePositionSize
      (AIConfidence.tradeConfidenceScore result)
      (AIConfidence.riskScore result)
      (AIConfidence.classifySignalStrength
         (AIConfidence.tradeConfidenceScore result)) /\
  AIConfidence.signalStrength result
  = AIConfidence.classifySignalStrength
      (AIConfidence.tradeConfidenceScore result) /\
  AIConfidence.timeHorizon result
  = AIConfidence.determineTimeHorizon mtfAnalysis
      (AIConfidence.classifySignalStrength
         (AIConfidence.tradeConfidenceScore result)).
Proof.
  cbv zeta.
  cbn [AIConfidence.calculateAIConfidence AIConfidence.positionSize
       AIConfidence.tradeConfidenceScore AIConfidence.signalStrength
       AIConfidence.riskScore AIConfidence.timeHorizon].
  repeat split.
Qed.

Lemma engine_componentScores
      (Math_log Math_sqrt : Q -> Q) (symbol : string) (currentPrice : Q)
      (candles : list CandleData) (rsi : Q) (macdSignal : string)
      (technicalSignals : list AIConfidence.TechnicalSignal)
      (operatorGame : option AIConfidence.OperatorGame)
      (operatorStrength : option AIConfidence.OperatorStrength)
      (smcAnalysis : option SMC.SMCAnalysis)
      (mtfAnalysis : option MTF.MTFAnalysis) :
  AIConfidence.componentScores
    (AIConfidence.calculateAIConfidence Math_log Math_sqrt symbol
       currentPrice candles rsi macdSignal technicalSignals
       operatorGame operatorStrength smcAnalysis mtfAnalysis)
  = {| AIConfidence.technical :=
         AIConfidence.calculateTechnicalScore rsi macdSignal technicalSignals;
       AIConfidence.smc := AIConfidence.calculateSMCScore smcAnalysis;
       AIConfidence.mtf := AIConfidence.calculateMTFScore mtfAnalysis;
       AIConfidence.operator :=
         AIConfidence.calculateOperatorScore operatorGame operatorStrength;
       AIConfidence.volumeComponent :=
         AIConfidence.calculateVolumeScore candles;
       AIConfidence.momentum :=
         AIConfidence.calculateMomentumScore candles rsi |}.
Proof.
  cbn [AIConfidence.calculateAIConfidence AIConfidence.componentScores].
  reflexivity.
Qed.

Lemma engine_tradeConfidenceScore
      (Math_log Math_sqrt : Q -> Q) (symbol : string) (currentPrice : Q)
      (candles : list CandleData) (rsi : Q) (macdSignal : string)
      (technicalSignals : list AIConfidence.TechnicalSignal)
      (operatorGame : option AIConfidence.OperatorGame)
      (operatorStrength : option AIConfidence.OperatorStrength)
      (smcAnalysis : option SMC.SMCAnalysis)
      (mtfAnalysis : option MTF.MTFAnalysis) :
  AIConfidence.tradeConfidenceScore
    (AIConfidence.calculateAIConfidence Math_log Math_sqrt symbol
       currentPrice candles rsi macdSignal technicalSignals
       operatorGame operatorStrength smcAnalysis mtfAnalysis)
  = JS.Math_round
      (AIConfidence.calculateTechnicalScore rsi macdSignal technicalSignals
         * 0.15
       + AIConfidence.calculateSMCScore smcAnalysis * 0.25
       + AIConfidence.calculateMTFScore mtfAnalysis * 0.25
       + AIConfidence.calculateOperatorScore operatorGame operatorStrength
         * 0.20
       + AIConfidence.calculateVolumeScore candles * 0.10
       + AIConfidence.calculateMomentumScore candles rsi * 0.05).
Proof.
  cbn [AIConfidence.calculateAIConfidence AIConfidence.tradeConfidenceScore].
  reflexivity.
Qed.

(** X1: every component score of the engine's result and the overall
    confidence lie in [0,100], and the overall confidence is an integer. *)
Theorem engine_scores_in_range
      (Math_log Math_sqrt : Q -> Q) (symbol : string) (currentPrice : Q)
      (candles : list CandleData) (rsi : Q) (macdSignal : string)
      (technicalSignals : list AIConfidence.TechnicalSignal)
      (operatorGame : option AIConfidence.OperatorGame)
      (operatorStrength : option AIConfidence.OperatorStrength)
      (smcAnalysis : option SMC.SMCAnalysis)
      (mtfAnalysis : option MTF.MTFAnalysis) :
  let result :=
    AIConfidence.calculateAIConfidence Math_log Math_sqrt symbol
      currentPrice candles rsi macdSignal technicalSignals
      operatorGame operatorStrength smcAnalysis mtfAnalysis in
  let scores := AIConfidence.componentScores result in
  inRange100 (AIConfidence.technical scores) /\
  inRange100 (AIConfidence.smc scores) /\
  inRange100 (AIConfidence.mtf scores) /\
  inRange100 (AIConfidence.operator scores) /\
  inRange100 (AIConfidence.volumeComponent scores) /\
  inRange100 (AIConfidence.momentum scores) /\
  inRange100 (AIConfidence.tradeConfidenceScore result) /\
  exists z : Z, AIConfidence.tradeConfidenceScore result = inject_Z z.
Proof.
  cbv zeta. rewrite engine_componentScores, engine_tradeConfidenceScore.
  cbn [AIConfidence.technical AIConfidence.smc AIConfidence.mtf
       AIConfidence.operator AIConfidence.volumeComponent
       AIConfidence.momentum].
  unfold inRange100.
  pose proof (technicalScore_range rsi macdSignal technicalSignals).
  pose proof (smcScore_range smcAnalysis).
  pose proof (mtfScore_range mtfAnalysis).
  pose proof (operatorScore_range operatorGame operatorStrength).
  pose proof (volumeScore_range candles).
  pose proof (momentumScore_range candles rsi).
  repeat (split; [assumption|]).
  split; [|apply Math_round_integer].
  split.
  - apply (Math_round_mono 0). lra.
  - apply (Math_round_mono _ 100). lra.
Qed.

(** X2: a bull-trap or pump-and-dump verdict forces STRONG_SELL and,
    failing those, a bear-trap verdict forces STRONG_BUY, whatever the
    scores, the risk and the other analyses are. *)
Theorem engine_trap_overrides
      (Math_log Math_sqrt : Q -> Q) (symbol : string) (currentPrice : Q)
      (candles : list CandleData) (rsi : Q) (macdSignal : string)
      (technicalSignals : list AIConfidence.TechnicalSignal)
      (operatorGame : option AIConfidence.OperatorGame)
      (operatorStrength : option AIConfidence.OperatorStrength)
      (smcAnalysis : option SMC.SMCAnalysis)
      (mtfAnalysis : option MTF.MTFAnalysis) :
  let result :=
    AIConfidence.calculateAIConfidence Math_log Math_sqrt symbol
      currentPrice candles rsi macdSignal technicalSignals
      operatorGame operatorStrength smcAnalysis mtfAnalysis in
  (trapOf operatorGame "BULL_TRAP" || trapOf operatorGame "PUMP_DUMP" = true ->
   AIConfidence.recommendation result = STRONG_SELL) /\
  (trapOf operatorGame "BULL_TRAP" || trapOf operatorGame "PUMP_DUMP" = false ->
   trapOf operatorGame "BEAR_TRAP" = true ->
   AIConfidence.recommendation result = STRONG_BUY).
Proof.
  cbv zeta. rewrite engine_recommendation.
  apply generateRecommendation_traps.
Qed.

(** X3: without a trap verdict the engine never recommends SELL or
    STRONG_SELL.  Its recommendation is HOLD when the risk score exceeds
    75, otherwise STRONG_BUY above a confidence of 80, BUY above 65, and
    HOLD below: the bullish probability is the confidence itself, which
    makes the sell thresholds unreachable. *)
Theorem engine_recommendation_without_trap
      (Math_log Math_sqrt : Q -> Q) (symbol : string) (currentPrice : Q)
      (candles : list CandleData) (rsi : Q) (macdSignal : string)
      (technicalSignals : list AIConfidence.TechnicalSignal)
      (operatorGame : option AIConfidence.OperatorGame)
      (operatorStrength : option AIConfidence.OperatorStrength)
      (smcAnalysis : option SMC.SMCAnalysis)
      (mtfAnalysis : option MTF.MTFAnalysis) :
  trapOf operatorGame "BULL_TRAP" = false ->
  trapOf operatorGame "PUMP_DUMP" = false ->
  trapOf operatorGame "BEAR_TRAP" = false ->
  let result :=
    AIConfidence.calculateAIConfidence Math_log Math_sqrt symbol
      currentPrice candles rsi macdSignal technicalSignals
      operatorGame operatorStrength smcAnalysis mtfAnalysis in
  AIConfidence.recommendation result
  = (if AIConfidence.riskScore result >? 75 then HOLD
     else if AIConfidence.tradeConfidenceScore result >? 80 then STRONG_BUY
     else if AIConfidence.tradeConfidenceScore result >? 65 then BUY
     else HOLD) /\
  AIConfidence.recommendation result <> SELL /\
  AIConfidence.recommendation result <> STRONG_SELL.
Proof.
  intros H1 H2 H3. cbv zeta.
  pose proof (probabilities_algebra _ _ _
                (tradeConfidenceScore_range Math_log Math_sqrt symbol
                   currentPrice candles rsi macdSignal technicalSignals
                   operatorGame operatorStrength smcAnalysis mtfAnalysis)
                (engine_probabilityBullish Math_log Math_sqrt symbol
                   currentPrice candles rsi macdSignal technicalSignals
                   operatorGame operatorStrength smcAnalysis mtfAnalysis)
                (engine_probabilityBearish Math_log Math_sqrt symbol
                   currentPrice candles rsi macdSignal technicalSignals
                   operatorGame operatorStrength smcAnalysis mtfAnalysis))
    as (_ & _ & Hpb & _).
  pose proof (engine_recommendation Math_log Math_sqrt symbol
                currentPrice candles rsi macdSignal technicalSignals
                operatorGame operatorStrength smcAnalysis mtfAnalysis) as Hrec.
  cbv zeta in Hrec.
  set (result := AIConfidence.calculateAIConfidence _ _ _ _ _ _ _ _ _ _ _ _)
    in *.
  clearbody result.
  set (confidence := AIConfidence.tradeConfidenceScore result) in *.
  set (probability := AIConfidence.probabilityBullish result) in *.
  set (risk := AIConfidence.riskScore result) in *.
  clearbody confidence probability risk.
  rewrite Hrec.
  rewrite (generateRecommendation_numeric confidence probability risk
             operatorGame mtfAnalysis Hpb H1 H2 H3).
  split; [reflexivity|].
  destruct (risk >? 75); [split; discriminate|].
  destruct (confidence >? 80); [split; discriminate|].
  destruct (confidence >? 65); split; discriminate.
Qed.

(** The statement above on an input with no operator verdict. *)
Lemma engine_recommendation_without_trap_example :
  AIConfidence.recommendation Scenario.cautious = HOLD.
Proof.
  pose proof (engine_recommendation_without_trap
                Scenario.noLog Scenario.noSqrt "RELIANCE" 100 []
                75 "BEARISH" [] None None None None
                eq_refl eq_refl eq_refl) as R.
  cbv zeta in R. destruct R as [R _].
  fold Scenario.cautious in R. rewrite R. reflexivity.
Defined.

(** X4: with a non-negative square root the position size is LARGE
    exactly when the risk score is below 40: such a risk score already
    forces a confidence above 85, hence the top signal strength. *)
Theorem engine_large_position
      (Math_log Math_sqrt : Q -> Q) (symbol : string) (currentPrice : Q)
      (candles : list CandleData) (rsi : Q) (macdSignal : string)
      (technicalSignals : list AIConfidence.TechnicalSignal)
      (operatorGame : option AIConfidence.OperatorGame)
      (operatorStrength : option AIConfidence.OperatorStrength)
      (smcAnalysis : option SMC.SMCAnalysis)
      (mtfAnalysis : option MTF.MTFAnalysis) :
  (forall x, 0 <= Math_sqrt x) ->
  let result :=
    AIConfidence.calculateAIConfidence Math_log Math_sqrt symbol
      currentPrice candles rsi macdSignal technicalSignals
      operatorGame operatorStrength smcAnalysis mtfAnalysis in
  (AIConfidence.positionSize result = PositionSize.LARGE <->
   AIConfidence.riskScore result < 40) /\
  (AIConfidence.riskScore result < 40 ->
   85 < AIConfidence.tradeConfidenceScore result /\
   AIConfidence.signalStrength result = SignalStrength.VERY_STRONG).
Proof.
  intro Hsqrt. cbv zeta.
  pose proof (engine_positionSize Math_log Math_sqrt symbol
                currentPrice candles rsi macdSignal technicalSignals
                operatorGame operatorStrength smcAnalysis mtfAnalysis) as Hpos.
  cbv zeta in Hpos. destruct Hpos as (Hpos & Hstr & _).
  pose proof (engine_riskScore Math_log Math_sqrt symbol
                currentPrice candles rsi macdSignal technicalSignals
                operatorGame operatorStrength smcAnalysis mtfAnalysis) as Hrisk.
  pose proof (calculateVolatility_nonneg Math_log Math_sqrt candles Hsqrt)
    as Hvol.
  set (result := AIConfidence.calculateAIConfidence _ _ _ _ _ _ _ _ _ _ _ _)
    in *.
  clearbody result.
  set (volatility := AIConfidence.calculateVolatility _ _ _) in *.
  clearbody volatility.
  set (confidence := AIConfidence.tradeConfidenceScore result) in *.
  set (risk := AIConfidence.riskScore result) in *.
  clearbody confidence risk.
  assert (Hforce : risk < 40 -> 85 < confidence).
  { intro Hlt. rewrite Hrisk in Hlt.
    pose proof (Math_round_near (100 - confidence * 0.7 + volatility * 0.3))
      as [Hnear _]. lra. }
  assert (Hvery : 85 < confidence ->
                  AIConfidence.classifySignalStrength confidence
                  = SignalStrength.VERY_STRONG).
  { intro H85. unfold AIConfidence.classifySignalStrength.
    replace (confidence >? 85) with true; [reflexivity|].
    symmetry. now apply gtb_true_iff. }
  split.
  - rewrite Hpos. unfold AIConfidence.determinePositionSize. split.
    + destruct (confidence >? 80); destruct (risk <? 40) eqn:E40;
        destruct (AIConfidence.isVeryStrong _);
        destruct (confidence >? 65); destruct (risk <? 60);
        cbn [andb]; try discriminate; intros _; now apply ltb_true_iff.
    + intro Hlt. specialize (Hforce Hlt). rewrite (Hvery Hforce).
      replace (confidence >? 80) with true
        by (symmetry; apply gtb_true_iff; lra).
      replace (risk <? 40) with true by (symmetry; now apply ltb_true_iff).
      reflexivity.
  - intro Hlt. specialize (Hforce Hlt). split; [exact Hforce|].
    rewrite Hstr. now apply Hvery.
Qed.

(** A confident run on twenty rising bars: the square root is called on
    a positive variance, the risk score is 33 and the position LARGE. *)
Lemma engine_large_position_example :
  AIConfidence.riskScore Scenario.confident == 33 /\
  AIConfidence.positionSize Scenario.confident = PositionSize.LARGE /\
  85 < AIConfidence.tradeConfidenceScore Scenario.confident /\
  AIConfidence.signalStrength Scenario.confident = SignalStrength.VERY_STRONG.
Proof.
  assert (H : forall x, 0 <= Scenario.floorSqrt x).
  { intro x. unfold Scenario.floorSqrt, Qdiv.
    apply Qmult_le_0_compat; [|vm_compute; discriminate].
    change 0 with (inject_Z 0). rewrite <- Zle_Qle. apply Z.sqrt_nonneg. }
  pose proof (engine_large_position
                Scenario.nearLog Scenario.floorSqrt "RELIANCE" 140
                Scenario.climb 55 "BULLISH"
                [ AIConfidence.mkTechnicalSignal "Bullish Engulfing"
                    BULLISH STRONG;
                  AIConfidence.mkTechnicalSignal "Uptrend" BULLISH STRONG ]
                (Some (AIConfidence.mkOperatorGame "ACCUMULATION" HIGH
                         Action.BUY))
                (Some (AIConfidence.mkOperatorStrength 100 "BULLISH"))
                (Some Scenario.bullishStructure)
                (Some Scenario.bullishReport) H) as R.
  cbv zeta in R. fold Scenario.confident in R.
  destruct R as [Hiff Himp].
  assert (Hrisk : AIConfidence.riskScore Scenario.confident < 40)
    by (vm_compute; reflexivity).
  split; [vm_compute; reflexivity|].
  split; [exact (proj2 Hiff Hrisk)|].
  exact (Himp Hrisk).
Defined.

(** ** Trade setup *)

Lemma round2_mono (x y : Q) :
  x <= y -> AIConfidence.round2 x <= AIConfidence.round2 y.
Proof.
  intro H. unfold AIConfidence.round2.
  assert (M : JS.Math_round (x * 100) <= JS.Math_round (y * 100))
    by (apply Math_round_mono; lra).
  apply Qle_shift_div_l; [lra|].
  setoid_replace (JS.Math_round (x * 100) / 100 * 100)
    with (JS.Math_round (x * 100)) by field.
  exact M.
Qed.

Lemma riskReward_two (risk reward : Q) :
  0 < risk -> reward == 2 * risk ->
  AIConfidence.round2 (if risk >? 0 then reward / risk else 0) == 2.
Proof.
  intros Hrisk Hreward.
  replace (risk >? 0) with true by (symmetry; now apply gtb_true_iff).
  unfold AIConfidence.round2.
  rewrite (Math_round_comp _ 200); [reflexivity|].
  rewrite Hreward. field. lra.
Qed.

(** X5: a HOLD recommendation gets no setup (entry, target and stop all
    at the current price, ratio 0).  For a buy or a sell at a positive
    price, with no order block and no key level to override the
    defaults and a non-negative volatility, the reward-to-risk ratio is
    exactly 2, and stop, entry and target are ordered in the direction of
    the trade. *)
Theorem calculateTradeSetup_defaults
      (currentPrice volatility : Q) (recommendation : Recommendation)
      (smcAnalysis : option SMC.SMCAnalysis)
      (mtfAnalysis : option MTF.MTFAnalysis) :
  0 < currentPrice -> 0 <= volatility ->
  (forall a, smcAnalysis = Some a -> SMC.orderBlocks a = []) ->
  (forall m, mtfAnalysis = Some m ->
             MTF.support (MTF.keyLevels m) = [] /\
             MTF.resistance (MTF.keyLevels m) = []) ->
  let setup :=
    AIConfidence.calculateTradeSetup currentPrice recommendation
      smcAnalysis mtfAnalysis volatility in
  match recommendation with
  | HOLD =>
      setup = AIConfidence.mkTradeSetup currentPrice currentPrice currentPrice 0
  | STRONG_BUY | BUY =>
      AIConfidence.setupRiskReward setup == 2 /\
      AIConfidence.setupStopLoss setup <= AIConfidence.setupEntry setup /\
      AIConfidence.setupEntry setup <= AIConfidence.setupTarget setup
  | STRONG_SELL | SELL =>
      AIConfidence.setupRiskReward setup == 2 /\
      AIConfidence.setupTarget setup <= AIConfidence.setupEntry setup /\
      AIConfidence.setupEntry setup <= AIConfidence.setupStopLoss setup
  end.
Proof.
  intros Hprice Hvol Hblocks Hlevels setup. subst setup.
  assert (Eb : match smcAnalysis with
               | Some a => SMC.orderBlocks a | None => [] end = []).
  { destruct smcAnalysis as [a|]; [now apply Hblocks | reflexivity]. }
  assert (Er : match mtfAnalysis with
               | Some m => MTF.resistance (MTF.keyLevels m) | None => [] end
               = []).
  { destruct mtfAnalysis as [m|]; [now apply (Hlevels m) | reflexivity]. }
  assert (Es : match mtfAnalysis with
               | Some m => MTF.support (MTF.keyLevels m) | None => [] end
               = []).
  { destruct mtfAnalysis as [m|]; [now apply (Hlevels m) | reflexivity]. }
  set (m := 1 + volatility / 100 * 0.5).
  assert (Hm : 1 <= m).
  { unfold m. setoid_replace (volatility / 100 * 0.5)
      with (volatility * (1 # 200)) by field. lra. }
  assert (Hup3 : currentPrice <= currentPrice * (1 + 0.03 * m)) by nra.
  assert (Hdn3 : currentPrice * (1 - 0.03 * m) <= currentPrice) by nra.
  assert (Hup15 : currentPrice <= currentPrice * (1 + 0.015 * m)) by nra.
  assert (Hdn15 : currentPrice * (1 - 0.015 * m) <= currentPrice) by nra.
  assert (Hpm : 0 < currentPrice * m) by nra.
  assert (Rbuy :
    AIConfidence.round2
      ((if Qabs (currentPrice - currentPrice * (1 - 0.015 * m)) >? 0
        then Qabs (currentPrice * (1 + 0.03 * m) - currentPrice)
             / Qabs (currentPrice - currentPrice * (1 - 0.015 * m))
        else 0)) == 2).
  { apply riskReward_two.
    - rewrite Qabs_pos by lra. nra.
    - rewrite !Qabs_pos by lra. ring. }
  assert (Rsell :
    AIConfidence.round2
      ((if Qabs (currentPrice - currentPrice * (1 + 0.015 * m)) >? 0
        then Qabs (currentPrice * (1 - 0.03 * m) - currentPrice)
             / Qabs (currentPrice - currentPrice * (1 + 0.015 * m))
        else 0)) == 2).
  { apply riskReward_two.
    - rewrite Qabs_neg by lra. nra.
    - rewrite !Qabs_neg by lra. ring. }
  unfold AIConfidence.calculateTradeSetup. cbv zeta.
  rewrite Eb, Er, Es. cbn [find].
  fold m.
  destruct recommendation;
    cbn [AIConfidence.setupRiskReward AIConfidence.setupStopLoss
         AIConfidence.setupEntry AIConfidence.setupTarget];
    try reflexivity;
    (split; [first [exact Rbuy | exact Rsell]|]);
    split; apply round2_mono; assumption.
Qed.

(** The statement above for a BUY at 100 with volatility 50. *)
Lemma calculateTradeSetup_defaults_example :
  AIConfidence.setupRiskReward
    (AIConfidence.calculateTradeSetup 100 BUY None None 50) == 2.
Proof.
  refine (proj1 (calculateTradeSetup_defaults 100 50 BUY None None _ _ _ _)).
  - reflexivity.
  - discriminate.
  - discriminate.
  - discriminate.
Defined.

(** * Further properties of the operator-game detector *)

(** The action and confidence of a verdict, by kind. *)
Lemma detectors_fixed_verdict (candles : list CandleData) :
  Forall (fun kd : OperatorType * Detector =>
            forall v, snd kd candles = Some v ->
                      action v = verdictAction (fst kd) /\
                      confidence v = verdictConfidence (fst kd))
         priorityOrder.
Proof.
  unfold priorityOrder.
  repeat apply Forall_cons; try apply Forall_nil;
    cbv beta iota delta [fst snd].
  - own_kind detectAccumulation; split; reflexivity.
  - own_kind detectDistribution; split; reflexivity.
  - own_kind detectBullTrap; split; reflexivity.
  - own_kind detectBearTrap; split; reflexivity.
  - own_kind detectPumpAndDump; split; reflexivity.
  - own_kind detectFakeBreakout; split; reflexivity.
  - own_kind detectShortSqueeze; split; reflexivity.
Qed.

Lemma detectOperatorGame_source (candles : list CandleData)
      (v : OperatorSignal) :
  detectOperatorGame candles = Some v ->
  (10 <= length candles)%nat /\
  exists k d, In (k, d) priorityOrder /\ d candles = Some v.
Proof.
  unfold detectOperatorGame.
  destruct (length candles <? 10)%nat eqn:El; [discriminate|].
  apply Nat.ltb_ge in El. intro H. split; [exact El|].
  unfold priorityOrder.
  destruct (detectAccumulation candles) eqn:E1;
    [injection H as <-; eexists _, _; split; [|exact E1]; cbn; tauto|].
  destruct (detectDistribution candles) eqn:E2;
    [injection H as <-; eexists _, _; split; [|exact E2]; cbn; tauto|].
  destruct (detectBullTrap candles) eqn:E3;
    [injection H as <-; eexists _, _; split; [|exact E3]; cbn; tauto|].
  destruct (detectBearTrap candles) eqn:E4;
    [injection H as <-; eexists _, _; split; [|exact E4]; cbn; tauto|].
  destruct (detectPumpAndDump candles) eqn:E5;
    [injection H as <-; eexists _, _; split; [|exact E5]; cbn; tauto|].
  destruct (detectFakeBreakout candles) eqn:E6;
    [injection H as <-; eexists _, _; split; [|exact E6]; cbn; tauto|].
  destruct (detectShortSqueeze candles) eqn:E7;
    [injection H as <-; eexists _, _; split; [|exact E7]; cbn; tauto|].
  discriminate.
Qed.

(** X6: the kind of a verdict fixes its action and its confidence:
    accumulation, bear trap and short squeeze say BUY, distribution says
    SELL, bull trap and pump-and-dump say AVOID, a fake breakout says
    WAIT; the confidence is HIGH except for a fake breakout (MEDIUM). *)
Theorem detectOperatorGame_verdict_table (candles : list CandleData)
        (v : OperatorSignal) :
  detectOperatorGame candles = Some v ->
  action v = verdictAction (type_ v) /\
  confidence v = verdictConfidence (type_ v).
Proof.
  intro H. apply detectOperatorGame_source in H.
  destruct H as (_ & k & d & Hin & Hd).
  pose proof (detectors_own_kind candles) as Hk.
  pose proof (detectors_fixed_verdict candles) as Hv.
  rewrite Forall_forall in Hk, Hv.
  specialize (Hk _ Hin v Hd). specialize (Hv _ Hin v Hd).
  cbn [fst snd] in Hk, Hv. rewrite Hk. exact Hv.
Qed.

(** The table on the bull-trap series of Scenario B. *)
Lemma detectOperatorGame_verdict_table_example :
  exists v, detectOperatorGame Scenario.bullTrapSeries = Some v /\
            action v = Action.AVOID /\ confidence v = HIGH.
Proof.
  destruct (detectOperatorGame Scenario.bullTrapSeries) as [v|] eqn:E;
    [|vm_compute in E; discriminate].
  exists v. split; [reflexivity|].
  pose proof (detectOperatorGame_verdict_table Scenario.bullTrapSeries v E)
    as [Ha Hc].
  assert (Hk : type_ v = BULL_TRAP).
  { vm_compute in E. injection E as <-. reflexivity. }
  rewrite Hk in Ha, Hc. split; assumption.
Defined.

(** X7: the trap detectors need 15 bars and the fake-breakout detector
    20: a series of 10 to 14 bars never yields a bull trap, a bear trap
    or a fake breakout, and a series of fewer than 20 bars never yields a
    fake breakout. *)
Theorem detectOperatorGame_minimum_history (candles : list CandleData)
        (v : OperatorSignal) :
  detectOperatorGame candles = Some v ->
  (10 <= length candles)%nat /\
  ((type_ v = BULL_TRAP \/ type_ v = BEAR_TRAP) ->
   (15 <= length candles)%nat) /\
  (type_ v = BREAKOUT_FAKE -> (20 <= length candles)%nat).
Proof.
  intro H. apply detectOperatorGame_source in H.
  destruct H as (Hlen & k & d & Hin & Hd).
  split; [exact Hlen|].
  pose proof (detectors_own_kind candles) as Hk.
  rewrite Forall_forall in Hk. specialize (Hk _ Hin v Hd).
  cbn [fst snd] in Hk.
  unfold priorityOrder in Hin. cbn [In] in Hin.
  split.
  - intros Hty.
    destruct Hin as [E|[E|[E|[E|[E|[E|[E|[]]]]]]]];
      injection E as <- <-; rewrite Hk in Hty;
      try (destruct Hty; discriminate).
    + unfold detectBullTrap in Hd.
      destruct (length candles <? 15)%nat eqn:El; [discriminate|].
      now apply Nat.ltb_ge in El.
    + unfold detectBearTrap in Hd.
      destruct (length candles <? 15)%nat eqn:El; [discriminate|].
      now apply Nat.ltb_ge in El.
  - intro Hty.
    destruct Hin as [E|[E|[E|[E|[E|[E|[E|[]]]]]]]];
      injection E as <- <-; rewrite Hk in Hty; try discriminate.
    unfold detectFakeBreakout in Hd.
    destruct (length candles <? 20)%nat eqn:El; [discriminate|].
    now apply Nat.ltb_ge in El.
Qed.

(** The bull-trap series has its fifteen bars. *)
Lemma detectOperatorGame_minimum_history_example :
  (15 <= length Scenario.bullTrapSeries)%nat.
Proof.
  destruct (detectOperatorGame Scenario.bullTrapSeries) as [v|] eqn:E;
    [|vm_compute in E; discriminate].
  pose proof (detectOperatorGame_minimum_history
                Scenario.bullTrapSeries v E) as (_ & Htrap & _).
  apply Htrap. left. vm_compute in E. injection E as <-. reflexivity.
Defined.

(** * Further properties of the structure detector *)

Lemma slice_last_length (A : Type) (n : nat) (xs : list A) :
  (length (JS.slice_last n xs) <= n)%nat.
Proof. unfold JS.slice_last. rewrite length_skipn. lia. Qed.

Lemma slice_last_idem (A : Type) (n : nat) (xs : list A) :
  JS.slice_last n (JS.slice_last n xs) = JS.slice_last n xs.
Proof.
  unfold JS.slice_last. rewrite length_skipn.
  replace (length xs - (length xs - n) - n)%nat with 0%nat by lia.
  reflexivity.
Qed.

Lemma slice_last_keepsLast (A : Type) (n : nat) (xs : list A) :
  keepsLast n xs (JS.slice_last n xs).
Proof.
  exists (firstn (length xs - n) xs). unfold JS.slice_last. split.
  - symmetry. apply firstn_skipn.
  - rewrite length_skipn. lia.
Qed.

(** X8: whatever the series, the report holds at most five liquidity
    sweeps, three order blocks, five fair value gaps, five institutional
    candles and three supply/demand zones; and on a series of 50 bars or
    more they are the last ones found: each list of the report is the
    end of the list the detector's scan builds, and what is dropped is
    its beginning. *)
Theorem analyzeSMC_keeps_latest (candles : list CandleData) :
  let report := SMC.analyzeSMC candles in
  ((length (SMC.liquiditySweeps report) <= 5)%nat /\
   (length (SMC.orderBlocks report) <= 3)%nat /\
   (length (SMC.fairValueGaps report) <= 5)%nat /\
   (length (SMC.institutionalCandles report) <= 5)%nat /\
   (length (SMC.supplyDemandZones report) <= 3)%nat) /\
  ((50 <= length candles)%nat ->
   keepsLast 5 (SMC.sweepsFound candles) (SMC.liquiditySweeps report) /\
   keepsLast 3 (SMC.orderBlocksFound candles) (SMC.orderBlocks report) /\
   keepsLast 5 (SMC.gapsFound candles) (SMC.fairValueGaps report) /\
   keepsLast 5 (SMC.institutionalFound candles)
             (SMC.institutionalCandles report) /\
   keepsLast 3 (SMC.zonesFound candles) (SMC.supplyDemandZones report)).
Proof.
  cbv zeta. unfold SMC.analyzeSMC.
  destruct (length candles <? 50)%nat eqn:Eg.
  - split; [cbn; lia|]. intro H. apply Nat.ltb_lt in Eg. lia.
  - cbn [SMC.liquiditySweeps SMC.orderBlocks SMC.fairValueGaps
         SMC.institutionalCandles SMC.supplyDemandZones].
    unfold SMC.detectLiquiditySweeps, SMC.detectOrderBlocks,
      SMC.detectFairValueGaps, SMC.detectInstitutionalCandles,
      SMC.identifySupplyDemandZones.
    cbv zeta. split.
    + repeat split; apply slice_last_length.
    + intros _. repeat split; apply slice_last_keepsLast.
Qed.

(** Thirteen steps: twelve order blocks are found and the report keeps
    the last three. *)
Lemma analyzeSMC_keeps_latest_example :
  let found := SMC.orderBlocksFound Scenario.stairs in
  let kept := SMC.orderBlocks (SMC.analyzeSMC Scenario.stairs) in
  length found = 12%nat /\ length kept = 3%nat /\
  exists older, length older = 9%nat /\ found = older ++ kept.
Proof.
  cbv zeta.
  pose proof (analyzeSMC_keeps_latest Scenario.stairs) as [_ H].
  destruct H as (_ & (older & Hfound & Hkept) & _).
  - apply Nat.leb_le. vm_compute. reflexivity.
  - assert (Hf : length (SMC.orderBlocksFound Scenario.stairs) = 12%nat)
      by (vm_compute; reflexivity).
    split; [exact Hf|]. rewrite Hf in Hkept. cbn [Nat.min] in Hkept.
    split; [exact Hkept|].
    exists older. split; [|exact Hfound].
    apply (f_equal (@length _)) in Hfound.
    rewrite length_app, Hf, Hkept in Hfound. lia.
Defined.

(** X9: a supply or demand zone needs ten bars after a fifty-bar
    lookback: a series of at most 60 bars has none. *)
Theorem analyzeSMC_no_zone_up_to_60_bars (candles : list CandleData) :
  (length candles <= 60)%nat ->
  SMC.identifySupplyDemandZones candles = [] /\
  SMC.supplyDemandZones (SMC.analyzeSMC candles) = [].
Proof.
  intro Hlen.
  assert (E : SMC.identifySupplyDemandZones candles = []).
  { unfold SMC.identifySupplyDemandZones, SMC.zonesFound. cbv zeta.
    replace (length candles - 10 - 50)%nat with 0%nat by lia.
    reflexivity. }
  split; [exact E|].
  unfold SMC.analyzeSMC.
  destruct (length candles <? 50)%nat; [reflexivity|].
  cbn [SMC.supplyDemandZones]. exact E.
Qed.

(** Sixty quiet bars: analysed in full, and no zone. *)
Lemma analyzeSMC_no_zone_example :
  SMC.supplyDemandZones (SMC.analyzeSMC (repeat Scenario.quiet 60)) = [].
Proof.
  apply (analyzeSMC_no_zone_up_to_60_bars (repeat Scenario.quiet 60)).
  rewrite repeat_length. lia.
Defined.

(** X10: in a report, a change of character always points the way of
    the market structure: a bullish CHOCH comes with a BULLISH structure
    and a bearish CHOCH with a BEARISH one. *)
Theorem analyzeSMC_choch_follows_structure (candles : list CandleData)
        (c : SMC.ChangeOfCharacter) :
  SMC.choch (SMC.analyzeSMC candles) = Some c ->
  match SMC.choch_type c with
  | SMC.BULLISH_CHOCH =>
      SMC.marketStructure (SMC.analyzeSMC candles) = Structure.BULLISH
  | SMC.BEARISH_CHOCH =>
      SMC.marketStructure (SMC.analyzeSMC candles) = Structure.BEARISH
  end.
Proof.
  unfold SMC.analyzeSMC.
  destruct (length candles <? 50)%nat; [discriminate|].
  cbn [SMC.choch SMC.marketStructure].
  assert (Es : SMC.determineMarketStructure (JS.slice_last 20 candles)
               = SMC.determineMarketStructure candles).
  { unfold SMC.determineMarketStructure. cbv zeta.
    now rewrite slice_last_idem. }
  unfold SMC.detectChangeOfCharacter. cbv zeta. rewrite Es.
  destruct (SMC.determineMarketStructure
              (JS.slice (length candles - 40) (length candles - 20) candles));
    destruct (SMC.determineMarketStructure candles);
    intro H; try discriminate; injection H as <-; reflexivity.
Qed.

(** A climb followed by a fall: the change of character and the
    structure are both bearish. *)
Lemma analyzeSMC_choch_follows_structure_example :
  exists c,
    SMC.choch (SMC.analyzeSMC Scenario.reversalSeries) = Some c /\
    SMC.choch_type c = SMC.BEARISH_CHOCH /\
    SMC.marketStructure (SMC.analyzeSMC Scenario.reversalSeries)
    = Structure.BEARISH.
Proof.
  eexists. split; [vm_compute; reflexivity|]. split; [reflexivity|].
  exact (analyzeSMC_choch_follows_structure Scenario.reversalSeries _
           eq_refl).
Defined.

Section Recommendation.
Variable liquiditySweeps : list SMC.LiquiditySweep.
Variable orderBlocks : list SMC.OrderBlock.
Variable fairValueGaps : list SMC.FairValueGap.
Variable marketStructure : Structure.t.
Variable bos : option SMC.BreakOfStructure.
Variable choch : option SMC.ChangeOfCharacter.
Variable institutionalCandles : list SMC.InstitutionalCandle.
Variable supplyDemandZones : list SMC.SupplyDemandZone.

(** X11: the structure detector's recommendation follows the sign of
    bullishSum - bearishSum: a buy (STRONG_BUY or BUY) exactly when the
    bullish sum is the larger, a sell exactly when the bearish sum is the
    larger, HOLD exactly when they are equal; the strong variants are
    those where one sum exceeds 1.5 times the other.  On HOLD the
    confidence is 0 or 50. *)
Theorem calculateSMCScore_recommendation :
  let bullish :=
    SMC.bullishScore liquiditySweeps orderBlocks fairValueGaps
                     marketStructure bos choch institutionalCandles in
  let bearish :=
    SMC.bearishScore liquiditySweeps orderBlocks fairValueGaps
                     marketStructure bos choch institutionalCandles in
  let score :=
    SMC.calculateSMCScore liquiditySweeps orderBlocks fairValueGaps
      marketStructure bos choch institutionalCandles supplyDemandZones in
  match SMC.score_recommendation score with
  | STRONG_BUY => bearish * 1.5 < bullish
  | BUY => bearish < bullish <= bearish * 1.5
  | HOLD =>
      bullish == bearish /\
      (SMC.confidence score == 0 \/ SMC.confidence score == 50)
  | SELL => bullish < bearish <= bullish * 1.5
  | STRONG_SELL => bullish * 1.5 < bearish
  end.
Proof.
  intros bullish bearish score.
  pose proof (bullishScore_nonneg liquiditySweeps orderBlocks fairValueGaps
                marketStructure bos choch institutionalCandles) as Hb.
  pose proof (bearishScore_nonneg liquiditySweeps orderBlocks fairValueGaps
                marketStructure bos choch institutionalCandles) as Hs.
  fold bullish in Hb. fold bearish in Hs.
  assert (Hrec : SMC.score_recommendation score
                 = if bullish >? bearish * 1.5 then STRONG_BUY
                   else if bullish >? bearish then BUY
                   else if bearish >? bullish * 1.5 then STRONG_SELL
                   else if bearish >? bullish then SELL
                   else HOLD) by reflexivity.
  assert (Hc : SMC.confidence score
               = Qmin 100
                   (JS.Math_round
                      (JS.double
                         (JS.double
                            (Qmax bullish bearish
                             / (if Qeq_bool (bullish + bearish) 0 then 1
                                else bullish + bearish)) * 100))))
    by reflexivity.
  clearbody score bullish bearish.
  rewrite Hrec.
  destruct (bullish >? bearish * 1.5) eqn:E1; comparisons; [lra|].
  destruct (bullish >? bearish) eqn:E2; comparisons; [lra|].
  destruct (bearish >? bullish * 1.5) eqn:E3; comparisons; [lra|].
  destruct (bearish >? bullish) eqn:E4; comparisons; [lra|].
  assert (Heq : bullish == bearish) by lra.
  split; [exact Heq|].
  rewrite Hc.
  destruct (Qeq_bool (bullish + bearish) 0) eqn:E0.
  - left. apply Qeq_bool_iff in E0.
    assert (Er : Qmax bullish bearish / 1 == 0).
    { destruct (Q.max_spec bullish bearish) as [[_ ->]|[_ ->]];
        field_simplify; lra. }
    rewrite (double_comp _ 0 Er). vm_compute. reflexivity.
  - right.
    assert (Hne : ~ bullish + bearish == 0).
    { intro A. apply Qeq_bool_iff in A. congruence. }
    assert (Er : Qmax bullish bearish / (bullish + bearish) == 1 # 2).
    { destruct (Q.max_spec bullish bearish) as [[_ ->]|[_ ->]];
        rewrite Heq; field; lra. }
    rewrite (double_comp _ (1 # 2) Er). vm_compute. reflexivity.
Qed.
End Recommendation.

(** * Further properties of the multi-timeframe aggregator *)

Lemma fold_Qplus_shift (xs : list Q) (a : Q) :
  fold_left Qplus xs a == a + fold_left Qplus xs 0.
Proof.
  revert a. induction xs as [|x rest IH]; intro a; cbn [fold_left].
  - ring.
  - rewrite (IH (a + x)), (IH (0 + x)). ring.
Qed.

Lemma sum_cons (x : Q) (xs : list Q) : JS.sum (x :: xs) == x + JS.sum xs.
Proof.
  unfold JS.sum. cbn [fold_left]. rewrite fold_Qplus_shift. ring.
Qed.

Lemma sum_app (xs ys : list Q) : JS.sum (xs ++ ys) == JS.sum xs + JS.sum ys.
Proof.
  induction xs as [|x rest IH]; cbn [app].
  - unfold JS.sum at 2. cbn. ring.
  - rewrite !sum_cons, IH. ring.
Qed.

Lemma groups_count (A : Type) (k : nat) (xs : list A) :
  length (Reading.groups k xs) = ((length xs + k) / S k)%nat.
Proof.
  induction xs as [xs IH] using length_induction.
  destruct xs as [|x rest]; [rewrite groups_nil; cbn [length];
                             symmetry; apply Nat.div_small; lia|].
  rewrite groups_cons. cbn [length].
  rewrite IH by (rewrite length_skipn; cbn; lia).
  rewrite length_skipn.
  destruct (Nat.le_gt_cases (length rest) k) as [Hle|Hgt].
  - replace (length rest - k)%nat with 0%nat by lia.
    rewrite (Nat.div_small (0 + k)) by lia.
    apply (Nat.div_unique _ _ 1%nat (length rest)); lia.
  - replace (S (length rest) + k)%nat
      with ((length rest - k + k) + 1 * S k)%nat by lia.
    rewrite Nat.div_add by lia. lia.
Qed.

Lemma groups_volume (k : nat) (xs : list CandleData) :
  JS.sum (map volume (map MTF.aggregateChunk (Reading.groups k xs)))
  == JS.sum (map volume xs).
Proof.
  induction xs as [xs IH] using length_induction.
  destruct xs as [|x rest]; [now rewrite groups_nil|].
  rewrite groups_cons. cbn [map]. rewrite sum_cons.
  rewrite IH by (rewrite length_skipn; cbn; lia).
  cbn [MTF.aggregateChunk volume].
  rewrite <- sum_app. rewrite <- map_app.
  cbn [app]. now rewrite firstn_skipn.
Qed.

(** X12: aggregation to 4H loses no bar and no volume: a series of n
    bars gives ceil(n/4) bars, and the volumes of the output add up to
    the volumes of the input. *)
Theorem aggregateTo4H_conserves (candles : list CandleData) :
  length (MTF.aggregateTo4H candles) = ((length candles + 3) / 4)%nat /\
  JS.sum (map volume (MTF.aggregateTo4H candles))
  == JS.sum (map volume candles).
Proof.
  rewrite aggregateTo4H_map. split.
  - rewrite length_map. apply groups_count.
  - apply groups_volume.
Qed.

(** The weighted sum of the six scores, as [calculateOverallTrend]
    accumulates it. *)
Lemma weighted_between (f : MTF.TimeframeSignal -> Q) (tfs : MTF.Timeframes)
      (lo hi : Q) :
  (forall tf, lo <= f (MTF.lookup tfs tf) <= hi) ->
  lo <= fold_left (fun acc e => acc + f (snd e) * MTF.TIMEFRAME_WEIGHTS (fst e))
                  (MTF.Object_entries tfs) 0
     <= hi.
Proof.
  intro H.
  pose proof (H MTF.tf1m) as H1. pose proof (H MTF.tf5m) as H2.
  pose proof (H MTF.tf15m) as H3. pose proof (H MTF.tf1H) as H4.
  pose proof (H MTF.tf4H) as H5. pose proof (H MTF.tf1D) as H6.
  cbn [MTF.Object_entries MTF.keys map fold_left fst snd
       MTF.TIMEFRAME_WEIGHTS MTF.lookup] in *.
  lra.
Qed.

(** X13: the overall trend is a weighted average of the six scores (the
    weights add up to 1): when all six scores are above 60 it is
    STRONG_BULLISH, when all are below -60 STRONG_BEARISH, and when all
    lie in [-20, 20] NEUTRAL; and the overall confidence of six
    confidences in [0,100] is again in [0,100]. *)
Theorem calculateOverallTrend_unanimous (tfs : MTF.Timeframes) :
  ((forall tf, 60 < MTF.score (MTF.lookup tfs tf)) ->
   MTF.calculateOverallTrend tfs = Trend.STRONG_BULLISH) /\
  ((forall tf, MTF.score (MTF.lookup tfs tf) < -60) ->
   MTF.calculateOverallTrend tfs = Trend.STRONG_BEARISH) /\
  ((forall tf, -20 <= MTF.score (MTF.lookup tfs tf) <= 20) ->
   MTF.calculateOverallTrend tfs = Trend.NEUTRAL) /\
  ((forall tf, 0 <= MTF.confidence (MTF.lookup tfs tf) <= 100) ->
   0 <= MTF.calculateConfidenceScore tfs <= 100).
Proof.
  unfold MTF.calculateOverallTrend, MTF.calculateConfidenceScore. cbv zeta.
  repeat split.
  - intro H.
    pose proof (H MTF.tf1m) as H1. pose proof (H MTF.tf5m) as H2.
    pose proof (H MTF.tf15m) as H3. pose proof (H MTF.tf1H) as H4.
    pose proof (H MTF.tf4H) as H5. pose proof (H MTF.tf1D) as H6.
    cbn [MTF.Object_entries MTF.keys map fold_left fst snd
         MTF.TIMEFRAME_WEIGHTS MTF.lookup] in *.
    replace (_ >? 60) with true; [reflexivity|].
    symmetry. apply gtb_true_iff. lra.
  - intro H.
    pose proof (H MTF.tf1m) as H1. pose proof (H MTF.tf5m) as H2.
    pose proof (H MTF.tf15m) as H3. pose proof (H MTF.tf1H) as H4.
    pose proof (H MTF.tf4H) as H5. pose proof (H MTF.tf1D) as H6.
    cbn [MTF.Object_entries MTF.keys map fold_left fst snd
         MTF.TIMEFRAME_WEIGHTS MTF.lookup] in *.
    replace (_ >? 60) with false by (symmetry; apply gtb_false_iff; lra).
    replace (_ >? 20) with false by (symmetry; apply gtb_false_iff; lra).
    replace (_ <? -60) with true; [reflexivity|].
    symmetry. apply ltb_true_iff. lra.
  - intro H.
    pose proof (weighted_between MTF.score tfs (-20) 20 H) as [Hlo Hhi].
    replace (_ >? 60) with false by (symmetry; apply gtb_false_iff; lra).
    replace (_ >? 20) with false by (symmetry; apply gtb_false_iff; lra).
    replace (_ <? -60) with false by (symmetry; apply ltb_false_iff; lra).
    replace (_ <? -20) with false by (symmetry; apply ltb_false_iff; lra).
    reflexivity.
  - apply (Math_round_mono 0).
    now apply (weighted_between MTF.confidence tfs 0 100).
  - apply (Math_round_mono _ 100).
    now apply (weighted_between MTF.confidence tfs 0 100).
Qed.

(** A count reaches the length exactly when every element qualifies. *)
Lemma count_all (A : Type) (p : A -> bool) (xs : list A) :
  JS.count p xs = length xs <-> forallb p xs = true.
Proof.
  unfold JS.count.
  induction xs as [|x rest IH]; cbn [filter forallb length].
  - tauto.
  - pose proof (filter_length_le p rest) as Hle.
    destruct (p x); cbn [length andb].
    + rewrite <- IH. split; intro H; lia.
    + split; [intro H; lia | discriminate].
Qed.

Lemma alignment_100_iff (m : nat) :
  (2 <= m <= 6)%nat ->
  (JS.Math_round (JS.ofNat m / JS.ofNat 6 * 100) = 100 <-> m = 6%nat).
Proof.
  intros [Hlo Hhi].
  assert (Hm : m = 2%nat \/ m = 3%nat \/ m = 4%nat \/ m = 5%nat \/ m = 6%nat)
    by lia.
  destruct Hm as [->|[->|[->|[->| ->]]]]; split; intro H;
    try reflexivity; try lia; vm_compute in H; discriminate.
Qed.

(** X14: the alignment is 100 exactly when the six timeframes fall in
    one class: all bullish (BULLISH or STRONG_BULLISH), all bearish, or
    all neutral. *)
Theorem calculateAlignment_full_iff (tfs : MTF.Timeframes) :
  let trends := map MTF.trend (MTF.Object_values tfs) in
  MTF.calculateAlignment tfs = 100 <->
  forallb MTF.isBullishTrend trends = true \/
  forallb MTF.isBearishTrend trends = true \/
  forallb MTF.isNeutralTrend trends = true.
Proof.
  intro trends.
  pose proof (trend_counts_partition trends) as Hsum.
  change (length trends) with 6%nat in Hsum.
  unfold MTF.calculateAlignment, MTF.alignmentOfTrends. fold trends.
  rewrite Math_max_ofNat3.
  change (length trends) with 6%nat.
  rewrite alignment_100_iff by lia.
  rewrite <- !count_all. change (length trends) with 6%nat.
  lia.
Qed.

(** * Further properties of the pattern detectors *)

Import Technical.

Lemma reports_app (name : string) (xs ys : list TechnicalSignal) :
  reports name (xs ++ ys) = reports name xs || reports name ys.
Proof. unfold reports. apply existsb_app. Qed.

Lemma reports_pushIf (name : string) (cond : bool) (s : TechnicalSignal) :
  reports name (pushIf cond s) = cond && String.eqb (pattern s) name.
Proof. destruct cond; cbn; [apply orb_false_r | reflexivity]. Qed.

Lemma engulfing_exclusive (prev curr : CandleData) :
  isBullishEngulfing prev curr && isBearishEngulfing prev curr = false.
Proof.
  unfold isBullishEngulfing, isBearishEngulfing.
  destruct (close prev <? open prev) eqn:E1;
    destruct (close prev >? open prev) eqn:E2; cbn [andb];
    try reflexivity; try apply andb_false_r.
  comparisons. exfalso. lra.
Qed.

Lemma engulfing_not_piercing (prev curr : CandleData) :
  isBullishEngulfing prev curr && isPiercingPattern prev curr = false.
Proof.
  unfold isBullishEngulfing, isPiercingPattern.
  destruct (close curr >? open prev) eqn:E1;
    destruct (close curr <? open prev) eqn:E2;
    rewrite ?andb_false_r; try reflexivity.
  comparisons. exfalso. lra.
Qed.

Lemma engulfing_not_dark_cloud (prev curr : CandleData) :
  isBearishEngulfing prev curr && isDarkCloudCover prev curr = false.
Proof.
  unfold isBearishEngulfing, isDarkCloudCover.
  destruct (close curr <? open prev) eqn:E1;
    destruct (close curr >? open prev) eqn:E2;
    rewrite ?andb_false_r; try reflexivity.
  comparisons. exfalso. lra.
Qed.

Lemma stars_exclusive (first second third : CandleData) :
  isMorningStar first second third && isEveningstar first second third
  = false.
Proof.
  unfold isMorningStar, isEveningstar. cbv zeta.
  destruct (close first <? open first) eqn:E1;
    destruct (close first >? open first) eqn:E2; cbn [andb];
    try reflexivity; try apply andb_false_r.
  comparisons. exfalso. lra.
Qed.

Lemma hammer_not_shooting_star (candle : CandleData) :
  isHammer candle && isShootingStar candle = false.
Proof.
  unfold isHammer, isShootingStar. cbv zeta.
  pose proof (Qabs_nonneg (close candle - open candle)) as Hbody.
  destruct (_ >? Qabs (close candle - open candle) * 2) eqn:E1 at 1;
    [|reflexivity].
  destruct (_ <? Qabs (close candle - open candle) * 0.5) eqn:E2 at 2;
    [|now rewrite !andb_false_r].
  comparisons. exfalso. lra.
Qed.

(** X15: a candlestick report never holds two contradictory readings of
    the same bars: not both engulfing patterns, not a bullish engulfing
    with a piercing pattern, not a bearish engulfing with a dark cloud
    cover, not both stars, not a hammer with a shooting star. *)
Theorem candlestick_report_consistent (candles : list CandleData) :
  let report := detectCandlestickPatterns candles in
  reports "Bullish Engulfing" report && reports "Bearish Engulfing" report
  = false /\
  reports "Bullish Engulfing" report && reports "Piercing Pattern" report
  = false /\
  reports "Bearish Engulfing" report && reports "Dark Cloud Cover" report
  = false /\
  reports "Morning Star" report && reports "Evening Star" report = false /\
  reports "Hammer" report && reports "Shooting Star" report = false.
Proof.
  cbv zeta. unfold detectCandlestickPatterns.
  destruct (length candles <? 3)%nat; [repeat split|].
  cbv zeta.
  set (current := candleAt candles (length candles - 1)).
  set (previous := candleAt candles (length candles - 2)).
  set (twoDaysAgo := candleAt candles (length candles - 3)).
  rewrite !reports_app, !reports_pushIf.
  cbn [pattern sigBullishEngulfing sigMorningStar sigHammer sigPiercing
       sigBearishEngulfing sigEveningStar sigShootingStar sigDarkCloudCover
       sigDoji].
  repeat match goal with
         | |- context [String.eqb ?a ?b] =>
             let v := eval vm_compute in (String.eqb a b) in
             change (String.eqb a b) with v
         end.
  rewrite ?andb_false_r, ?andb_true_r, ?orb_false_r, ?orb_false_l.
  repeat split.
  - apply engulfing_exclusive.
  - apply engulfing_not_piercing.
  - apply engulfing_not_dark_cloud.
  - apply stars_exclusive.
  - apply hammer_not_shooting_star.
Qed.

Lemma count_disjoint (A : Type) (p q : A -> bool) (xs : list A) :
  (forall x, p x && q x = false) ->
  (JS.count p xs + JS.count q xs <= length xs)%nat.
Proof.
  intro H. unfold JS.count.
  induction xs as [|x rest IH]; cbn [filter length]; [lia|].
  specialize (H x).
  destruct (p x), (q x); cbn [length]; try discriminate; lia.
Qed.

Lemma trends_exclusive (closes : list Q) :
  isUptrend closes && isDowntrend closes = false.
Proof.
  unfold isUptrend, isDowntrend. cbv zeta.
  set (recent := JS.slice_last 10 closes).
  set (idxs := seq 2 (length recent - 2)).
  pose proof (slice_last_length Q 10 closes) as Hlen. fold recent in Hlen.
  assert (Hidx : (length idxs <= 8)%nat).
  { unfold idxs. rewrite length_seq. lia. }
  pose proof (count_disjoint nat
                (fun i => nth i recent 0 >? nth (i - 2) recent 0)
                (fun i => nth i recent 0 <? nth (i - 2) recent 0) idxs) as Hd.
  assert (Hx : forall i,
             (nth i recent 0 >? nth (i - 2) recent 0)
             && (nth i recent 0 <? nth (i - 2) recent 0) = false).
  { intro i.
    destruct (_ >? _) eqn:E1; destruct (_ <? _) eqn:E2; try reflexivity.
    comparisons. exfalso. lra. }
  specialize (Hd Hx).
  set (up := JS.count (fun i => nth i recent 0 >? nth (i - 2) recent 0) idxs)
    in *.
  set (down := JS.count (fun i => nth i recent 0 <? nth (i - 2) recent 0) idxs)
    in *.
  destruct (Nat.leb_spec 6 up); destruct (Nat.leb_spec 6 down);
    try reflexivity.
  exfalso. lia.
Qed.

(** The extreme of a window of prices that are not negative is not
    negative. *)
Lemma Math_min_nonneg (xs : list Q) :
  (forall x, In x xs -> 0 <= x) -> 0 <= JS.Math_min xs.
Proof.
  intro H. destruct xs as [|a rest]; cbn [JS.Math_min]; [lra|].
  apply H. apply fold_Qmin_attained.
Qed.

Lemma Math_max_nonneg (xs : list Q) :
  (forall x, In x xs -> 0 <= x) -> 0 <= JS.Math_max xs.
Proof.
  intro H. destruct xs as [|a rest]; cbn [JS.Math_max]; [lra|].
  apply H. apply fold_Qmax_attained.
Qed.

(** X16: on fewer than ten bars the chart detector reports nothing; it
    never reports an uptrend together with a downtrend, nor a resistance
    breakout together with a support breakdown; a report holds at most
    four signals; and a series of exactly ten bars with no negative
    price never shows a double top or a double bottom, the second half
    of their window being empty. *)
Theorem chart_report_consistent (rupees : Q -> string)
        (candles : list CandleData) :
  let report := detectChartPatterns rupees candles in
  ((length candles < 10)%nat -> report = []) /\
  reports "Uptrend" report && reports "Downtrend" report = false /\
  reports "Resistance Breakout" report && reports "Support Breakdown" report
  = false /\
  (length report <= 4)%nat /\
  (length candles = 10%nat ->
   (forall c, In c candles -> 0 <= low c /\ 0 <= high c) ->
   reports "Double Bottom" report = false /\
   reports "Double Top" report = false).
Proof.
  cbv zeta. unfold detectChartPatterns.
  destruct (length candles <? 10)%nat eqn:Eg.
  { apply Nat.ltb_lt in Eg. repeat split; try reflexivity; cbn; lia. }
  apply Nat.ltb_ge in Eg. cbv zeta.
  pose proof (trends_exclusive (map close candles)) as Ht.
  set (breakout := match detectBreakout rupees candles with
                   | Some b => [b] | None => [] end).
  assert (Hb : (reports "Uptrend" breakout = false /\
                reports "Downtrend" breakout = false /\
                reports "Double Bottom" breakout = false /\
                reports "Double Top" breakout = false) /\
               reports "Resistance Breakout" breakout
               && reports "Support Breakdown" breakout = false /\
               (length breakout <= 1)%nat).
  { unfold breakout, detectBreakout. cbv zeta.
    destruct (_ >? _); [repeat split; cbn; lia|].
    destruct (_ <? _); repeat split; cbn; lia. }
  destruct Hb as ((B1 & B2 & B3 & B4) & Bx & Bl).
  rewrite !reports_app, !reports_pushIf, !length_app.
  cbn [pattern].
  repeat match goal with
         | |- context [String.eqb ?a ?b] =>
             let v := eval vm_compute in (String.eqb a b) in
             change (String.eqb a b) with v
         end.
  rewrite ?andb_false_r, ?andb_true_r, ?orb_false_r, ?orb_false_l.
  rewrite B1, B2, B3, B4, ?orb_false_r.
  split; [intro; lia|].
  split; [exact Ht|].
  split; [exact Bx|].
  split.
  - destruct (isUptrend _), (isDowntrend _), (isDoubleBottom _),
      (isDoubleTop _); try discriminate; cbn [pushIf length]; lia.
  - intros H10 Hpos.
    assert (Hl : forall xs : list Q, length xs = 10%nat ->
                                     JS.slice_last 20 xs = xs).
    { intros xs Hx. unfold JS.slice_last. rewrite Hx.
      replace (10 - 20)%nat with 0%nat by reflexivity.
      apply skipn_O. }
    assert (He : forall xs : list Q, length xs = 10%nat -> skipn 10 xs = []).
    { intros xs Hx. apply skipn_all2. lia. }
    unfold isDoubleBottom, isDoubleTop. cbv zeta.
    rewrite !Hl, !He by (now rewrite length_map).
    unfold JS.slice. rewrite !skipn_O.
    rewrite !firstn_all2 by (rewrite length_map; lia).
    split; apply ltb_false_iff;
      [apply Math_min_nonneg | apply Math_max_nonneg];
      intros x Hx; apply in_map_iff in Hx; destruct Hx as (c & <- & Hc);
      now destruct (Hpos c Hc).
Qed.

(** * Properties of the operator strength score *)

Lemma Qdiv_nonneg (x y : Q) : 0 <= x -> 0 <= y -> 0 <= x / y.
Proof.
  intros Hx Hy. unfold Qdiv.
  apply Qmult_le_0_compat; [exact Hx | now apply Qinv_le_0_compat].
Qed.

Lemma strengthStep_nonneg (avgVolume : Q) (total : nat) (b s : Q)
      (ic : nat * CandleData) :
  0 <= b -> 0 <= s ->
  0 <= fst (strengthStep avgVolume total (b, s) ic) /\
  0 <= snd (strengthStep avgVolume total (b, s) ic).
Proof.
  intros Hb Hs. destruct ic as [idx candle].
  unfold strengthStep. cbv zeta. cbn [fst snd].
  set (w := JS.ofNat (idx + 1) / JS.ofNat total).
  assert (Hw : 0 <= w).
  { apply Qdiv_nonneg; apply ofNat_nonneg. }
  assert (Hadd : isStrongCandle avgVolume candle = true ->
                 0 <= 10 * (volume candle / avgVolume)).
  { unfold isStrongCandle. cbv zeta. intro H.
    apply andb_true_iff in H. destruct H as [H _]. comparisons. lra. }
  split.
  - destruct (close candle >? open candle);
      destruct (isStrongCandle avgVolume candle); cbn [andb negb];
      try (specialize (Hadd eq_refl)); nra.
  - destruct (close candle >? open candle);
      destruct (isStrongCandle avgVolume candle); cbn [andb negb];
      try (specialize (Hadd eq_refl)); nra.
Qed.

Lemma strength_fold_nonneg (avgVolume : Q) (total : nat)
      (xs : list (nat * CandleData)) (st : Q * Q) :
  0 <= fst st -> 0 <= snd st ->
  0 <= fst (fold_left (strengthStep avgVolume total) xs st) /\
  0 <= snd (fold_left (strengthStep avgVolume total) xs st).
Proof.
  revert st. induction xs as [|ic rest IH]; intros [b s] Hb Hs;
    cbn [fold_left]; [now split|].
  cbn [fst snd] in Hb, Hs.
  destruct (strengthStep_nonneg avgVolume total b s ic Hb Hs) as [Hb' Hs'].
  now apply IH.
Qed.

(** Without a strong candle both running scores stay at zero. *)
Lemma strength_fold_quiet (avgVolume : Q) (total : nat)
      (xs : list (nat * CandleData)) (st : Q * Q) :
  forallb (fun ic => negb (isStrongCandle avgVolume (snd ic))) xs = true ->
  fst st == 0 -> snd st == 0 ->
  fst (fold_left (strengthStep avgVolume total) xs st) == 0 /\
  snd (fold_left (strengthStep avgVolume total) xs st) == 0.
Proof.
  revert st. induction xs as [|[idx candle] rest IH]; intros [b s] Hq Hb Hs;
    cbn [fold_left]; [now split|].
  cbn [forallb snd] in Hq. apply andb_true_iff in Hq. destruct Hq as [Hc Hq].
  apply negb_true_iff in Hc. cbn [fst snd] in Hb, Hs.
  apply IH; [exact Hq | |];
    unfold strengthStep; cbv zeta; rewrite Hc, !andb_false_r; cbn [fst snd].
  - rewrite Hb. ring.
  - rewrite Hs. ring.
Qed.

Lemma forallb_indexed (A : Type) (p : A -> bool) (xs : list A) (i : nat) :
  forallb (fun ic => p (snd ic)) (JS.indexed_from i xs) = forallb p xs.
Proof.
  revert i. induction xs as [|x rest IH]; intro i; cbn; [reflexivity|].
  now rewrite IH.
Qed.

(** The unrounded score and the three-way classification of
    [calculateOperatorStrength]. *)
Lemma strength_classify (operatorScore : Q) (r : OperatorStrength) :
  0 <= operatorScore <= 100 ->
  r = (if operatorScore >? 65
       then mkStrength (JS.Math_round operatorScore) BULLISH
              "Strong operator buying detected. Institutions accumulating positions."
       else if operatorScore <? 35
       then mkStrength (JS.Math_round operatorScore) BEARISH
              "Strong operator selling detected. Institutions distributing positions."
       else mkStrength (JS.Math_round operatorScore) NEUTRAL
              "Balanced operator activity. No clear directional bias.") ->
  0 <= score r <= 100 /\
  (exists z : Z, score r = inject_Z z) /\
  match sentiment r with
  | BULLISH => 65 <= score r
  | BEARISH => score r <= 35
  | NEUTRAL => 35 <= score r <= 65
  end.
Proof.
  intros [Hlo Hhi] ->.
  pose proof (Math_round_mono 0 _ Hlo) as R0.
  pose proof (Math_round_mono _ 100 Hhi) as R100.
  change (JS.Math_round 0) with 0 in R0.
  change (JS.Math_round 100) with 100 in R100.
  destruct (operatorScore >? 65) eqn:E65;
    [|destruct (operatorScore <? 35) eqn:E35];
    cbn [score sentiment]; comparisons;
    (split; [split; assumption|]);
    (split; [apply Math_round_integer|]).
  - apply (Math_round_mono 65). lra.
  - apply (Math_round_mono _ 35). lra.
  - split; [apply (Math_round_mono 35) | apply (Math_round_mono _ 65)];
      assumption.
Qed.

(** X17: on well-formed bars the operator strength score is an integer
    in [0,100] (50 and NEUTRAL below ten bars), and the sentiment agrees
    with it: BULLISH only from 65 up, BEARISH only up to 35, NEUTRAL in
    between. *)
Theorem calculateOperatorStrength_score (candles : list CandleData) :
  forallb wellFormed candles = true ->
  let strength := calculateOperatorStrength candles in
  0 <= score strength <= 100 /\
  (exists z : Z, score strength = inject_Z z) /\
  match sentiment strength with
  | BULLISH => 65 <= score strength
  | BEARISH => score strength <= 35
  | NEUTRAL => 35 <= score strength <= 65
  end /\
  ((length candles < 10)%nat ->
   score strength = 50 /\ sentiment strength = NEUTRAL).
Proof.
  intros _. cbv zeta. unfold calculateOperatorStrength.
  destruct (length candles <? 10)%nat eqn:Eg.
  { cbn [score sentiment]. repeat split; try lra.
    exists 50%Z. reflexivity. }
  apply Nat.ltb_ge in Eg. cbv zeta.
  set (recent := JS.slice_last 10 candles).
  set (avgVolume := JS.sum (volumes recent) / JS.ofNat (length recent)).
  pose proof (strength_fold_nonneg avgVolume (length recent)
                (JS.indexed recent) (0, 0)) as Hnn.
  cbn [fst snd] in Hnn. specialize (Hnn ltac:(lra) ltac:(lra)).
  destruct (fold_left (strengthStep avgVolume (length recent))
                      (JS.indexed recent) (0, 0)) as [b s].
  cbn [fst snd] in Hnn. destruct Hnn as [Hb Hs].
  set (divisor := if Qeq_bool (b + s) 0 then 1 else b + s).
  assert (Hd : 0 < divisor /\ b <= divisor).
  { unfold divisor. destruct (Qeq_bool (b + s) 0) eqn:E.
    - apply Qeq_bool_iff in E. lra.
    - assert (~ b + s == 0) by (intro A; apply Qeq_bool_iff in A; congruence).
      lra. }
  destruct Hd as [Hdpos Hdle].
  assert (Hrange : 0 <= Qmin 100 (b / divisor * 100) <= 100).
  { split; [|apply Q.le_min_l].
    apply Q.min_glb; [lra|].
    assert (0 <= b / divisor) by (apply Qdiv_nonneg; lra). lra. }
  edestruct (strength_classify _ _ Hrange eq_refl) as (H1 & H2 & H3).
  split; [exact H1|]. split; [exact H2|]. split; [exact H3|].
  intro. lia.
Qed.

(** A heavy green bar answered by a heavy red one: 59, NEUTRAL. *)
Lemma calculateOperatorStrength_score_example :
  let strength := calculateOperatorStrength Scenario.contestedSeries in
  score strength = 59 /\ sentiment strength = NEUTRAL /\
  35 <= score strength <= 65.
Proof.
  pose proof (calculateOperatorStrength_score Scenario.contestedSeries
                ltac:(vm_compute; reflexivity)) as (_ & _ & H & _).
  cbv zeta.
  split; [vm_compute; reflexivity|]. split; [vm_compute; reflexivity|].
  exact H.
Defined.

(** X18: when none of the last ten (well-formed) bars is a
    volume-confirmed large-body candle, the score is 0 and the sentiment
    BEARISH: a quiet market is reported as strong operator selling. *)
Theorem calculateOperatorStrength_quiet (candles : list CandleData) :
  forallb wellFormed candles = true ->
  (10 <= length candles)%nat ->
  let recent := JS.slice_last 10 candles in
  let avgVolume := JS.sum (volumes recent) / JS.ofNat (length recent) in
  forallb (fun c => negb (isStrongCandle avgVolume c)) recent = true ->
  score (calculateOperatorStrength candles) = 0 /\
  sentiment (calculateOperatorStrength candles) = BEARISH.
Proof.
  intros _ Hlen recent avgVolume Hquiet.
  unfold calculateOperatorStrength.
  replace (length candles <? 10)%nat with false
    by (symmetry; now apply Nat.ltb_ge).
  cbv zeta. fold recent. fold avgVolume.
  pose proof (strength_fold_quiet avgVolume (length recent)
                (JS.indexed recent) (0, 0)) as Hz.
  unfold JS.indexed in Hz at 1.
  rewrite (forallb_indexed CandleData
             (fun c => negb (isStrongCandle avgVolume c))) in Hz.
  specialize (Hz Hquiet ltac:(reflexivity) ltac:(reflexivity)).
  destruct (fold_left (strengthStep avgVolume (length recent))
                      (JS.indexed recent) (0, 0)) as [b s].
  cbn [fst snd] in Hz. destruct Hz as [Hb Hs].
  replace (Qeq_bool (b + s) 0) with true
    by (symmetry; apply Qeq_bool_iff; lra).
  assert (Hzero : Qmin 100 (b / 1 * 100) == 0).
  { rewrite Q.min_r; [rewrite Hb; reflexivity|]. rewrite Hb.
    vm_compute. discriminate. }
  replace (Qmin 100 (b / 1 * 100) >? 65) with false
    by (symmetry; apply gtb_false_iff; lra).
  replace (Qmin 100 (b / 1 * 100) <? 35) with true
    by (symmetry; apply ltb_true_iff; lra).
  cbn [score sentiment]. split; [|reflexivity].
  now rewrite (Math_round_comp _ 0 Hzero).
Qed.

(** Ten identical bars: no volume stands out. *)
Lemma calculateOperatorStrength_quiet_example :
  score (calculateOperatorStrength Scenario.tenBars) = 0 /\
  sentiment (calculateOperatorStrength Scenario.tenBars) = BEARISH.
Proof.
  apply (calculateOperatorStrength_quiet Scenario.tenBars).
  - vm_compute. reflexivity.
  - cbn. lia.
  - vm_compute. reflexivity.
Defined.

(** * Properties of the per-timeframe analysis *)

(** What the score table of [analyzeTimeframe] allows. *)
Lemma scoreTimeframe_table (tf : MTF.Timeframe) (rsi : Q)
      (macd ema priceAction : Direction) (volume : VolumeState.t) :
  let s := MTF.scoreTimeframe tf rsi macd ema priceAction volume in
  let directed := [MTF.macd s; MTF.ema s; MTF.priceAction s] in
  -100 <= MTF.score s <= 100 /\
  0 <= MTF.confidence s <= 100 /\
  (MTF.trend s = Trend.STRONG_BULLISH ->
   65 <= MTF.score s /\
   (2 <= JS.count (Direction_eqb BULLISH) directed)%nat /\
   85 <= MTF.confidence s) /\
  (MTF.trend s = Trend.STRONG_BEARISH ->
   MTF.score s <= -65 /\
   (2 <= JS.count (Direction_eqb BEARISH) directed)%nat /\
   85 <= MTF.confidence s) /\
  (MTF.trend s = Trend.NEUTRAL ->
   -20 <= MTF.score s <= 20 /\ MTF.confidence s <= 50).
Proof.
  unfold MTF.scoreTimeframe. cbv zeta.
  cbn [MTF.score MTF.confidence MTF.trend MTF.macd MTF.ema MTF.priceAction].
  destruct (rsi >? 70);
    [|destruct (rsi >? 60);
      [|destruct (rsi >? 50);
        [|destruct (rsi >? 40); [|destruct (rsi >? 30)]]]];
    destruct macd, ema, priceAction, volume; vm_compute;
    repeat split; intros; try discriminate; try lia.
Qed.

Section TimeframeFacts.
Variable RSI_calculate : list Q -> nat -> list Q.
Variable MACD_calculate : list Q -> nat -> nat -> nat -> list MTF.MACDOutput.
Variable EMA_calculate : list Q -> nat -> list Q.

(** Every signal is the default one or comes out of the score table. *)
Lemma analyzeTimeframe_cases (candles : list CandleData) (tf : MTF.Timeframe) :
  MTF.analyzeTimeframe RSI_calculate MACD_calculate EMA_calculate candles tf
  = MTF.getDefaultTimeframeSignal tf \/
  exists rsi macd ema priceAction volume,
    MTF.analyzeTimeframe RSI_calculate MACD_calculate EMA_calculate candles tf
    = MTF.scoreTimeframe tf rsi macd ema priceAction volume.
Proof.
  unfold MTF.analyzeTimeframe.
  destruct (length candles <? 20)%nat; [now left|].
  right. cbv zeta. do 5 eexists. reflexivity.
Qed.

Lemma analyzeTimeframe_table (candles : list CandleData) (tf : MTF.Timeframe) :
  let s := MTF.analyzeTimeframe RSI_calculate MACD_calculate EMA_calculate
             candles tf in
  let directed := [MTF.macd s; MTF.ema s; MTF.priceAction s] in
  -100 <= MTF.score s <= 100 /\
  0 <= MTF.confidence s <= 100 /\
  (MTF.trend s = Trend.STRONG_BULLISH ->
   65 <= MTF.score s /\
   (2 <= JS.count (Direction_eqb BULLISH) directed)%nat /\
   85 <= MTF.confidence s) /\
  (MTF.trend s = Trend.STRONG_BEARISH ->
   MTF.score s <= -65 /\
   (2 <= JS.count (Direction_eqb BEARISH) directed)%nat /\
   85 <= MTF.confidence s) /\
  (MTF.trend s = Trend.NEUTRAL ->
   -20 <= MTF.score s <= 20 /\ MTF.confidence s <= 50).
Proof.
  destruct (analyzeTimeframe_cases candles tf)
    as [-> | (r & m & e & p & v & ->)].
  - vm_compute. repeat split; intros; discriminate.
  - apply scoreTimeframe_table.
Qed.

(** X19: the score of a timeframe lies in [-100,100] and its confidence
    in [0,100]; a STRONG_BULLISH (STRONG_BEARISH) timeframe has at least
    two of MACD, EMA and price action bullish (bearish) and a confidence
    of 85 or more, and a NEUTRAL timeframe never has a confidence above
    50. *)
Theorem analyzeTimeframe_score (candles : list CandleData)
        (tf : MTF.Timeframe) :
  let s := MTF.analyzeTimeframe RSI_calculate MACD_calculate EMA_calculate
             candles tf in
  let directed := [MTF.macd s; MTF.ema s; MTF.priceAction s] in
  -100 <= MTF.score s <= 100 /\
  0 <= MTF.confidence s <= 100 /\
  (MTF.trend s = Trend.STRONG_BULLISH ->
   (2 <= JS.count (Direction_eqb BULLISH) directed)%nat /\
   85 <= MTF.confidence s) /\
  (MTF.trend s = Trend.STRONG_BEARISH ->
   (2 <= JS.count (Direction_eqb BEARISH) directed)%nat /\
   85 <= MTF.confidence s) /\
  (MTF.trend s = Trend.NEUTRAL -> MTF.confidence s <= 50).
Proof.
  cbv zeta.
  destruct (analyzeTimeframe_table candles tf) as (Hs & Hc & Hb & Hr & Hn).
  cbv zeta in Hb, Hr, Hn.
  split; [exact Hs|]. split; [exact Hc|].
  split; [intro H; now destruct (Hb H) as (_ & ? & ?)|].
  split; [intro H; now destruct (Hr H) as (_ & ? & ?)|].
  intro H. now destruct (Hn H).
Qed.

End TimeframeFacts.

(** * Properties of the multi-timeframe report *)

Section ReportFacts.
Variable RSI_calculate : list Q -> nat -> list Q.
Variable MACD_calculate : list Q -> nat -> nat -> nat -> list MTF.MACDOutput.
Variable EMA_calculate : list Q -> nat -> list Q.

Let analyzeTimeframe :=
  MTF.analyzeTimeframe RSI_calculate MACD_calculate EMA_calculate.
Let analyzeFetched :=
  MTF.analyzeFetched RSI_calculate MACD_calculate EMA_calculate.

(** X20: when every timeframe has fewer than 20 bars, the report built
    from the fetched series is the default one in every field but the
    price and the alignment: the six default signals all read NEUTRAL,
    so the alignment is 100, where the default report says 0. *)
Theorem analyzeFetched_without_data (sym : string)
        (timeframeData : MTF.Timeframe -> list CandleData) :
  (forall tf, (length (timeframeData tf) < 20)%nat) ->
  let report := analyzeFetched sym timeframeData in
  let default := MTF.getDefaultMTFAnalysis sym in
  MTF.timeframes report = MTF.timeframes default /\
  MTF.overallTrend report = MTF.overallTrend default /\
  MTF.confidenceScore report = MTF.confidenceScore default /\
  MTF.recommendation report = MTF.recommendation default /\
  MTF.keyLevels report = MTF.keyLevels default /\
  MTF.alignment report = 100 /\
  MTF.alignment default = 0.
Proof.
  intros Hshort report default.
  assert (Ha : forall tf,
             analyzeTimeframe (timeframeData tf) tf
             = MTF.getDefaultTimeframeSignal tf).
  { intro tf. unfold analyzeTimeframe, MTF.analyzeTimeframe.
    now rewrite (proj2 (Nat.ltb_lt _ _) (Hshort tf)). }
  assert (Hk : MTF.identifyKeyLevels (timeframeData MTF.tf1D)
               = MTF.mkKeyLevels [] []).
  { unfold MTF.identifyKeyLevels.
    replace (length (timeframeData MTF.tf1D) <? 50)%nat with true;
      [reflexivity|].
    symmetry. apply Nat.ltb_lt. specialize (Hshort MTF.tf1D). lia. }
  unfold report, analyzeFetched, MTF.analyzeFetched. cbv zeta.
  fold analyzeTimeframe. rewrite !Ha, Hk.
  cbn [MTF.timeframes MTF.overallTrend MTF.confidenceScore
       MTF.recommendation MTF.keyLevels MTF.alignment default
       MTF.getDefaultMTFAnalysis].
  repeat split; vm_compute; reflexivity.
Qed.

(** The trends of the six signals of a report, in reading order. *)
Lemma report_trends (sym : string)
      (timeframeData : MTF.Timeframe -> list CandleData) (t : Trend.t) :
  (forall tf, MTF.trend (analyzeTimeframe (timeframeData tf) tf) = t) ->
  map MTF.trend
      (MTF.Object_values (MTF.timeframes (analyzeFetched sym timeframeData)))
  = repeat t 6.
Proof.
  intro H.
  unfold analyzeFetched, MTF.analyzeFetched. cbv zeta.
  cbn [MTF.timeframes MTF.Object_values MTF.keys map MTF.lookup
       MTF.on1m MTF.on5m MTF.on15m MTF.on1H MTF.on4H MTF.on1D].
  fold analyzeTimeframe. now rewrite !H.
Qed.

Lemma report_lookup (sym : string)
      (timeframeData : MTF.Timeframe -> list CandleData) (tf : MTF.Timeframe) :
  MTF.lookup (MTF.timeframes (analyzeFetched sym timeframeData)) tf
  = analyzeTimeframe (timeframeData tf) tf.
Proof. destruct tf; reflexivity. Qed.

(** X21: when all six timeframes read STRONG_BULLISH, the report has
    overall trend STRONG_BULLISH, alignment 100, an overall confidence of
    85 or more and therefore the recommendation STRONG_BUY; and likewise
    STRONG_SELL when all six read STRONG_BEARISH. *)
Theorem analyzeFetched_unanimous (sym : string)
        (timeframeData : MTF.Timeframe -> list CandleData)
        (t : Trend.t) :
  t = Trend.STRONG_BULLISH \/ t = Trend.STRONG_BEARISH ->
  (forall tf, MTF.trend (analyzeTimeframe (timeframeData tf) tf) = t) ->
  let report := analyzeFetched sym timeframeData in
  MTF.overallTrend report = t /\
  MTF.alignment report = 100 /\
  85 <= MTF.confidenceScore report <= 100 /\
  MTF.recommendation report
  = match t with Trend.STRONG_BULLISH => STRONG_BUY | _ => STRONG_SELL end.
Proof.
  intros Ht Hall report.
  pose proof (report_trends sym timeframeData t Hall) as Htrends.
  pose proof (report_lookup sym timeframeData) as Hlookup.
  assert (Hconf : 85 <= MTF.calculateConfidenceScore (MTF.timeframes report)
                  <= 100).
  { unfold MTF.calculateConfidenceScore. cbv zeta.
    assert (Hb : forall tf,
               85 <= MTF.confidence (MTF.lookup (MTF.timeframes report) tf)
               <= 100).
    { intro tf. unfold report. rewrite Hlookup.
      destruct (analyzeTimeframe_table RSI_calculate MACD_calculate
                  EMA_calculate (timeframeData tf) tf)
        as (_ & Hc & Hb & Hr & _).
      cbv zeta in Hb, Hr. fold analyzeTimeframe in Hc, Hb, Hr.
      specialize (Hall tf).
      destruct Ht as [-> | ->];
        [destruct (Hb Hall) as (_ & _ & ?) | destruct (Hr Hall) as (_ & _ & ?)];
        lra. }
    pose proof (weighted_between MTF.confidence _ 85 100 Hb) as [Hlo Hhi].
    split; [apply (Math_round_mono 85) | apply (Math_round_mono _ 100)];
      assumption. }
  assert (Htrend : MTF.calculateOverallTrend (MTF.timeframes report) = t).
  { unfold MTF.calculateOverallTrend. cbv zeta.
    destruct Ht as [-> | ->].
    - assert (Hb : forall tf,
                 65 <= MTF.score (MTF.lookup (MTF.timeframes report) tf)
                 <= 100).
      { intro tf. unfold report. rewrite Hlookup.
        destruct (analyzeTimeframe_table RSI_calculate MACD_calculate
                    EMA_calculate (timeframeData tf) tf)
          as (Hs & _ & Hb & _).
        cbv zeta in Hb. fold analyzeTimeframe in Hs, Hb.
        destruct (Hb (Hall tf)) as (? & _). lra. }
      pose proof (weighted_between MTF.score _ 65 100 Hb) as [Hlo Hhi].
      replace (_ >? 60) with true; [reflexivity|].
      symmetry. apply gtb_true_iff. lra.
    - assert (Hb : forall tf,
                 -100 <= MTF.score (MTF.lookup (MTF.timeframes report) tf)
                 <= -65).
      { intro tf. unfold report. rewrite Hlookup.
        destruct (analyzeTimeframe_table RSI_calculate MACD_calculate
                    EMA_calculate (timeframeData tf) tf)
          as (Hs & _ & _ & Hr & _).
        cbv zeta in Hr. fold analyzeTimeframe in Hs, Hr.
        destruct (Hr (Hall tf)) as (? & _). lra. }
      pose proof (weighted_between MTF.score _ (-100) (-65) Hb) as [Hlo Hhi].
      replace (_ >? 60) with false by (symmetry; apply gtb_false_iff; lra).
      replace (_ >? 20) with false by (symmetry; apply gtb_false_iff; lra).
      replace (_ <? -60) with true; [reflexivity|].
      symmetry. apply ltb_true_iff. lra. }
  assert (Halign : MTF.calculateAlignment (MTF.timeframes report) = 100).
  { unfold MTF.calculateAlignment. cbv zeta. unfold report.
    rewrite Htrends. destruct Ht as [-> | ->]; vm_compute; reflexivity. }
  assert (Hrec : MTF.generateRecommendation (MTF.timeframes report) t
                   (MTF.calculateConfidenceScore (MTF.timeframes report))
                 = match t with
                   | Trend.STRONG_BULLISH => STRONG_BUY
                   | _ => STRONG_SELL
                   end).
  { unfold MTF.generateRecommendation. cbv zeta.
    replace (MTF.calculateConfidenceScore (MTF.timeframes report) >? 70)
      with true by (symmetry; apply gtb_true_iff; lra).
    destruct Ht as [-> | ->]; reflexivity. }
  change (MTF.overallTrend report)
    with (MTF.calculateOverallTrend (MTF.timeframes report)).
  change (MTF.alignment report)
    with (MTF.calculateAlignment (MTF.timeframes report)).
  change (MTF.confidenceScore report)
    with (MTF.calculateConfidenceScore (MTF.timeframes report)).
  change (MTF.recommendation report)
    with (MTF.generateRecommendation (MTF.timeframes report)
            (MTF.calculateOverallTrend (MTF.timeframes report))
            (MTF.calculateConfidenceScore (MTF.timeframes report))).
  rewrite Htrend at 1. rewrite Htrend.
  split; [reflexivity|]. split; [exact Halign|]. split; [exact Hconf|].
  exact Hrec.
Qed.

End ReportFacts.

(** No bar at all on any timeframe. *)
Lemma analyzeFetched_without_data_example :
  MTF.alignment
    (MTF.analyzeFetched Scenario.oversoldRSI Scenario.risingMACD
       Scenario.risingEMA "NIFTY" Scenario.noData) = 100.
Proof.
  apply (analyzeFetched_without_data Scenario.oversoldRSI Scenario.risingMACD
           Scenario.risingEMA "NIFTY" Scenario.noData).
  intro tf. cbn. lia.
Defined.

(** Scenario C: fifty rising bars on each of the six timeframes. *)
Lemma analyzeFetched_unanimous_example :
  let report := MTF.analyzeFetched Scenario.oversoldRSI Scenario.risingMACD
                  Scenario.risingEMA "NIFTY" (fun _ => Scenario.risingSeries) in
  MTF.overallTrend report = Trend.STRONG_BULLISH /\
  MTF.alignment report = 100 /\
  85 <= MTF.confidenceScore report <= 100 /\
  MTF.recommendation report = STRONG_BUY.
Proof.
  apply (analyzeFetched_unanimous Scenario.oversoldRSI Scenario.risingMACD
           Scenario.risingEMA "NIFTY" (fun _ => Scenario.risingSeries)
           Trend.STRONG_BULLISH).
  - left. reflexivity.
  - intro tf. destruct tf; vm_compute; reflexivity.
Defined.

(** * Properties of the key levels *)

Lemma leb_true_iff (x y : Q) : (x <=? y) = true <-> x <= y.
Proof. unfold JS.leb. apply Qle_bool_iff. Qed.

Lemma leb_false_iff (x y : Q) : (x <=? y) = false <-> y < x.
Proof.
  unfold JS.leb. split; intro H.
  - apply Qnot_le_lt. intro Hle. apply Qle_bool_iff in Hle. congruence.
  - destruct (Qle_bool x y) eqn:E; [|reflexivity].
    apply Qle_bool_iff in E. lra.
Qed.

Lemma geb_true_iff (x y : Q) : (x >=? y) = true <-> y <= x.
Proof. unfold JS.geb. apply Qle_bool_iff. Qed.

Lemma geb_false_iff (x y : Q) : (x >=? y) = false <-> x < y.
Proof. unfold JS.geb. apply (leb_false_iff y x). Qed.

(** Both sorts keep the elements of the array. *)
Lemma insertAscending_In (x y : Q) (sorted : list Q) :
  In y (MTF.insertAscending x sorted) <-> y = x \/ In y sorted.
Proof.
  induction sorted as [|z rest IH]; cbn [MTF.insertAscending In].
  - intuition congruence.
  - destruct (x <=? z); cbn [In]; [|rewrite IH]; intuition congruence.
Qed.

Lemma insertDescending_In (x y : Q) (sorted : list Q) :
  In y (MTF.insertDescending x sorted) <-> y = x \/ In y sorted.
Proof.
  induction sorted as [|z rest IH]; cbn [MTF.insertDescending In].
  - intuition congruence.
  - destruct (x >=? z); cbn [In]; [|rewrite IH]; intuition congruence.
Qed.

Lemma sortAscending_In (y : Q) (xs : list Q) :
  In y (MTF.sortAscending xs) <-> In y xs.
Proof.
  unfold MTF.sortAscending.
  induction xs as [|x rest IH]; cbn [fold_right In]; [tauto|].
  rewrite insertAscending_In, IH. intuition congruence.
Qed.

Lemma sortDescending_In (y : Q) (xs : list Q) :
  In y (MTF.sortDescending xs) <-> In y xs.
Proof.
  unfold MTF.sortDescending.
  induction xs as [|x rest IH]; cbn [fold_right In]; [tauto|].
  rewrite insertDescending_In, IH. intuition congruence.
Qed.

(** Both sorts put the array in order. *)
Lemma insertAscending_sorted (x : Q) (sorted : list Q) :
  StronglySorted Qle sorted ->
  StronglySorted Qle (MTF.insertAscending x sorted).
Proof.
  induction 1 as [|z rest Hs IH Hall]; cbn [MTF.insertAscending].
  - constructor; constructor.
  - destruct (x <=? z) eqn:E.
    + apply leb_true_iff in E. constructor.
      * now constructor.
      * constructor; [exact E|].
        apply Forall_forall. intros w Hw.
        pose proof (proj1 (Forall_forall _ _) Hall w Hw). lra.
    + apply leb_false_iff in E. constructor; [exact IH|].
      apply Forall_forall. intros w Hw.
      apply insertAscending_In in Hw. destruct Hw as [-> | Hw]; [lra|].
      exact (proj1 (Forall_forall _ _) Hall w Hw).
Qed.

Lemma insertDescending_sorted (x : Q) (sorted : list Q) :
  StronglySorted (fun a b => b <= a) sorted ->
  StronglySorted (fun a b => b <= a) (MTF.insertDescending x sorted).
Proof.
  induction 1 as [|z rest Hs IH Hall]; cbn [MTF.insertDescending].
  - constructor; constructor.
  - destruct (x >=? z) eqn:E.
    + apply geb_true_iff in E. constructor.
      * now constructor.
      * constructor; [exact E|].
        apply Forall_forall. intros w Hw.
        pose proof (proj1 (Forall_forall _ _) Hall w Hw) as Hle.
        cbv beta in Hle. lra.
    + apply geb_false_iff in E. constructor; [exact IH|].
      apply Forall_forall. intros w Hw.
      apply insertDescending_In in Hw. destruct Hw as [-> | Hw]; [lra|].
      exact (proj1 (Forall_forall _ _) Hall w Hw).
Qed.

Lemma sortAscending_sorted (xs : list Q) :
  StronglySorted Qle (MTF.sortAscending xs).
Proof.
  unfold MTF.sortAscending.
  induction xs as [|x rest IH]; cbn [fold_right]; [constructor|].
  now apply insertAscending_sorted.
Qed.

Lemma sortDescending_sorted (xs : list Q) :
  StronglySorted (fun a b => b <= a) (MTF.sortDescending xs).
Proof.
  unfold MTF.sortDescending.
  induction xs as [|x rest IH]; cbn [fold_right]; [constructor|].
  now apply insertDescending_sorted.
Qed.

(** The first [n] of a sorted array come before all the others. *)
Lemma firstn_sorted_split (R : Q -> Q -> Prop) (n : nat) (xs : list Q) :
  StronglySorted R xs ->
  StronglySorted R (firstn n xs) /\
  forall a b, In a (firstn n xs) -> In b (skipn n xs) -> R a b.
Proof.
  intro Hs. revert n.
  induction Hs as [|z rest Hs IH Hall]; intro n.
  - rewrite firstn_nil. split; [constructor|]. intros a b [].
  - destruct n as [|n]; cbn [firstn skipn].
    + split; [constructor|]. intros a b [].
    + destruct (IH n) as [IH1 IH2]. split.
      * constructor; [exact IH1|].
        apply Forall_forall. intros w Hw.
        apply (proj1 (Forall_forall _ _) Hall).
        rewrite <- (firstn_skipn n rest). apply in_or_app. now left.
      * intros a b [<- | Ha] Hb.
        -- apply (proj1 (Forall_forall _ _) Hall).
           rewrite <- (firstn_skipn n rest). apply in_or_app. now right.
        -- now apply IH2.
Qed.

(** X22: the key levels.  Fewer than 50 daily bars give none.  Otherwise
    at most three of each kind are reported; every resistance is the
    high, and every support the low, of an inner bar of the last 50;
    the resistances come in ascending and the supports in descending
    order; and the levels kept are the lowest swing highs and the highest
    swing lows: no swing level left out lies strictly inside the ones
    reported. *)
Theorem identifyKeyLevels_nearest (dailyCandles : list CandleData) :
  let levels := MTF.identifyKeyLevels dailyCandles in
  let recent := JS.slice_last 50 dailyCandles in
  let highs := map high recent in
  let lows := map low recent in
  let swingHighs :=
    map (fun i => nth i highs 0)
        (filter (MTF.isSwingHigh highs) (seq 2 46)) in
  let swingLows :=
    map (fun i => nth i lows 0)
        (filter (MTF.isSwingLow lows) (seq 2 46)) in
  ((length dailyCandles < 50)%nat ->
   MTF.support levels = [] /\ MTF.resistance levels = []) /\
  ((50 <= length dailyCandles)%nat ->
   (length (MTF.resistance levels) <= 3)%nat /\
   (length (MTF.support levels) <= 3)%nat /\
   StronglySorted Qle (MTF.resistance levels) /\
   StronglySorted (fun a b => b <= a) (MTF.support levels) /\
   (forall r, In r (MTF.resistance levels) -> In r swingHighs) /\
   (forall s, In s (MTF.support levels) -> In s swingLows) /\
   (forall r h, In r (MTF.resistance levels) -> In h swingHighs ->
                In h (MTF.resistance levels) \/ r <= h) /\
   (forall s l, In s (MTF.support levels) -> In l swingLows ->
                In l (MTF.support levels) \/ l <= s)).
Proof.
  cbv zeta. unfold MTF.identifyKeyLevels. split.
  - intro H. apply Nat.ltb_lt in H. rewrite H. now split.
  - intro H.
    replace (length dailyCandles <? 50)%nat with false
      by (symmetry; apply Nat.ltb_ge; exact H).
    cbv zeta. cbn [MTF.support MTF.resistance].
    assert (Hlen : length (JS.slice_last 50 dailyCandles) = 50%nat).
    { unfold JS.slice_last. rewrite length_skipn. lia. }
    rewrite !length_map, Hlen.
    change (50 - 2 - 2)%nat with 46%nat.
    set (highs := map high (JS.slice_last 50 dailyCandles)).
    set (lows := map low (JS.slice_last 50 dailyCandles)).
    set (swingHighs := map (fun i => nth i highs 0) _).
    set (swingLows := map (fun i => nth i lows 0) _).
    unfold JS.slice. rewrite !skipn_O. change (3 - 0)%nat with 3%nat.
    destruct (firstn_sorted_split Qle 3 _ (sortAscending_sorted swingHighs))
      as [Hr1 Hr2].
    destruct (firstn_sorted_split (fun a b => b <= a) 3 _
                (sortDescending_sorted swingLows)) as [Hs1 Hs2].
    split; [apply firstn_le_length|]. split; [apply firstn_le_length|].
    split; [exact Hr1|]. split; [exact Hs1|].
    split; [|split; [|split]].
    + intros r Hr. apply sortAscending_In.
      rewrite <- (firstn_skipn 3 (MTF.sortAscending swingHighs)).
      apply in_or_app. now left.
    + intros s Hs. apply sortDescending_In.
      rewrite <- (firstn_skipn 3 (MTF.sortDescending swingLows)).
      apply in_or_app. now left.
    + intros r h Hr Hh. apply sortAscending_In in Hh.
      rewrite <- (firstn_skipn 3 (MTF.sortAscending swingHighs)) in Hh.
      apply in_app_or in Hh. destruct Hh as [Hh | Hh]; [now left|].
      right. now apply Hr2.
    + intros s l Hs Hl. apply sortDescending_In in Hl.
      rewrite <- (firstn_skipn 3 (MTF.sortDescending swingLows)) in Hl.
      apply in_app_or in Hl. destruct Hl as [Hl | Hl]; [now left|].
      right. exact (Hs2 s l Hs Hl).
Qed.

(** Up, down and up again: one swing high at 122 and one swing low at
    98. *)
Lemma identifyKeyLevels_nearest_example :
  let levels := MTF.identifyKeyLevels Scenario.zigzagSeries in
  MTF.resistance levels = [122] /\ MTF.support levels = [98] /\
  StronglySorted Qle (MTF.resistance levels).
Proof.
  cbv zeta.
  split; [vm_compute; reflexivity|]. split; [vm_compute; reflexivity|].
  pose proof (identifyKeyLevels_nearest Scenario.zigzagSeries) as [_ H].
  destruct H as (_ & _ & Hsorted & _).
  - apply Nat.leb_le. vm_compute. reflexivity.
  - exact Hsorted.
Defined.
